(** * import_rhcos.py: a shallow embedding and its verified properties

    The script publishes the RHCOS disk image of an OpenShift release as an
    AMI: resolve the RHCOS version from [release.txt], download and unpack the
    VMDK, upload it to S3, import it as an EBS snapshot (polled), register an
    image from the snapshot and make it public.

    Layout of this file:
    - [PyStr]: the string operations the script uses ([split], [join],
      [format], the two regular expressions, [int], [os.path.join]);
    - [Discovery]: the pure part of the [__main__] block (filter, dedup, sort);
    - section [Pipeline]: the class [OpenShiftRelease] and the [__main__]
      loops, written against an arbitrary environment (requests, boto3, os,
      gzip, time are calls answered by a handler);
    - [Sim]: one executable environment (files, bucket, snapshots, images);
    - the theorems. *)

From Stdlib Require Import ZArith QArith Lia List String Ascii Bool DecimalString.
From Stdlib Require Import Sorted Permutation.
From stdpp Require Import base strings list gmap.
Import ListNotations.

Local Open Scope string_scope.
Local Open Scope list_scope.

(* ===================================================================== *)
(** ** Python strings *)
(* ===================================================================== *)

(** A Python [str] is modelled as a Rocq [string] whose characters are the
    code points 0..255.  In that range the class [\d] of [re] (Unicode
    category Nd) is exactly ['0'..'9']. *)
Module PyStr.

Definition is_digit (c : ascii) : bool :=
  let n := nat_of_ascii c in Nat.leb 48 n && Nat.leb n 57.

(** The character class [[\d\.\-]]. *)
Definition is_version_char (c : ascii) : bool :=
  is_digit c || Ascii.eqb c "." || Ascii.eqb c "-".

Definition truthy (s : string) : bool :=
  match s with EmptyString => false | String _ _ => true end.

Fixpoint take_while (p : ascii -> bool) (s : string) : string :=
  match s with
  | EmptyString => EmptyString
  | String c s' => if p c then String c (take_while p s') else EmptyString
  end.

Fixpoint drop_while (p : ascii -> bool) (s : string) : string :=
  match s with
  | EmptyString => EmptyString
  | String c s' => if p c then drop_while p s' else s
  end.

(** [strip_prefix p s] is [Some rest] when [s = p ++ rest]. *)
Fixpoint strip_prefix (p s : string) : option string :=
  match p, s with
  | EmptyString, _ => Some s
  | String a p', String b s' => if Ascii.eqb a b then strip_prefix p' s' else None
  | String _ _, EmptyString => None
  end.

Definition startswith (p s : string) : bool :=
  match strip_prefix p s with Some _ => true | None => false end.

(** [s.split(sep)] for a one-character separator: never the empty list. *)
Fixpoint split (sep : ascii) (s : string) : list string :=
  match s with
  | EmptyString => [EmptyString]
  | String c s' =>
      if Ascii.eqb c sep then EmptyString :: split sep s'
      else match split sep s' with
           | h :: t => String c h :: t
           | [] => [String c EmptyString]
           end
  end.

(** [sep.join(l)]. *)
Definition join (sep : string) (l : list string) : string := String.concat sep l.

(** ['{}'.format(x)] where [x] is a [str] or [None]. *)
Definition fmt (x : option string) : string :=
  match x with Some s => s | None => "None" end.

(** ['.'.join(version.split('.')[0:2])] *)
Definition major_minor (version : string) : string :=
  join "." (firstn 2 (split "." version)).

(** [re.search(r'machine-os ([\d\.\-]+)', s, re.MULTILINE)], returning
    [m.group(1)]: the leftmost position where the literal is followed by at
    least one class character; the group is the longest such run.  The
    pattern has no anchor, so [re.MULTILINE] changes nothing. *)
Fixpoint re_search_machine_os (s : string) : option string :=
  match s with
  | EmptyString => None
  | String _ s' =>
      match strip_prefix "machine-os " s with
      | Some rest =>
          let g := take_while is_version_char rest in
          if truthy g then Some g else re_search_machine_os s'
      | None => re_search_machine_os s'
      end
  end.

(** One or more digits, greedy: the rest of the string after them. *)
Definition digits1 (s : string) : option string :=
  if truthy (take_while is_digit s) then Some (drop_while is_digit s) else None.

Definition expect (c : ascii) (s : string) : option string :=
  match s with
  | String a s' => if Ascii.eqb a c then Some s' else None
  | EmptyString => None
  end.

(** [$] without [re.MULTILINE]: the end of the string, or just before a
    newline that ends the string. *)
Definition at_dollar (s : string) : bool :=
  match s with
  | EmptyString => true
  | String c EmptyString => Ascii.eqb c "010"
  | _ => false
  end.

(** [re.search(r'^\d+\.\d+\.\d+$', s)] as a truth value.  Each [\d+] is
    followed by a token that is not a digit, so the greedy run is the only
    candidate. *)
Definition re_release (s : string) : bool :=
  match digits1 s with
  | Some s1 =>
      match expect "." s1 with
      | Some s2 =>
          match digits1 s2 with
          | Some s3 =>
              match expect "." s3 with
              | Some s4 =>
                  match digits1 s4 with
                  | Some s5 => at_dollar s5
                  | None => false
                  end
              | None => false
              end
          | None => false
          end
      | None => false
      end
  | None => false
  end.

(** Characters [int()] strips from a [str]: tab to carriage return and the
    space, and of the code points above 127 the two that count as white
    space, U+0085 and U+00A0.  The separators U+001C to U+001F are not
    stripped. *)
Definition is_space (c : ascii) : bool :=
  let n := nat_of_ascii c in
  (Nat.leb 9 n && Nat.leb n 13) || Nat.eqb n 32
  || Nat.eqb n 133 || Nat.eqb n 160.

Fixpoint rev_string (s acc : string) : string :=
  match s with
  | EmptyString => acc
  | String c s' => rev_string s' (String c acc)
  end.

Definition strip (s : string) : string :=
  let l := drop_while is_space s in
  rev_string (drop_while is_space (rev_string l EmptyString)) EmptyString.

(** Decimal digits with single underscores between them, as [int()] reads
    them; [acc] is the value so far, [prev_digit] tells whether the previous
    character was a digit. *)
Fixpoint int_digits (s : string) (acc : Z) (prev_digit : bool) : option Z :=
  match s with
  | EmptyString => if prev_digit then Some acc else None
  | String c s' =>
      if is_digit c
      then int_digits s' (10 * acc + (Z.of_nat (nat_of_ascii c) - 48))%Z true
      else if Ascii.eqb c "_" && prev_digit
           then match s' with
                | String d _ => if is_digit d then int_digits s' acc false else None
                | EmptyString => None
                end
           else None
  end.

(** The number of decimal digits of a string. *)
Fixpoint digit_count (s : string) : Z :=
  match s with
  | EmptyString => 0
  | String c s' => ((if is_digit c then 1 else 0) + digit_count s')%Z
  end.

(** [sys.int_info.default_max_str_digits]: [int()] refuses a string of more
    digits.  The script does not change the limit. *)
Definition int_max_str_digits : Z := 4300.

(** The digits after the sign, under the limit on their number. *)
Definition int_unsigned (t : string) : option Z :=
  if (digit_count t <=? int_max_str_digits)%Z then int_digits t 0%Z false else None.

(** [int(s)] in base 10; [None] is [ValueError]. *)
Definition int (s : string) : option Z :=
  match strip s with
  | String "-" t => option_map Z.opp (int_unsigned t)
  | String "+" t => int_unsigned t
  | t => int_unsigned t
  end.

(** [os.path.join(a, b)] of [posixpath]. *)
Fixpoint endswith_slash (a : string) : bool :=
  match a with
  | EmptyString => false
  | String c EmptyString => Ascii.eqb c "/"
  | String _ a' => endswith_slash a'
  end.

Definition os_path_join (a b : string) : string :=
  if startswith "/" b then b
  else if negb (truthy a) || endswith_slash a then a +:+ b
  else a +:+ "/" +:+ b.

End PyStr.

(* ===================================================================== *)
(** ** The pure part of [__main__]: filter, dedup, sort *)
(* ===================================================================== *)

Module Discovery.
Import PyStr.

(** [x in l] for a list of strings. *)
Definition py_in (x : string) (l : list string) : bool :=
  existsb (String.eqb x) l.

(** The condition on line 302. *)
Definition selected (versions_to_upload : list string) (version : string) : bool :=
  py_in (major_minor version) versions_to_upload && re_release version.

(** The loop [for node in data['nodes']] (lines 300-304); [nodes] holds the
    [version] field of each node, [openshift_versions] is the accumulator. *)
Fixpoint collect_nodes (versions_to_upload : list string) (nodes : list string)
    (openshift_versions : list string) : list string :=
  match nodes with
  | [] => openshift_versions
  | version :: rest =>
      collect_nodes versions_to_upload rest
        (if selected versions_to_upload version
         then if negb (py_in version openshift_versions)
              then openshift_versions ++ [version]
              else openshift_versions
         else openshift_versions)
  end.

(** [list(map(int, s.split('.')))]; [None] when an [int()] raises. *)
Fixpoint map_int (l : list string) : option (list Z) :=
  match l with
  | [] => Some []
  | x :: l' =>
      match int x with
      | Some n => match map_int l' with Some r => Some (n :: r) | None => None end
      | None => None
      end
  end.

Definition sort_key (s : string) : option (list Z) := map_int (split "." s).

(** [a < b] on lists of integers. *)
Fixpoint list_lt (a b : list Z) : bool :=
  match a, b with
  | [], [] => false
  | [], _ :: _ => true
  | _ :: _, [] => false
  | x :: a', y :: b' =>
      if (x <? y)%Z then true else if (y <? x)%Z then false else list_lt a' b'
  end.

(** [list.sort(reverse=True, key=...)] is stable: elements with equal keys
    keep their order.  A stable sort has one result, so any stable algorithm
    models it; this one inserts from the right. *)
Fixpoint insert_desc (kx : list Z * string) (l : list (list Z * string))
    : list (list Z * string) :=
  match l with
  | [] => [kx]
  | ky :: l' =>
      if list_lt (fst kx) (fst ky) then ky :: insert_desc kx l' else kx :: l
  end.

Definition sort_desc (l : list (list Z * string)) : list (list Z * string) :=
  fold_right insert_desc [] l.

Fixpoint keyed (l : list string) : option (list (list Z * string)) :=
  match l with
  | [] => Some []
  | s :: l' =>
      match sort_key s with
      | Some k => match keyed l' with Some r => Some ((k, s) :: r) | None => None end
      | None => None
      end
  end.

(** Line 306; [None] when a key computation raises [ValueError]. *)
Definition sort_versions (openshift_versions : list string) : option (list string) :=
  option_map (fun l => map snd (sort_desc l)) (keyed openshift_versions).

End Discovery.

(* ===================================================================== *)
(** ** Effects: exceptions, environment calls, the trace *)
(* ===================================================================== *)

(** The exceptions of the script.  The two [RuntimeError]s are raised by the
    script itself; the message of the first one prints a float, so the model
    keeps the arguments of the message instead of its text. *)
Inductive exn : Type :=
  | RuntimeError_size (rhcos_size : Z)
      (* line 128: 'RHCOS file size too small {} bytes ({} MB)' *)
  | RuntimeError_timeout (import_task_id : string)
      (* line 215: 'More than 5 minutes have passed and snapshot import
         task {} has not completed' *)
  | TypeError_join
      (* line 88: str.join over a list that holds None *)
  | ValueError_int
      (* line 306: int() of a component that is not a number, or has
         more digits than int() accepts *)
  | LibraryError (what : string).
      (* anything raised inside requests, boto3, os, gzip, shutil *)

(** How a run ends.  [OutOfFuel] belongs to the model only: the loop
    [while True] is unrolled [fuel] times. *)
Inductive outcome (A : Type) : Type :=
  | Ok (a : A)
  | Raise (e : exn)
  | OutOfFuel.
Arguments Ok {A} a.
Arguments Raise {A} e.
Arguments OutOfFuel {A}.

(** The answer of the environment to one call. *)
Inductive reply (X : Type) : Type :=
  | Reply (x : X)
  | Failure (what : string).
Arguments Reply {X} x.
Arguments Failure {X} what.

(** A [requests] response: [r.text] and [r.content]. *)
Record Response (Blob : Type) : Type := mkResponse { text : string; content : Blob }.
Arguments mkResponse {Blob} text content.
Arguments text {Blob} r.
Arguments content {Blob} r.

(** [snapshot_task['ImportSnapshotTasks'][0]['SnapshotTaskDetail']] *)
Record SnapshotTaskDetail : Type := mkDetail { Status : string; SnapshotId : string }.

(** Every call the script makes outside itself, indexed by what it returns.
    [Blob] stands for [bytes]: the script never looks inside a body. *)
Inductive call (Blob : Type) : Type -> Type :=
  | requests_get (url : string) : call Blob (Response Blob)
  | upgrades_graph (channel : string) : call Blob (list string)
      (* lines 289-301: the GET on the upgrade graph, [r.json()] and the
         [version] of each element of [data['nodes']] *)
  | tempfile_gettempdir : call Blob string
  | os_path_exists (path : string) : call Blob bool
  | open_wb (path : string) : call Blob unit
  | file_write (path : string) (body : Blob) : call Blob unit
  | os_path_getsize (path : string) : call Blob Z
  | gzip_open_rb (path : string) : call Blob unit
  | shutil_copyfileobj (gz_path out_path : string) : call Blob unit
  | os_remove (path : string) : call Blob unit
  | open_rb (path : string) : call Blob unit
  | boto3_client (service : string) : call Blob unit
  | s3_list_objects_v2 (Bucket Prefix : string) : call Blob (option Z)
      (* the answer is [response.get('KeyCount')] *)
  | s3_upload_fileobj (path Bucket Key : string) : call Blob unit
  | ec2_describe_snapshots (rhcos_version_tag : option string) : call Blob (list string)
      (* the answer lists the [SnapshotId]s of [response['Snapshots']] *)
  | ec2_import_snapshot (Description S3Bucket S3Key : string) : call Blob string
  | ec2_describe_import_snapshot_tasks (ImportTaskId : string) : call Blob SnapshotTaskDetail
  | ec2_create_tags (Resource : string) (rhcos_version_tag : option string) : call Blob unit
  | time_sleep (seconds : Z) : call Blob unit
  | ec2_describe_images (Name : string) : call Blob (list string)
      (* the answer lists the [ImageId]s of [response['Images']] *)
  | ec2_register_image (Name Description Snapshot : string) : call Blob string
  | ec2_modify_image_attribute (ImageId : string) : call Blob unit.

Arguments requests_get {Blob} url.
Arguments upgrades_graph {Blob} channel.
Arguments tempfile_gettempdir {Blob}.
Arguments os_path_exists {Blob} path.
Arguments open_wb {Blob} path.
Arguments file_write {Blob} path body.
Arguments os_path_getsize {Blob} path.
Arguments gzip_open_rb {Blob} path.
Arguments shutil_copyfileobj {Blob} gz_path out_path.
Arguments os_remove {Blob} path.
Arguments open_rb {Blob} path.
Arguments boto3_client {Blob} service.
Arguments s3_list_objects_v2 {Blob} Bucket Prefix.
Arguments s3_upload_fileobj {Blob} path Bucket Key.
Arguments ec2_describe_snapshots {Blob} rhcos_version_tag.
Arguments ec2_import_snapshot {Blob} Description S3Bucket S3Key.
Arguments ec2_describe_import_snapshot_tasks {Blob} ImportTaskId.
Arguments ec2_create_tags {Blob} Resource rhcos_version_tag.
Arguments time_sleep {Blob} seconds.
Arguments ec2_describe_images {Blob} Name.
Arguments ec2_register_image {Blob} Name Description Snapshot.
Arguments ec2_modify_image_attribute {Blob} ImageId.

Inductive log_entry : Type :=
  | INFO (msg : string)
  | ERROR (e : exn).

(** What a run leaves behind, in order: the calls it made, each with the
    answer it got, and the lines it logged. *)
Inductive event (Blob : Type) : Type :=
  | Called {X : Type} (c : call Blob X) (r : reply X)
  | Logged (l : log_entry).
Arguments Called {Blob X} c r.
Arguments Logged {Blob} l.

(** The object: [self.version], [self.s3_bucket] and the five caches. *)
Record OpenShiftRelease : Type := mkRelease {
  version : string;
  s3_bucket : string;
  _data : option string;
  _rhcos_filename : option string;
  _rhcos_path : option string;
  _rhcos_url : option string;
  _rhcos_version : option string
}.

(** [OpenShiftRelease(version, s3_bucket)] *)
Definition __init__ (version s3_bucket : string) : OpenShiftRelease :=
  mkRelease version s3_bucket None None None None None.

Definition set_data (v : option string) (o : OpenShiftRelease) : OpenShiftRelease :=
  mkRelease (version o) (s3_bucket o) v (_rhcos_filename o) (_rhcos_path o)
    (_rhcos_url o) (_rhcos_version o).
Definition set_rhcos_filename (v : option string) (o : OpenShiftRelease) : OpenShiftRelease :=
  mkRelease (version o) (s3_bucket o) (_data o) v (_rhcos_path o)
    (_rhcos_url o) (_rhcos_version o).
Definition set_rhcos_path (v : option string) (o : OpenShiftRelease) : OpenShiftRelease :=
  mkRelease (version o) (s3_bucket o) (_data o) (_rhcos_filename o) v
    (_rhcos_url o) (_rhcos_version o).
Definition set_rhcos_url (v : option string) (o : OpenShiftRelease) : OpenShiftRelease :=
  mkRelease (version o) (s3_bucket o) (_data o) (_rhcos_filename o) (_rhcos_path o)
    v (_rhcos_version o).
Definition set_rhcos_version (v : option string) (o : OpenShiftRelease) : OpenShiftRelease :=
  mkRelease (version o) (s3_bucket o) (_data o) (_rhcos_filename o) (_rhcos_path o)
    (_rhcos_url o) v.

(** [not x] for a cache slot: [None] and [''] are both false values. *)
Definition py_not (x : option string) : bool :=
  match x with
  | None => true
  | Some s => negb (PyStr.truthy s)
  end.

(** The monad: state [S], an outcome, and the events of the run. *)
Definition M (Blob S A : Type) : Type := S -> outcome A * S * list (event Blob).

Definition ret {Blob S A} (a : A) : M Blob S A := fun s => (Ok a, s, []).

Definition raise {Blob S A} (e : exn) : M Blob S A := fun s => (Raise e, s, []).

Definition out_of_fuel {Blob S A} : M Blob S A := fun s => (OutOfFuel, s, []).

Definition bind {Blob S A B} (m : M Blob S A) (f : A -> M Blob S B) : M Blob S B :=
  fun s =>
    match m s with
    | (Ok a, s1, t1) => let '(r, s2, t2) := f a s1 in (r, s2, t1 ++ t2)
    | (Raise e, s1, t1) => (Raise e, s1, t1)
    | (OutOfFuel, s1, t1) => (OutOfFuel, s1, t1)
    end.

(** [try: m except Exception as e: h e] *)
Definition try_except {Blob S A} (m : M Blob S A) (h : exn -> M Blob S A) : M Blob S A :=
  fun s =>
    match m s with
    | (Raise e, s1, t1) => let '(r, s2, t2) := h e s1 in (r, s2, t1 ++ t2)
    | other => other
    end.

Definition logger_info {Blob S} (msg : string) : M Blob S unit :=
  fun s => (Ok tt, s, [Logged (INFO msg)]).

Definition logger_error {Blob S} (e : exn) : M Blob S unit :=
  fun s => (Ok tt, s, [Logged (ERROR e)]).

Declare Scope py_scope.
Delimit Scope py_scope with py.
Notation "x <- c1 ;; c2" := (bind c1 (fun x => c2))
  (at level 100, c1 at next level, right associativity) : py_scope.
Notation "c1 ;; c2" := (bind c1 (fun _ => c2))
  (at level 100, right associativity) : py_scope.

Definition outcome_of {A S E} (x : outcome A * S * E) : outcome A := fst (fst x).
Definition state_of {A S E} (x : outcome A * S * E) : S := snd (fst x).
Definition events_of {A S E} (x : outcome A * S * E) : E := snd x.

(* ===================================================================== *)
(** ** The class [OpenShiftRelease] and the [__main__] block *)
(* ===================================================================== *)

(** Python's [int / int] is the correctly rounded quotient.  Dividing by
    [1024 * 1024 = 2^20] is exact for every size a file can have, and [100]
    is a float, so comparing the rational quotient decides the same. *)
Definition true_div (a b : Z) : Q := Qdiv (inject_Z a) (inject_Z b).
Definition float_lt (x y : Q) : bool := negb (Qle_bool y x).

Definition release_txt_url (version : string) : string :=
  "http://mirror.openshift.com/pub/openshift-v4/clients/ocp/" +:+ version +:+ "/release.txt".

Definition base_url : string :=
  "https://releases-art-rhcos.svc.ci.openshift.org/art/storage/releases".

(** The object and the world it runs in. *)
Record state (World : Type) : Type := mkState { self : OpenShiftRelease; world : World }.
Arguments mkState {World} self world.
Arguments self {World} s.
Arguments world {World} s.

Section Pipeline.

Context {Blob World : Type}.

(** The environment: how each call is answered and what it does to the
    world.  Nothing is assumed about it. *)
Variable handle : forall X : Type, call Blob X -> World -> reply X * World.

Local Open Scope py_scope.

Abbreviation Top := (M Blob World).
Abbreviation Py := (M Blob (state World)).

Definition perform_top {X} (c : call Blob X) : Top X :=
  fun w =>
    match handle X c w with
    | (Reply x, w') => (Ok x, w', [Called c (Reply x)])
    | (Failure what, w') => (Raise (LibraryError what), w', [Called c (Failure what)])
    end.

(** A call made from inside a method. *)
Definition perform {X} (c : call Blob X) : Py X :=
  fun s =>
    let '(r, w', t) := perform_top c (world s) in (r, mkState (self s) w', t).

Definition get_self : Py OpenShiftRelease := fun s => (Ok (self s), s, []).

Definition assign (f : OpenShiftRelease -> OpenShiftRelease) : Py unit :=
  fun s => (Ok tt, mkState (f (self s)) (world s), []).

(** The pattern of the five properties,
    [if not self._x: <compute and store>] then [return self._x]: a slot that
    holds a true value is returned as it is. *)
Definition lazily {A} (wrap : string -> A) (slot : option string) (compute : Py A) : Py A :=
  match slot with
  | Some v => if PyStr.truthy v then ret (wrap v) else compute
  | None => compute
  end.

(** Lines 60-66. *)
Definition data : Py string :=
  o <- get_self ;;
  lazily id (_data o)
    (r <- perform (requests_get (release_txt_url (version o))) ;;
     assign (set_data (Some (text r))) ;;
     ret (text r)).

(** Lines 68-80.  The early [return None] leaves the cache empty. *)
Definition rhcos_version : Py (option string) :=
  o <- get_self ;;
  lazily Some (_rhcos_version o)
    (d <- data ;;
     match PyStr.re_search_machine_os d with
     | None =>
         logger_info ("Unable to find RHCOS version for " +:+ version o) ;;
         ret None
     | Some v =>
         assign (set_rhcos_version (Some v)) ;;
         logger_info ("RHCOS version " +:+ v) ;;
         ret (Some v)
     end).

(** Lines 98-103. *)
Definition rhcos_filename : Py string :=
  o <- get_self ;;
  lazily id (_rhcos_filename o)
    (v <- rhcos_version ;;
     let f := "rhcos-" +:+ PyStr.fmt v +:+ "-aws.x86_64.vmdk" in
     assign (set_rhcos_filename (Some f)) ;;
     ret f).

(** Lines 82-96.  The list is built left to right, then joined; [join]
    raises [TypeError] when [self.rhcos_version] is [None]. *)
Definition rhcos_url : Py string :=
  o <- get_self ;;
  lazily id (_rhcos_url o)
    (let dir := "rhcos-" +:+ PyStr.major_minor (version o) in
     v <- rhcos_version ;;
     f <- rhcos_filename ;;
     match v with
     | None => raise TypeError_join
     | Some v =>
         let u := PyStr.join "/" [base_url; dir; v; "x86_64"; f +:+ ".gz"] in
         assign (set_rhcos_url (Some u)) ;;
         ret u
     end).

(** Lines 104-109. *)
Definition rhcos_path : Py string :=
  o <- get_self ;;
  lazily id (_rhcos_path o)
    (tmp <- perform tempfile_gettempdir ;;
     f <- rhcos_filename ;;
     let p := PyStr.os_path_join tmp f in
     assign (set_rhcos_path (Some p)) ;;
     ret p).

(** Lines 111-134. *)
Definition download_rhcos : Py unit :=
  p <- rhcos_path ;;
  found <- perform (os_path_exists p) ;;
  if (found : bool) then
    p <- rhcos_path ;;
    logger_info ("Skipping download because " +:+ p +:+ " already exists")
  else
    u <- rhcos_url ;;
    logger_info ("Downloading " +:+ u) ;;
    u <- rhcos_url ;;
    r <- perform (requests_get u) ;;
    p <- rhcos_path ;;
    let rhcos_gzip_path := p +:+ ".gz" in
    perform (open_wb rhcos_gzip_path) ;;
    logger_info ("Saving " +:+ rhcos_gzip_path) ;;
    perform (file_write rhcos_gzip_path (content r)) ;;
    rhcos_size <- perform (os_path_getsize rhcos_gzip_path) ;;
    let rhcos_size_mb := true_div rhcos_size (1024 * 1024) in
    if float_lt rhcos_size_mb (inject_Z 100)
    then raise (RuntimeError_size rhcos_size)
    else
      logger_info ("Unpacking " +:+ rhcos_gzip_path) ;;
      perform (gzip_open_rb rhcos_gzip_path) ;;
      p <- rhcos_path ;;
      perform (open_wb p) ;;
      perform (shutil_copyfileobj rhcos_gzip_path p) ;;
      perform (os_remove rhcos_gzip_path).

(** [d.get('KeyCount', 0) > 0] *)
Definition key_count_positive (key_count : option Z) : bool :=
  match key_count with
  | Some n => (0 <? n)%Z
  | None => false
  end.

(** Lines 136-148. *)
Definition upload_rhcos : Py unit :=
  perform (boto3_client "s3") ;;
  o <- get_self ;;
  f <- rhcos_filename ;;
  key_count <- perform (s3_list_objects_v2 (s3_bucket o) f) ;;
  if key_count_positive key_count then
    f <- rhcos_filename ;;
    logger_info ("Skipping upload because s3://" +:+ s3_bucket o +:+ "/" +:+ f +:+ " already exists")
  else
    download_rhcos ;;
    p <- rhcos_path ;;
    perform (open_rb p) ;;
    p' <- rhcos_path ;;
    logger_info ("Uploading " +:+ p' +:+ " to S3") ;;
    f <- rhcos_filename ;;
    perform (s3_upload_fileobj p (s3_bucket o) f) ;;
    p <- rhcos_path ;;
    perform (os_remove p).

(** Lines 184-215: the loop [while True], unrolled at most [fuel] times. *)
Fixpoint poll_import_task (fuel : nat) (import_task_id : string) (time_elapsed : Z)
    : Py string :=
  match fuel with
  | O => out_of_fuel
  | S fuel' =>
      logger_info ("Checking status of snapshot import task " +:+ import_task_id) ;;
      snapshot_task <- perform (ec2_describe_import_snapshot_tasks import_task_id) ;;
      if String.eqb (Status snapshot_task) "completed" then
        let snapshot_id := SnapshotId snapshot_task in
        logger_info ("Snapshot " +:+ snapshot_id +:+ " created") ;;
        v <- rhcos_version ;;
        logger_info ("Tagging snapshot " +:+ snapshot_id +:+ " with rhcos_version=" +:+ PyStr.fmt v) ;;
        v <- rhcos_version ;;
        perform (ec2_create_tags snapshot_id v) ;;
        ret snapshot_id
      else
        logger_info ("Snapshot import task " +:+ import_task_id
                     +:+ " not complete, waiting 10 seconds to try again") ;;
        let time_elapsed := (time_elapsed + 10)%Z in
        perform (time_sleep 10) ;;
        if (60 * 5 <? time_elapsed)%Z
        then raise (RuntimeError_timeout import_task_id)
        else poll_import_task fuel' import_task_id time_elapsed
  end.

(** Lines 150-215. *)
Definition import_snapshot (fuel : nat) : Py string :=
  upload_rhcos ;;
  v <- rhcos_version ;;
  let description := "rhcos-" +:+ PyStr.fmt v in
  perform (boto3_client "ec2") ;;
  v <- rhcos_version ;;
  existing_snapshots <- perform (ec2_describe_snapshots v) ;;
  match existing_snapshots with
  | snapshot_id :: _ =>
      logger_info ("Skipping snapshot creation because " +:+ snapshot_id +:+ " already exists") ;;
      ret snapshot_id
  | [] =>
      o <- get_self ;;
      f <- rhcos_filename ;;
      logger_info ("Importing snapshot from s3://" +:+ s3_bucket o +:+ "/" +:+ f) ;;
      f <- rhcos_filename ;;
      import_task_id <- perform (ec2_import_snapshot description (s3_bucket o) f) ;;
      poll_import_task fuel import_task_id 0
  end.

(** Lines 217-276. *)
Definition register_image (fuel : nat) : Py string :=
  snapshot_id <- import_snapshot fuel ;;
  perform (boto3_client "ec2") ;;
  v <- rhcos_version ;;
  existing_images <- perform (ec2_describe_images ("rhcos-" +:+ PyStr.fmt v)) ;;
  match existing_images with
  | image_id :: _ =>
      logger_info ("Skipping image creation because " +:+ image_id +:+ " already exists") ;;
      ret image_id
  | [] =>
      logger_info ("Registering image from snapshot " +:+ snapshot_id) ;;
      v <- rhcos_version ;;
      v' <- rhcos_version ;;
      image_id <- perform (ec2_register_image ("rhcos-" +:+ PyStr.fmt v)
                             ("OpenShift 4 " +:+ PyStr.fmt v') snapshot_id) ;;
      logger_info ("Created image " +:+ image_id) ;;
      logger_info ("Making image " +:+ image_id +:+ " public") ;;
      perform (ec2_modify_image_attribute image_id) ;;
      ret image_id
  end.

(** Runs a method on an object and hands the world back. *)
Definition on_object {A} (o : OpenShiftRelease) (m : Py A) : Top A :=
  fun w => let '(r, s, t) := m (mkState o w) in (r, world s, t).

(** Lines 288-304: one graph query per requested prefix. *)
Fixpoint collect_versions (versions_to_upload todo openshift_versions : list string)
    : Top (list string) :=
  match todo with
  | [] => ret openshift_versions
  | i :: rest =>
      nodes <- perform_top (upgrades_graph ("stable-" +:+ i)) ;;
      collect_versions versions_to_upload rest
        (Discovery.collect_nodes versions_to_upload nodes openshift_versions)
  end.

(** Lines 308-315: the loop over the discovered versions. *)
Fixpoint process_versions (fuel : nat) (openshift_versions : list string) : Top unit :=
  match openshift_versions with
  | [] => ret tt
  | v :: rest =>
      logger_info ("Processing OpenShift " +:+ v) ;;
      try_except
        (on_object (__init__ v "io-rhdt-govcloud-vmimport") (register_image fuel) ;; ret tt)
        (fun e => logger_error e) ;;
      process_versions fuel rest
  end.

(** Lines 284-315, after [argparse]. *)
Definition main (fuel : nat) (versions_to_upload : list string) : Top unit :=
  openshift_versions <- collect_versions versions_to_upload versions_to_upload [] ;;
  match Discovery.sort_versions openshift_versions with
  | None => raise ValueError_int
  | Some sorted => process_versions fuel sorted
  end.

End Pipeline.

(** The exit status of the interpreter: 0 when the script runs to its end,
    1 when an exception escapes; a run cut short by the model has none. *)
Definition exit_status {A} (r : outcome A) : option Z :=
  match r with
  | Ok _ => Some 0%Z
  | Raise _ => Some 1%Z
  | OutOfFuel => None
  end.

(* ===================================================================== *)
(** ** One executable environment *)
(* ===================================================================== *)

(** A small model of the mirror, the local disk, the bucket and the EC2
    account, used to run the pipeline on concrete inputs and to state what a
    run leaves on disk and in the account.  It never changes on a read. *)
Module Sim.

(** A body: its length in bytes and, when it is a gzip stream, the length of
    what it unpacks to. *)
Record Blob : Type := mkBlob { blob_len : Z; gunzipped : option Z }.

Record Snapshot : Type := mkSnapshot { snap_id : string; snap_rhcos_version : option string }.

Record Image : Type := mkImage {
  image_id : string;
  image_name : string;
  image_snapshot : string;
  image_public : bool
}.

Record ImportTask : Type := mkTask {
  task_id : string;
  task_bucket : string;
  task_key : string;
  task_started : Z
}.

Record World : Type := mkWorld {
  http : gmap string (Response Blob);     (* url to response; absent: no answer *)
  graph : gmap string (list string);      (* channel to node versions *)
  tmpdir : string;
  files : gmap string Blob;               (* the local disk *)
  objects : list (string * string);       (* (bucket, key) of each S3 object *)
  snapshots : list Snapshot;              (* owned by the caller *)
  tasks : list ImportTask;
  import_seconds : option Z;              (* how long an import takes; None: for ever *)
  images : list Image;                    (* owned by the caller *)
  clock : Z;                              (* seconds slept so far *)
  denied : list string                    (* AWS operations that are refused *)
}.

Definition set_files (f : gmap string Blob) (w : World) : World :=
  mkWorld (http w) (graph w) (tmpdir w) f (objects w) (snapshots w) (tasks w)
    (import_seconds w) (images w) (clock w) (denied w).
Definition set_objects (x : list (string * string)) (w : World) : World :=
  mkWorld (http w) (graph w) (tmpdir w) (files w) x (snapshots w) (tasks w)
    (import_seconds w) (images w) (clock w) (denied w).
Definition set_snapshots (x : list Snapshot) (w : World) : World :=
  mkWorld (http w) (graph w) (tmpdir w) (files w) (objects w) x (tasks w)
    (import_seconds w) (images w) (clock w) (denied w).
Definition set_tasks (x : list ImportTask) (w : World) : World :=
  mkWorld (http w) (graph w) (tmpdir w) (files w) (objects w) (snapshots w) x
    (import_seconds w) (images w) (clock w) (denied w).
Definition set_images (x : list Image) (w : World) : World :=
  mkWorld (http w) (graph w) (tmpdir w) (files w) (objects w) (snapshots w) (tasks w)
    (import_seconds w) x (clock w) (denied w).
Definition set_clock (x : Z) (w : World) : World :=
  mkWorld (http w) (graph w) (tmpdir w) (files w) (objects w) (snapshots w) (tasks w)
    (import_seconds w) (images w) x (denied w).

Definition is_denied (op : string) (w : World) : bool :=
  existsb (String.eqb op) (denied w).

Definition number (n : nat) : string := NilZero.string_of_uint (Nat.to_uint n).

Definition opt_eqb (a b : option string) : bool :=
  match a, b with
  | Some x, Some y => String.eqb x y
  | None, None => true
  | _, _ => false
  end.

(** [KeyCount] of [list_objects_v2]: the keys of the bucket that start with
    the prefix, at most 1000 of them. *)
Definition key_count (bucket prefix : string) (w : World) : Z :=
  Z.min 1000
    (Z.of_nat (List.length (List.filter
       (fun o => String.eqb (fst o) bucket && PyStr.startswith prefix (snd o))
       (objects w)))).

Definition has_object (bucket key : string) (w : World) : bool :=
  existsb (fun o => String.eqb (fst o) bucket && String.eqb (snd o) key) (objects w).

Definition snapshots_tagged (v : string) (w : World) : list string :=
  map snap_id (List.filter (fun s => opt_eqb (snap_rhcos_version s) (Some v)) (snapshots w)).

Definition images_named (name : string) (w : World) : list Image :=
  List.filter (fun i => String.eqb (image_name i) name) (images w).

Definition find_task (id : string) (w : World) : option ImportTask :=
  List.find (fun t => String.eqb (task_id t) id) (tasks w).

(** The status of an import task: completed once the object is there and
    the import time has been slept through. *)
Definition task_detail (t : ImportTask) (w : World) : SnapshotTaskDetail :=
  match import_seconds w with
  | Some d =>
      if has_object (task_bucket t) (task_key t) w && (task_started t + d <=? clock w)%Z
      then mkDetail "completed" ("snap-" +:+ task_id t)
      else mkDetail "active" ""
  | None => mkDetail "active" ""
  end.

Definition tag_snapshot (id : string) (v : string) (l : list Snapshot) : list Snapshot :=
  if existsb (fun s => String.eqb (snap_id s) id) l
  then map (fun s => if String.eqb (snap_id s) id then mkSnapshot id (Some v) else s) l
  else l ++ [mkSnapshot id (Some v)].

Definition make_public (id : string) (l : list Image) : list Image :=
  map (fun i => if String.eqb (image_id i) id
                then mkImage (image_id i) (image_name i) (image_snapshot i) true
                else i) l.

Definition handle (X : Type) (c : call Blob X) (w : World) : reply X * World :=
  match c in call _ X return reply X * World with
  | requests_get url =>
      match http w !! url with
      | Some r => (Reply r, w)
      | None => (Failure "ConnectionError", w)
      end
  | upgrades_graph channel =>
      match graph w !! channel with
      | Some nodes => (Reply nodes, w)
      | None => (Failure "ConnectionError", w)
      end
  | tempfile_gettempdir => (Reply (tmpdir w), w)
  | os_path_exists path =>
      (Reply (match files w !! path with Some _ => true | None => false end), w)
  | open_wb path => (Reply tt, set_files (<[path := mkBlob 0 None]> (files w)) w)
  | file_write path body =>
      match files w !! path with
      | Some _ => (Reply tt, set_files (<[path := body]> (files w)) w)
      | None => (Failure "ValueError: I/O operation on closed file", w)
      end
  | os_path_getsize path =>
      match files w !! path with
      | Some b => (Reply (blob_len b), w)
      | None => (Failure "FileNotFoundError", w)
      end
  | gzip_open_rb path =>
      match files w !! path with
      | Some _ => (Reply tt, w)
      | None => (Failure "FileNotFoundError", w)
      end
  | shutil_copyfileobj gz_path out_path =>
      match files w !! gz_path with
      | Some b =>
          match gunzipped b with
          | Some n => (Reply tt, set_files (<[out_path := mkBlob n None]> (files w)) w)
          | None => (Failure "BadGzipFile", w)
          end
      | None => (Failure "FileNotFoundError", w)
      end
  | os_remove path =>
      match files w !! path with
      | Some _ => (Reply tt, set_files (delete path (files w)) w)
      | None => (Failure "FileNotFoundError", w)
      end
  | open_rb path =>
      match files w !! path with
      | Some _ => (Reply tt, w)
      | None => (Failure "FileNotFoundError", w)
      end
  | boto3_client _ => (Reply tt, w)
  | s3_list_objects_v2 bucket prefix =>
      if is_denied "s3:ListBucket" w then (Failure "AccessDenied", w)
      else (Reply (Some (key_count bucket prefix w)), w)
  | s3_upload_fileobj path bucket key =>
      if is_denied "s3:PutObject" w then (Failure "AccessDenied", w)
      else match files w !! path with
           | Some _ =>
               (Reply tt,
                if has_object bucket key w then w
                else set_objects (objects w ++ [(bucket, key)]) w)
           | None => (Failure "FileNotFoundError", w)
           end
  | ec2_describe_snapshots tag =>
      if is_denied "ec2:DescribeSnapshots" w then (Failure "UnauthorizedOperation", w)
      else match tag with
           | Some v => (Reply (snapshots_tagged v w), w)
           | None => (Failure "ParamValidationError", w)
           end
  | ec2_import_snapshot _ bucket key =>
      if is_denied "ec2:ImportSnapshot" w then (Failure "UnauthorizedOperation", w)
      else
        let id := "import-snap-" +:+ number (List.length (tasks w)) in
        (Reply id, set_tasks (tasks w ++ [mkTask id bucket key (clock w)]) w)
  | ec2_describe_import_snapshot_tasks id =>
      if is_denied "ec2:DescribeImportSnapshotTasks" w
      then (Failure "UnauthorizedOperation", w)
      else match find_task id w with
           | Some t => (Reply (task_detail t w), w)
           | None => (Failure "InvalidConversionTaskId", w)
           end
  | ec2_create_tags resource tag =>
      if is_denied "ec2:CreateTags" w then (Failure "UnauthorizedOperation", w)
      else match tag with
           | Some v => (Reply tt, set_snapshots (tag_snapshot resource v (snapshots w)) w)
           | None => (Failure "ParamValidationError", w)
           end
  | time_sleep seconds => (Reply tt, set_clock (clock w + seconds)%Z w)
  | ec2_describe_images name =>
      if is_denied "ec2:DescribeImages" w then (Failure "UnauthorizedOperation", w)
      else (Reply (map image_id (images_named name w)), w)
  | ec2_register_image name _ snapshot =>
      if is_denied "ec2:RegisterImage" w then (Failure "UnauthorizedOperation", w)
      else match images_named name w with
           | _ :: _ => (Failure "InvalidAMIName.Duplicate", w)
           | [] =>
               let id := "ami-" +:+ number (List.length (images w)) in
               (Reply id, set_images (images w ++ [mkImage id name snapshot false]) w)
           end
  | ec2_modify_image_attribute id =>
      if is_denied "ec2:ModifyImageAttribute" w then (Failure "UnauthorizedOperation", w)
      else if existsb (fun i => String.eqb (image_id i) id) (images w)
           then (Reply tt, set_images (make_public id (images w)) w)
           else (Failure "InvalidAMIID.NotFound", w)
  end.

End Sim.

(* ===================================================================== *)
(** ** Reading a trace *)
(* ===================================================================== *)

(** Which stage an event belongs to: 0 the five properties (resolver and
    locator) and the messages of the methods, 1 the fetcher, 2 the stager,
    3 the snapshot importer, 4 the image registrar, 5 the [__main__] block.
    The two GETs of the methods are told apart by their host. *)
Definition level {Blob} (e : event Blob) : nat :=
  match e with
  | Logged (INFO msg) => if PyStr.startswith "Processing OpenShift " msg then 5 else 0
  | Logged (ERROR _) => 5
  | Called c _ =>
      match c with
      | requests_get url =>
          if PyStr.startswith "http://mirror.openshift.com/" url then 0 else 1
      | upgrades_graph _ => 5
      | tempfile_gettempdir => 0
      | os_path_exists _ | open_wb _ | file_write _ _
      | os_path_getsize _ | gzip_open_rb _ | shutil_copyfileobj _ _ | os_remove _ => 1
      | open_rb _ | s3_list_objects_v2 _ _ | s3_upload_fileobj _ _ _ => 2
      | boto3_client service => if String.eqb service "s3" then 2 else 3
      | ec2_describe_snapshots _ | ec2_import_snapshot _ _ _
      | ec2_describe_import_snapshot_tasks _ | ec2_create_tags _ _ | time_sleep _ => 3
      | ec2_describe_images _ | ec2_register_image _ _ _
      | ec2_modify_image_attribute _ => 4
      end
  end.

Definition is_upload {Blob} (e : event Blob) : bool :=
  match e with Called (s3_upload_fileobj _ _ _) _ => true | _ => false end.

(** The calls of [download_rhcos] itself: the existence test, the GET of
    the artifact, the writes, the size, the unpacking, the removal. *)
Definition is_fetch {Blob} (e : event Blob) : bool :=
  match e with
  | Called c _ =>
      match c with
      | requests_get url => negb (PyStr.startswith "http://mirror.openshift.com/" url)
      | os_path_exists _ | open_wb _ | file_write _ _
      | os_path_getsize _ | gzip_open_rb _ | shutil_copyfileobj _ _ | os_remove _ => true
      | _ => false
      end
  | Logged _ => false
  end.

Definition is_import_submit {Blob} (e : event Blob) : bool :=
  match e with Called (ec2_import_snapshot _ _ _) _ => true | _ => false end.

Definition is_poll {Blob} (e : event Blob) : bool :=
  match e with Called (ec2_describe_import_snapshot_tasks _) _ => true | _ => false end.

Definition is_register {Blob} (e : event Blob) : bool :=
  match e with Called (ec2_register_image _ _ _) _ => true | _ => false end.

Definition is_modify {Blob} (e : event Blob) : bool :=
  match e with Called (ec2_modify_image_attribute _) _ => true | _ => false end.

(** What decompression does: opening the archive, creating [out_path],
    copying. *)
Definition is_unpack {Blob} (out_path : string) (e : event Blob) : bool :=
  match e with
  | Called c _ =>
      match c with
      | gzip_open_rb _ | shutil_copyfileobj _ _ => true
      | open_wb path => String.eqb path out_path
      | _ => false
      end
  | Logged _ => false
  end.

(** Seconds spent in a call of [time.sleep] that returned. *)
Definition seconds {Blob} (e : event Blob) : Z :=
  match e with
  | Called (time_sleep n) (Reply _) => n
  | _ => 0%Z
  end.

(** Seconds slept over a trace. *)
Definition slept {Blob} (t : list (event Blob)) : Z :=
  fold_right (fun e acc => (seconds e + acc)%Z) 0%Z t.

Definition count_events {Blob} (p : event Blob -> bool) (t : list (event Blob)) : nat :=
  List.length (List.filter p t).

(** The versions announced by ['Processing OpenShift {}'], in order. *)
Fixpoint processed {Blob} (t : list (event Blob)) : list string :=
  match t with
  | [] => []
  | Logged (INFO msg) :: t' =>
      match PyStr.strip_prefix "Processing OpenShift " msg with
      | Some v => v :: processed t'
      | None => processed t'
      end
  | _ :: t' => processed t'
  end.

(** The exceptions logged by [logger.error], in order. *)
Fixpoint errors_logged {Blob} (t : list (event Blob)) : list exn :=
  match t with
  | [] => []
  | Logged (ERROR e) :: t' => e :: errors_logged t'
  | _ :: t' => errors_logged t'
  end.

(* ===================================================================== *)
(** ** Postconditions of a run *)
(* ===================================================================== *)

(** [post m s Q]: the run of [m] from [s] ends in an outcome, a state and a
    trace that satisfy [Q]. *)
Definition post {Blob S A} (m : M Blob S A) (s : S)
    (Q : outcome A -> S -> list (event Blob) -> Prop) : Prop :=
  Q (outcome_of (m s)) (state_of (m s)) (events_of (m s)).

(* ===================================================================== *)
(** ** Caches that only fill *)
(* ===================================================================== *)

(** [keeps a b]: a cache slot that holds a true value keeps it. *)
Definition keeps (a b : option string) : Prop := py_not a = false -> b = a.

(** [extends o o1]: [o1] is [o] with more caches filled. *)
Definition extends (o o1 : OpenShiftRelease) : Prop :=
  version o1 = version o /\ s3_bucket o1 = s3_bucket o /\
  keeps (_data o) (_data o1) /\
  keeps (_rhcos_filename o) (_rhcos_filename o1) /\
  keeps (_rhcos_path o) (_rhcos_path o1) /\
  keeps (_rhcos_url o) (_rhcos_url o1) /\
  keeps (_rhcos_version o) (_rhcos_version o1).

(** What every method guarantees: it ends, it only fills caches, and its
    events stay below level [k]. *)
Definition tame {Blob World A} (k : nat) (s : state World)
    (r : outcome A) (s1 : state World) (t : list (event Blob)) : Prop :=
  r <> OutOfFuel /\ extends (self s) (self s1) /\ Forall (fun e => level e <= k) t.

(** Frames: which caches a property leaves alone. *)
Definition same_above_data (o o1 : OpenShiftRelease) : Prop :=
  _rhcos_version o1 = _rhcos_version o /\ _rhcos_filename o1 = _rhcos_filename o /\
  _rhcos_path o1 = _rhcos_path o /\ _rhcos_url o1 = _rhcos_url o.

(** [Tame k m]: from every state, [m] only fills caches and stays below
    level [k]. *)
Definition Tame {Blob World A} (k : nat) (m : M Blob (state World) A) : Prop :=
  forall s, extends (self s) (self (state_of (m s))) /\
            Forall (fun e => level e <= k) (events_of (m s)).

(** [Halts m]: [m] never runs out of fuel. *)
Definition Halts {Blob World A} (m : M Blob (state World) A) : Prop :=
  forall s, outcome_of (m s) <> OutOfFuel.

(* ===================================================================== *)
(** ** Reading the poll loop off a trace *)
(* ===================================================================== *)

(** Seconds slept before the next poll (or the end of the trace). *)
Fixpoint slept_before_poll {Blob} (t : list (event Blob)) : Z :=
  match t with
  | [] => 0
  | Called (ec2_describe_import_snapshot_tasks _) _ :: _ => 0
  | Called (time_sleep n) (Reply _) :: t' => n + slept_before_poll t'
  | _ :: t' => slept_before_poll t'
  end.

(** For each poll of the trace, the seconds slept between it and the next
    poll (or the end of the trace). *)
Fixpoint waits {Blob} (t : list (event Blob)) : list Z :=
  match t with
  | [] => []
  | e :: t' => if is_poll e then slept_before_poll t' :: waits t' else waits t'
  end.

(** The answers a stalled import gives: every poll is answered with a status
    other than ["completed"], and every sleep returns. *)
Definition pending {Blob} (e : event Blob) : bool :=
  match e with
  | Called c r =>
      match c in call _ X return reply X -> bool with
      | ec2_describe_import_snapshot_tasks _ => fun r =>
          match r with
          | Reply d => negb (String.eqb (Status d) "completed")
          | Failure _ => false
          end
      | time_sleep _ => fun r =>
          match r with Reply _ => true | Failure _ => false end
      | _ => fun _ => true
      end r
  | Logged _ => true
  end.

(** A trace without polls and without sleeps. *)
Definition quiet {Blob} (t : list (event Blob)) : Prop :=
  Forall (fun e => is_poll e = false /\ seconds e = 0%Z) t.

(** The loop gave up: [n] polls, ten seconds after each, then the
    [RuntimeError] of line 215. *)
Definition timed_out {Blob A} (n : nat) (r : outcome A) (t : list (event Blob)) : Prop :=
  (exists id, r = Raise (RuntimeError_timeout id)) /\
  waits t = repeat 10%Z n /\ slept t = (10 * Z.of_nat n)%Z.

(** What [import_snapshot] guarantees when its polls stay pending. *)
Definition stalls {Blob A} (r : outcome A) (t : list (event Blob)) : Prop :=
  forallb pending t = true -> quiet t \/ timed_out 31 r t.

(* ===================================================================== *)
(** ** The loop over a batch *)
(* ===================================================================== *)

(** What the spec asks of the loop over a batch: each version is announced,
    its pipeline runs on a fresh object in the world the previous one left,
    an exception is logged, and the next version follows. *)
Inductive batch {Blob World : Type}
    (handle : forall X : Type, call Blob X -> World -> reply X * World) (fuel : nat)
    : list string -> World -> World -> list (event Blob) -> Prop :=
  | batch_done w : batch handle fuel [] w w []
  | batch_ok v vs w image_id s1 t1 w2 t2 :
      register_image handle fuel (mkState (__init__ v "io-rhdt-govcloud-vmimport") w)
      = (Ok image_id, s1, t1) ->
      batch handle fuel vs (world s1) w2 t2 ->
      batch handle fuel (v :: vs) w w2
        ([Logged (INFO ("Processing OpenShift " +:+ v))] ++ t1 ++ t2)
  | batch_failed v vs w e s1 t1 w2 t2 :
      register_image handle fuel (mkState (__init__ v "io-rhdt-govcloud-vmimport") w)
      = (Raise e, s1, t1) ->
      batch handle fuel vs (world s1) w2 t2 ->
      batch handle fuel (v :: vs) w w2
        ([Logged (INFO ("Processing OpenShift " +:+ v))] ++ t1 ++ [Logged (ERROR e)] ++ t2).

(* ===================================================================== *)
(** ** What a method may change, and what it may raise *)
(* ===================================================================== *)

(** [Still m]: [m] leaves the simulated world as it found it. *)
Definition Still {A} (m : M Sim.Blob (state Sim.World) A) : Prop :=
  forall s, world (state_of (m s)) = world s.

(** [Foreign m]: whatever [m] raises was raised inside a library. *)
Definition Foreign {Blob World A} (m : M Blob (state World) A) : Prop :=
  forall s e, outcome_of (m s) = Raise e -> exists what, e = LibraryError what.

(** [Frame R m]: the worlds before and after [m] are related by [R]. *)
Definition Frame {A} (R : Sim.World -> Sim.World -> Prop)
    (m : M Sim.Blob (state Sim.World) A) : Prop :=
  forall s, R (world s) (world (state_of (m s))).

(** Only the local disk differs. *)
Definition only_files (w w1 : Sim.World) : Prop :=
  w1 = Sim.set_files (Sim.files w1) w.

(** Only the local disk and the bucket differ. *)
Definition only_disk (w w1 : Sim.World) : Prop :=
  w1 = Sim.set_objects (Sim.objects w1) (Sim.set_files (Sim.files w1) w).

(** Only the import tasks, the clock and the snapshots differ. *)
Definition only_import (w w1 : Sim.World) : Prop :=
  w1 = Sim.set_snapshots (Sim.snapshots w1)
         (Sim.set_tasks (Sim.tasks w1) (Sim.set_clock (Sim.clock w1) w)).

(* ===================================================================== *)
(** ** What a finished stage leaves in the simulated account *)
(* ===================================================================== *)

(** The object is staged: the listing of its key is allowed and counts at
    least one object. *)
Definition Staged (s : state Sim.World) : Prop :=
  exists f, _rhcos_filename (self s) = Some f /\ PyStr.truthy f = true /\
    Sim.is_denied "s3:ListBucket" (world s) = false /\
    (0 < Sim.key_count (s3_bucket (self s)) f (world s))%Z.

(** The snapshot is imported: the listing by tag is allowed and not empty. *)
Definition Imported (s : state Sim.World) : Prop :=
  exists v, _rhcos_version (self s) = Some v /\ PyStr.truthy v = true /\
    Sim.is_denied "ec2:DescribeSnapshots" (world s) = false /\
    Sim.snapshots_tagged v (world s) <> [].

(** The id a successful [register_image] call of the trace returned. *)
Fixpoint registered {Blob} (t : list (event Blob)) : option string :=
  match t with
  | [] => None
  | Called c r :: t' =>
      match c in call _ X return reply X -> option string with
      | ec2_register_image _ _ _ => fun r =>
          match r with Reply id => Some id | Failure _ => registered t' end
      | _ => fun _ => registered t'
      end r
  | Logged _ :: t' => registered t'
  end.

(** A listing of the tagged snapshots that came back empty, and a listing
    of the named images that came back empty. *)
Definition is_empty_snapshot_listing {Blob} (e : event Blob) : bool :=
  match e with
  | Called c r =>
      match c in call _ X return reply X -> bool with
      | ec2_describe_snapshots _ => fun r =>
          match r with Reply [] => true | _ => false end
      | _ => fun _ => false
      end r
  | Logged _ => false
  end.

Definition is_empty_image_listing {Blob} (e : event Blob) : bool :=
  match e with
  | Called c r =>
      match c in call _ X return reply X -> bool with
      | ec2_describe_images _ => fun r =>
          match r with Reply [] => true | _ => false end
      | _ => fun _ => false
      end r
  | Logged _ => false
  end.

(** A [modify_image_attribute] call that failed. *)
Definition failed_modify {Blob} (e : event Blob) : bool :=
  match e with
  | Called (ec2_modify_image_attribute _) (Failure _) => true
  | _ => false
  end.

(** What a call that registered an image and then raised leaves behind:
    the object is staged under [f], a snapshot is tagged [v], the image is
    listed under its name, alone and private. *)
Definition Unpublished (img v f : string) (s1 : state Sim.World) : Prop :=
  _rhcos_version (self s1) = Some v /\ PyStr.truthy v = true /\
  _rhcos_filename (self s1) = Some f /\ PyStr.truthy f = true /\
  Sim.is_denied "s3:ListBucket" (world s1) = false /\
  (0 < Sim.key_count (s3_bucket (self s1)) f (world s1))%Z /\
  Sim.is_denied "ec2:DescribeSnapshots" (world s1) = false /\
  Sim.snapshots_tagged v (world s1) <> [] /\
  Sim.is_denied "ec2:DescribeImages" (world s1) = false /\
  exists snap,
    Sim.images_named ("rhcos-" +:+ v) (world s1)
    = [Sim.mkImage img ("rhcos-" +:+ v) snap false].

(* ===================================================================== *)
(** ** Vocabulary of the further properties *)
(* ===================================================================== *)

(** Every character of [s] satisfies [p]. *)
Fixpoint all_chars (p : ascii -> bool) (s : string) : bool :=
  match s with
  | EmptyString => true
  | String c s' => p c && all_chars p s'
  end.

(** One or more decimal digits. *)
Definition is_digits (d : string) : bool :=
  PyStr.truthy d && all_chars PyStr.is_digit d.

Definition newline : string := String "010" "".

(** A part of a version with no more digits than [int()] accepts, and a
    version whose dot-separated parts are all such. *)
Definition fits (d : string) : bool :=
  (PyStr.digit_count d <=? PyStr.int_max_str_digits)%Z.

Definition parts_fit (v : string) : bool := forallb fits (PyStr.split "." v).

(** What follows a greedy run: nothing, or a character outside the class. *)
Definition run_ends (p : ascii -> bool) (post : string) : Prop :=
  match post with
  | EmptyString => True
  | String c _ => p c = false
  end.

(** Equality of sort keys. *)
Fixpoint list_eqb (a b : list Z) : bool :=
  match a, b with
  | [], [] => true
  | x :: a', y :: b' => (x =? y)%Z && list_eqb a' b'
  | _, _ => false
  end.

(** The order of the keyed list after the sort: no key is below a later
    one. *)
Definition key_ge (p q : list Z * string) : Prop :=
  Discovery.list_lt (fst p) (fst q) = false.

(** Python's [<] on lists of integers, as the language defines it: the
    first place where the lists differ decides, and a proper prefix is
    smaller. *)
Inductive py_list_lt : list Z -> list Z -> Prop :=
  | py_lt_prefix y b : py_list_lt [] (y :: b)
  | py_lt_head x y a b : (x < y)%Z -> py_list_lt (x :: a) (y :: b)
  | py_lt_tail x a b : py_list_lt a b -> py_list_lt (x :: a) (x :: b).

(** [x] may stand before [y] in the sorted list: both have a key, and the
    key of [x] is not below the key of [y]. *)
Definition stands_before (x y : string) : Prop :=
  exists kx ky,
    Discovery.sort_key x = Some kx /\ Discovery.sort_key y = Some ky /\
    ~ py_list_lt kx ky.




(** The versions whose key is [k]. *)
Definition has_key (k : list Z) (s : string) : bool :=
  match Discovery.sort_key s with
  | Some k' => list_eqb k' k
  | None => false
  end.

(** A query of the upgrade graph. *)
Definition is_graph_query {Blob} (e : event Blob) : bool :=
  match e with Called (upgrades_graph _) _ => true | _ => false end.

(** The channels queried, in order. *)
Fixpoint channels_queried {Blob} (t : list (event Blob)) : list string :=
  match t with
  | [] => []
  | Called c _ :: t' =>
      match c with
      | upgrades_graph channel => channel :: channels_queried t'
      | _ => channels_queried t'
      end
  | Logged _ :: t' => channels_queried t'
  end.

(** The source URL of a release whose text names the version [v]. *)
Definition artifact_url (version v : string) : string :=
  base_url +:+ "/rhcos-" +:+ PyStr.major_minor version +:+ "/" +:+ v
  +:+ "/x86_64/rhcos-" +:+ v +:+ "-aws.x86_64.vmdk.gz".

(** At most [n] polls and at most [k] seconds of sleep. *)
Definition within {Blob} (n : nat) (k : Z) (t : list (event Blob)) : Prop :=
  count_events is_poll t <= n /\ (0 <= slept t <= k)%Z.

(** [Within n k m]: whatever the environment answers, a run of [m] polls at
    most [n] times and sleeps at most [k] seconds. *)
Definition Within {Blob World A} (n : nat) (k : Z) (m : M Blob (state World) A) : Prop :=
  forall s, within n k (events_of (m s)).

(** A call to AWS: the client constructor, S3 or EC2. *)
Definition is_aws {Blob} (e : event Blob) : bool :=
  match e with
  | Called c _ =>
      match c with
      | boto3_client _ | s3_list_objects_v2 _ _ | s3_upload_fileobj _ _ _
      | ec2_describe_snapshots _ | ec2_import_snapshot _ _ _
      | ec2_describe_import_snapshot_tasks _ | ec2_create_tags _ _
      | ec2_describe_images _ | ec2_register_image _ _ _
      | ec2_modify_image_attribute _ => true
      | _ => false
      end
  | Logged _ => false
  end.

(** A call to EC2, its client constructor included. *)
Definition is_ec2 {Blob} (e : event Blob) : bool :=
  match e with
  | Called c _ =>
      match c with
      | boto3_client service => negb (String.eqb service "s3")
      | ec2_describe_snapshots _ | ec2_import_snapshot _ _ _
      | ec2_describe_import_snapshot_tasks _ | ec2_create_tags _ _
      | ec2_describe_images _ | ec2_register_image _ _ _
      | ec2_modify_image_attribute _ => true
      | _ => false
      end
  | Logged _ => false
  end.

(** A call about machine images. *)
Definition is_image_call {Blob} (e : event Blob) : bool :=
  match e with
  | Called c _ =>
      match c with
      | ec2_describe_images _ | ec2_register_image _ _ _
      | ec2_modify_image_attribute _ => true
      | _ => false
      end
  | Logged _ => false
  end.

(** [tempfile.gettempdir()]: its first call in a process probes the
    candidate directories by writing and removing a file. *)
Definition is_gettempdir {Blob} (e : event Blob) : bool :=
  match e with Called tempfile_gettempdir _ => true | _ => false end.

(** A call that reads or writes the local disk, or sleeps. *)
Definition is_local_io {Blob} (e : event Blob) : bool :=
  match e with
  | Called c _ =>
      match c with
      | tempfile_gettempdir
      | os_path_exists _ | open_wb _ | file_write _ _ | os_path_getsize _
      | gzip_open_rb _ | shutil_copyfileobj _ _ | os_remove _ | open_rb _
      | time_sleep _ => true
      | _ => false
      end
  | Logged _ => false
  end.

(** [Avoids p m]: no event of [m] satisfies [p]. *)
Definition Avoids {Blob World A} (p : event Blob -> bool)
    (m : M Blob (state World) A) : Prop :=
  forall s, existsb p (events_of (m s)) = false.

(** The answer to the last poll of a trace that was answered. *)
Fixpoint last_poll {Blob} (t : list (event Blob)) : option SnapshotTaskDetail :=
  match t with
  | [] => None
  | Called c r :: t' =>
      match last_poll t' with
      | Some d => Some d
      | None =>
          match c in call _ X return reply X -> option SnapshotTaskDetail with
          | ec2_describe_import_snapshot_tasks _ => fun r =>
              match r with Reply d => Some d | Failure _ => None end
          | _ => fun _ => None
          end r
      end
  | Logged _ :: t' => last_poll t'
  end.

(** A [create_tags] call that returned, on [resource], with the value
    [tag] for [rhcos_version]. *)
Definition is_tag_of {Blob} (resource : string) (tag : option string) (e : event Blob) : bool :=
  match e with
  | Called (ec2_create_tags r v) (Reply _) => String.eqb r resource && Sim.opt_eqb v tag
  | _ => false
  end.

(** What the loop did when it returned [sid]: the last poll said
    [completed] and named [sid], the snapshot was tagged, and ten seconds
    were slept after every poll but the last. *)
Definition completed_as {Blob} (sid : string) (t : list (event Blob)) : Prop :=
  exists d tag,
    last_poll t = Some d /\ Status d = "completed" /\ SnapshotId d = sid /\
    existsb (is_tag_of sid tag) t = true /\
    1 <= count_events is_poll t /\
    slept t = (10 * (Z.of_nat (count_events is_poll t) - 1))%Z /\
    slept_before_poll t = 0%Z /\
    waits t = repeat 10%Z (count_events is_poll t - 1) ++ [0%Z].

(** What a successful [import_snapshot] leaves: the snapshot it returned at
    the head of the listing by tag. *)
Definition Imported_as (sid : string) (s : state Sim.World) : Prop :=
  exists v rest, _rhcos_version (self s) = Some v /\ PyStr.truthy v = true /\
    Sim.is_denied "ec2:DescribeSnapshots" (world s) = false /\
    Sim.snapshots_tagged v (world s) = sid :: rest.

(** The image [img] heads the listing of the images named after the
    version. *)
Definition Registered_as (img : string) (s : state Sim.World) : Prop :=
  exists v i rest, _rhcos_version (self s) = Some v /\ PyStr.truthy v = true /\
    Sim.is_denied "ec2:DescribeImages" (world s) = false /\
    Sim.images_named ("rhcos-" +:+ v) (world s) = i :: rest /\ Sim.image_id i = img.

(** A [create_tags] call that failed. *)
Definition failed_tag {Blob} (e : event Blob) : bool :=
  match e with
  | Called (ec2_create_tags _ _) (Failure _) => true
  | _ => false
  end.

(** What a run that imported a snapshot and failed to tag it leaves: the
    object staged, the version resolved, no snapshot under its tag, and the
    import still allowed. *)
Definition Untagged (s : state Sim.World) : Prop :=
  Staged s /\
  exists v, _rhcos_version (self s) = Some v /\ PyStr.truthy v = true /\
    Sim.is_denied "ec2:DescribeSnapshots" (world s) = false /\
    Sim.is_denied "ec2:ImportSnapshot" (world s) = false /\
    Sim.snapshots_tagged v (world s) = [].

(** The same, in an account that refuses to tag. *)
Definition Untaggable (s : state Sim.World) : Prop :=
  Untagged s /\ Sim.is_denied "ec2:CreateTags" (world s) = true.

(** The state after one more call of [import_snapshot] for each fuel of the
    list. *)
Definition after_calls (fuels : list nat) (s : state Sim.World) : state Sim.World :=
  fold_left (fun s fuel => state_of (import_snapshot Sim.handle fuel s)) fuels s.

(* ===================================================================== *)
(** ** Concrete accounts *)
(* ===================================================================== *)

(** Concrete inputs: release 4.7.7 and its RHCOS build. *)
Module Scenario.

Definition bucket : string := "io-rhdt-govcloud-vmimport".

Definition rhcos : string := "47.83.202103251640-0".

Definition release_txt : string :=
  "Name:      4.7.7
Component Versions:
  kubernetes 1.20.0
  machine-os 47.83.202103251640-0 Red Hat Enterprise Linux CoreOS
".

Definition filename : string := "rhcos-47.83.202103251640-0-aws.x86_64.vmdk".

Definition url : string :=
  "https://releases-art-rhcos.svc.ci.openshift.org/art/storage/releases/rhcos-4.7/47.83.202103251640-0/x86_64/rhcos-47.83.202103251640-0-aws.x86_64.vmdk.gz".

(** A release text that names no [machine-os]. *)
Definition release_txt_without_machine_os : string :=
  "Name:      4.7.7
".

(** A complete archive, and a download cut after five bytes. *)
Definition vmdk_gz : Sim.Blob := Sim.mkBlob 900000000 (Some 1000000000%Z).
Definition truncated : Sim.Blob := Sim.mkBlob 5 None.

Definition mirror (text : string) (artifact : Sim.Blob) : gmap string (Response Sim.Blob) :=
  {[ release_txt_url "4.7.7" := mkResponse text (Sim.mkBlob 0 None);
     url := mkResponse "" artifact ]}.

Definition make (http : gmap string (Response Sim.Blob)) (objects : list (string * string))
    (snapshots : list Sim.Snapshot) (import_seconds : option Z) (images : list Sim.Image)
    (denied : list string) : Sim.World :=
  Sim.mkWorld http
    {[ "stable-4.7" := ["4.7.3"; "4.7.10"; "4.7.2-rc.1"; "4.8.0"] ]}
    "/tmp" ∅ objects snapshots [] import_seconds images 0 denied.

Definition job (w : Sim.World) : state Sim.World := mkState (__init__ "4.7.7" bucket) w.

(** The same object after its version was read once. *)
Definition resolved_job (w : Sim.World) : state Sim.World :=
  state_of (rhcos_version Sim.handle (job w)).

Definition tagged_snapshot : Sim.Snapshot := Sim.mkSnapshot "snap-1" (Some rhcos).

Definition public_image : Sim.Image :=
  Sim.mkImage "ami-1" "rhcos-47.83.202103251640-0" "snap-1" true.

(** Nothing is there yet. *)
Definition empty_account : Sim.World :=
  make (mirror release_txt vmdk_gz) [] [] (Some 25%Z) [] [].

(** The object is in the bucket and the import never completes. *)
Definition stalled_import : Sim.World :=
  make (mirror release_txt vmdk_gz) [(bucket, filename)] [] None [] [].

(** Object and snapshot are there. *)
Definition with_snapshot : Sim.World :=
  make (mirror release_txt vmdk_gz) [(bucket, filename)] [tagged_snapshot] (Some 25%Z) [] [].

(** Object, snapshot and image are there. *)
Definition with_image : Sim.World :=
  make (mirror release_txt vmdk_gz) [(bucket, filename)] [tagged_snapshot] (Some 25%Z)
    [public_image] [].

(** The snapshot is there, the object is gone from the bucket, and the
    download comes back cut. *)
Definition snapshot_without_object : Sim.World :=
  make (mirror release_txt truncated) [] [tagged_snapshot] (Some 25%Z) [] [].

(** The image is there, object and snapshot are gone, and the download
    comes back cut. *)
Definition image_without_object : Sim.World :=
  make (mirror release_txt truncated) [] [] (Some 25%Z) [public_image] [].

(** The release text names no [machine-os]. *)
Definition no_machine_os : Sim.World :=
  make (mirror release_txt_without_machine_os vmdk_gz) [] [] (Some 25%Z) [] [].

(** The mirror answers with an empty body. *)
Definition empty_release_txt : Sim.World :=
  make (mirror "" vmdk_gz) [] [] (Some 25%Z) [] [].

(** The download comes back cut. *)
Definition cut_download : Sim.World :=
  make (mirror release_txt truncated) [] [] (Some 25%Z) [] [].

(** The account may not change launch permissions. *)
Definition no_publish : Sim.World :=
  make (mirror release_txt vmdk_gz) [] [] (Some 25%Z) [] ["ec2:ModifyImageAttribute"].

(** A version of the form the filter lets through, whose patch number has
    4301 digits. *)
Definition long_patch : string := "4.7." +:+ N.iter 4301%N (String "1"%char) "".

(** The account may not tag. *)
Definition no_tagging : Sim.World :=
  make (mirror release_txt vmdk_gz) [] [] (Some 25%Z) [] ["ec2:CreateTags"].

(** The unpacked image is on the local disk already. *)
Definition already_downloaded : Sim.World :=
  Sim.set_files {[ "/tmp/rhcos-47.83.202103251640-0-aws.x86_64.vmdk" := Sim.mkBlob 1000000000 None ]}
    empty_account.

(** The mirror answers the artifact URL with a body that is no gzip
    stream. *)
Definition not_a_gzip : Sim.World :=
  make (mirror release_txt (Sim.mkBlob 900000000 None)) [] [] (Some 25%Z) [] [].

(** Three releases; the download of the second one comes back cut. *)
Definition three_releases : Sim.World :=
  Sim.mkWorld
    {[ release_txt_url "4.7.10" := mkResponse "machine-os 47.83.10-0" (Sim.mkBlob 0 None);
       release_txt_url "4.7.7" := mkResponse "machine-os 47.83.7-0" (Sim.mkBlob 0 None);
       release_txt_url "4.7.3" := mkResponse "machine-os 47.83.3-0" (Sim.mkBlob 0 None);
       base_url +:+ "/rhcos-4.7/47.83.10-0/x86_64/rhcos-47.83.10-0-aws.x86_64.vmdk.gz"
         := mkResponse "" vmdk_gz;
       base_url +:+ "/rhcos-4.7/47.83.7-0/x86_64/rhcos-47.83.7-0-aws.x86_64.vmdk.gz"
         := mkResponse "" truncated;
       base_url +:+ "/rhcos-4.7/47.83.3-0/x86_64/rhcos-47.83.3-0-aws.x86_64.vmdk.gz"
         := mkResponse "" vmdk_gz ]}
    ∅ "/tmp" ∅ [] [] [] (Some 25%Z) [] 0 [].

End Scenario.

(* ===================================================================== *)
(** ** Facts about strings *)
(* ===================================================================== *)

Lemma truthy_append_r (a b : string) : PyStr.truthy b = true -> PyStr.truthy (a +:+ b) = true.
Proof. destruct a; simpl; auto. Qed.

Lemma truthy_not_empty (s : string) : PyStr.truthy s = true <-> s <> "".
Proof. destruct s; simpl; split; congruence. Qed.

(** A match of [machine-os ([\d\.\-]+)] captures at least one character. *)
Lemma re_search_machine_os_truthy (d v : string) :
  PyStr.re_search_machine_os d = Some v -> PyStr.truthy v = true.
Proof.
  induction d as [|c d IH]; [discriminate|].
  cbn [PyStr.re_search_machine_os].
  destruct (PyStr.strip_prefix _ _) as [rest|]; [|exact IH].
  destruct (PyStr.truthy (PyStr.take_while PyStr.is_version_char rest)) eqn:E.
  - intros [= <-]. exact E.
  - exact IH.
Qed.

Lemma os_path_join_truthy (a b : string) :
  PyStr.truthy b = true -> PyStr.truthy (PyStr.os_path_join a b) = true.
Proof.
  intros Hb. unfold PyStr.os_path_join.
  destruct (PyStr.startswith "/" b); [exact Hb|].
  destruct (negb (PyStr.truthy a) || PyStr.endswith_slash a).
  - now apply truthy_append_r.
  - apply truthy_append_r. reflexivity.
Qed.

(** *** The string functions on the inputs of the spec *)

Example split_ex : PyStr.split "." "4.7.2-rc.1" = ["4"; "7"; "2-rc"; "1"].
Proof. reflexivity. Qed.

Example major_minor_ex : PyStr.major_minor "4.7.2-rc.1" = "4.7".
Proof. reflexivity. Qed.

Example re_release_ex :
  map PyStr.re_release ["4.7.3"; "4.7.10"; "4.7.2-rc.1"; "4.8.0"; "4.7"; "4.7.3.1"]
  = [true; true; false; true; false; false].
Proof. reflexivity. Qed.

Example re_search_ex :
  PyStr.re_search_machine_os "  machine-os 47.83.202103251640-0 Red Hat" = Some "47.83.202103251640-0".
Proof. reflexivity. Qed.

Example int_ex : map PyStr.int ["10"; " 7 "; "-3"; "1_0"; "x"; ""; "2-rc"] =
  [Some 10%Z; Some 7%Z; Some (-3)%Z; Some 10%Z; None; None; None].
Proof. reflexivity. Qed.

Example sort_ex :
  Discovery.sort_versions ["4.7.3"; "4.7.10"; "4.8.0"; "4.7.03"] = Some ["4.8.0"; "4.7.10"; "4.7.3"; "4.7.03"].
Proof. reflexivity. Qed.

(* ===================================================================== *)
(** ** Facts about the monad *)
(* ===================================================================== *)

Section MonadFacts.

Context {Blob S : Type}.

Lemma bind_Ok {A B} (m : M Blob S A) (f : A -> M Blob S B) s a s1 t1 :
  m s = (Ok a, s1, t1) ->
  bind m f s = (let '(r, s2, t2) := f a s1 in (r, s2, t1 ++ t2)).
Proof. intros H. unfold bind. rewrite H. reflexivity. Qed.

Lemma bind_Raise {A B} (m : M Blob S A) (f : A -> M Blob S B) s e s1 t1 :
  m s = (Raise e, s1, t1) -> bind m f s = (Raise e, s1, t1).
Proof. intros H. unfold bind. rewrite H. reflexivity. Qed.

Lemma post_eq {A} (m : M Blob S A) s Q :
  post m s Q <-> (forall r s1 t, m s = (r, s1, t) -> Q r s1 t).
Proof.
  unfold post, outcome_of, state_of, events_of. split.
  - intros H r s1 t E. rewrite E in H. exact H.
  - intros H. destruct (m s) as [[r s1] t]. now apply H.
Qed.

Lemma post_ret {A} (a : A) s (Q : outcome A -> S -> list (event Blob) -> Prop) :
  Q (Ok a) s [] -> post (ret a) s Q.
Proof. exact (fun H => H). Qed.

Lemma post_raise {A} e s (Q : outcome A -> S -> list (event Blob) -> Prop) :
  Q (Raise e) s [] -> post (raise e) s Q.
Proof. exact (fun H => H). Qed.

Lemma post_logger_info msg s (Q : outcome unit -> S -> list (event Blob) -> Prop) :
  Q (Ok tt) s [Logged (INFO msg)] -> post (logger_info msg) s Q.
Proof. exact (fun H => H). Qed.

Lemma post_logger_error e s (Q : outcome unit -> S -> list (event Blob) -> Prop) :
  Q (Ok tt) s [Logged (ERROR e)] -> post (logger_error e) s Q.
Proof. exact (fun H => H). Qed.

Lemma post_bind {A B} (m : M Blob S A) (f : A -> M Blob S B) s Q :
  post m s (fun r s1 t1 =>
    match r with
    | Ok a => post (f a) s1 (fun r2 s2 t2 => Q r2 s2 (t1 ++ t2))
    | Raise e => Q (Raise e) s1 t1
    | OutOfFuel => Q OutOfFuel s1 t1
    end) ->
  post (bind m f) s Q.
Proof.
  unfold post, bind, outcome_of, state_of, events_of.
  destruct (m s) as [[[a|e|] s1] t1]; simpl; auto.
  destruct (f a s1) as [[r2 s2] t2]. simpl. auto.
Qed.

Lemma post_try_except {A} (m : M Blob S A) (h : exn -> M Blob S A) s Q :
  post m s (fun r s1 t1 =>
    match r with
    | Ok a => Q (Ok a) s1 t1
    | Raise e => post (h e) s1 (fun r2 s2 t2 => Q r2 s2 (t1 ++ t2))
    | OutOfFuel => Q OutOfFuel s1 t1
    end) ->
  post (try_except m h) s Q.
Proof.
  unfold post, try_except, outcome_of, state_of, events_of.
  destruct (m s) as [[[a|e|] s1] t1]; simpl; auto.
  destruct (h e s1) as [[r2 s2] t2]. simpl. auto.
Qed.

Lemma post_weaken {A} (m : M Blob S A) s (P Q : outcome A -> S -> list (event Blob) -> Prop) :
  post m s P -> (forall r s1 t, P r s1 t -> Q r s1 t) -> post m s Q.
Proof. unfold post. auto. Qed.

End MonadFacts.
(* ===================================================================== *)
(** ** The lazy properties and the methods *)
(* ===================================================================== *)

Lemma keeps_refl a : keeps a a.
Proof. intros _. reflexivity. Qed.

Lemma keeps_trans a b c : keeps a b -> keeps b c -> keeps a c.
Proof. unfold keeps. intros H1 H2 H. rewrite <- (H1 H). apply H2. now rewrite (H1 H). Qed.

Lemma keeps_fill a v : py_not a = true -> keeps a v.
Proof. unfold keeps. congruence. Qed.

Lemma extends_refl o : extends o o.
Proof. repeat split; apply keeps_refl. Qed.

Lemma extends_trans a b c : extends a b -> extends b c -> extends a c.
Proof.
  intros (A1 & A2 & A3 & A4 & A5 & A6 & A7) (B1 & B2 & B3 & B4 & B5 & B6 & B7).
  repeat split; try congruence; eapply keeps_trans; eassumption.
Qed.

Section Properties.

Context {Blob World : Type}.
Variable handle : forall X : Type, call Blob X -> World -> reply X * World.

Abbreviation st := (state World).

(** In this section [Tame] and [Halts] speak of this environment. *)
Local Abbreviation Tame := (Tame (Blob:=Blob) (World:=World)).
Local Abbreviation Halts := (Halts (Blob:=Blob) (World:=World)).

Lemma perform_Reply {X} (c : call Blob X) (s : st) x w' :
  handle X c (world s) = (Reply x, w') ->
  perform handle c s = (Ok x, mkState (self s) w', [Called c (Reply x)]).
Proof. intros H. unfold perform, perform_top. rewrite H. reflexivity. Qed.

Lemma perform_Failure {X} (c : call Blob X) (s : st) what w' :
  handle X c (world s) = (Failure what, w') ->
  perform handle c s
  = (Raise (LibraryError what), mkState (self s) w', [Called c (Failure what)]).
Proof. intros H. unfold perform, perform_top. rewrite H. reflexivity. Qed.

Lemma post_perform {X} (c : call Blob X) (s : st) Q :
  (forall x w', handle X c (world s) = (Reply x, w') ->
     Q (Ok x) (mkState (self s) w') [Called c (Reply x)]) ->
  (forall what w', handle X c (world s) = (Failure what, w') ->
     Q (Raise (LibraryError what)) (mkState (self s) w') [Called c (Failure what)]) ->
  post (perform handle c) s Q.
Proof.
  intros H1 H2. unfold post, perform, perform_top, outcome_of, state_of, events_of.
  destruct (handle X c (world s)) as [[x|what] w'] eqn:E; simpl; auto.
Qed.

Lemma post_get_self (s : st) (Q : outcome OpenShiftRelease -> st -> list (event Blob) -> Prop) :
  Q (Ok (self s)) s [] -> post get_self s Q.
Proof. exact (fun H => H). Qed.

Lemma post_assign f (s : st) (Q : outcome unit -> st -> list (event Blob) -> Prop) :
  Q (Ok tt) (mkState (f (self s)) (world s)) [] -> post (assign f) s Q.
Proof. exact (fun H => H). Qed.

Lemma tame_le {A} k k' (s : st) (r : outcome A) s1 (t : list (event Blob)) :
  k <= k' -> tame k s r s1 t -> tame k' s r s1 t.
Proof.
  intros Hk (H1 & H2 & H3). split; [|split]; auto.
  eapply Forall_impl; [exact H3|]. simpl. intros. lia.
Qed.

Lemma tame_seq {A B} k (s s1 s2 : st) (a : A) (r : outcome B) (t1 t2 : list (event Blob)) :
  tame k s (Ok a) s1 t1 -> tame k s1 r s2 t2 -> tame k s r s2 (t1 ++ t2).
Proof.
  intros (_ & H2 & H3) (G1 & G2 & G3). split; [|split]; auto.
  - eapply extends_trans; eassumption.
  - apply Forall_app. auto.
Qed.


Lemma post_lazily {A} (wrap : string -> A) slot (compute : M Blob st A) (s : st) Q :
  (forall v, slot = Some v -> PyStr.truthy v = true -> Q (Ok (wrap v)) s []) ->
  (py_not slot = true -> post compute s Q) ->
  post (lazily wrap slot compute) s Q.
Proof.
  intros H1 H2. unfold lazily. destruct slot as [v|]; [|now apply H2].
  destruct (PyStr.truthy v) eqn:E.
  - now apply post_ret, H1.
  - apply H2. simpl. now rewrite E.
Qed.

Lemma tame_nil {A} k (s : st) (r : outcome A) :
  r <> OutOfFuel -> tame (Blob:=Blob) k s r s [].
Proof. intros H. split; [exact H|]. split; [apply extends_refl|constructor]. Qed.

Lemma data_spec (s : st) :
  post (data handle) s (fun r s1 t =>
    tame 0 s r s1 t /\ same_above_data (self s) (self s1) /\
    (forall d, r = Ok d -> _data (self s1) = Some d)).
Proof.
  unfold data. apply post_bind, post_get_self. cbv beta iota.
  apply post_lazily.
  - intros v Hv Ht. split; [now apply tame_nil|]. split; [now repeat split|].
    now intros d [= <-].
  - intros Hn. apply post_bind, post_perform; intros.
    + apply post_bind, post_assign, post_ret. simpl. split; [|split].
      * split; [discriminate|]. split; [|repeat constructor].
        repeat split; try apply keeps_refl. now apply keeps_fill.
      * now repeat split.
      * now intros d [= <-].
    + split; [|split].
      * split; [discriminate|]. split; [apply extends_refl|repeat constructor].
      * now repeat split.
      * discriminate.
Qed.


Lemma tame_Raise {A B} k (s : st) e s1 (t : list (event Blob)) :
  tame (A:=A) k s (Raise e) s1 t -> tame (A:=B) k s (Raise e) s1 t.
Proof. intros (_ & H2 & H3). split; [discriminate|]. now split. Qed.

Ltac splits := repeat match goal with |- _ /\ _ => split end.

Lemma rhcos_version_spec (s : st) :
  post (rhcos_version handle) s (fun r s1 t =>
    tame 0 s r s1 t /\
    _rhcos_filename (self s1) = _rhcos_filename (self s) /\
    _rhcos_path (self s1) = _rhcos_path (self s) /\
    _rhcos_url (self s1) = _rhcos_url (self s) /\
    (forall v, r = Ok (Some v) ->
       _rhcos_version (self s1) = Some v /\ PyStr.truthy v = true) /\
    (r = Ok None -> py_not (_rhcos_version (self s1)) = true)).
Proof.
  unfold rhcos_version. apply post_bind, post_get_self. cbv beta iota.
  apply post_lazily.
  - intros v Hv Ht. split; [now apply tame_nil|]. splits; try reflexivity.
    + now intros ? [= <-].
    + discriminate.
  - intros Hn. apply post_bind.
    eapply post_weaken; [apply data_spec|]. cbv beta.
    intros r s1 t (Ht & (F1 & F2 & F3 & F4) & Hd).
    destruct r as [d|e|]; [| |now destruct Ht].
    + destruct (PyStr.re_search_machine_os d) as [v|] eqn:Hre.
      * apply post_bind, post_assign, post_bind, post_logger_info, post_ret.
        simpl. split.
        { eapply tame_seq; [exact Ht|]. split; [discriminate|]. split.
          - repeat split; try apply keeps_refl. apply keeps_fill. now rewrite F1.
          - repeat constructor. }
        splits; auto.
        -- intros ? [= <-]. split; [reflexivity|].
           eapply re_search_machine_os_truthy; eauto.
        -- discriminate.
      * apply post_bind, post_logger_info, post_ret. simpl. split.
        { eapply tame_seq; [exact Ht|]. split; [discriminate|]. split.
          - apply extends_refl.
          - repeat constructor. }
        splits; auto; try discriminate. intros _. now rewrite F1.
    + split; [exact (tame_Raise _ _ _ _ _ Ht)|]. splits; auto; discriminate.
Qed.

Lemma rhcos_filename_spec (s : st) :
  post (rhcos_filename handle) s (fun r s1 t =>
    tame 0 s r s1 t /\
    _rhcos_path (self s1) = _rhcos_path (self s) /\
    _rhcos_url (self s1) = _rhcos_url (self s) /\
    (forall f, r = Ok f -> _rhcos_filename (self s1) = Some f /\ PyStr.truthy f = true)).
Proof.
  unfold rhcos_filename. apply post_bind, post_get_self. cbv beta iota.
  apply post_lazily.
  - intros v Hv Ht. split; [now apply tame_nil|]. splits; try reflexivity.
    now intros ? [= <-].
  - intros Hn. apply post_bind.
    eapply post_weaken; [apply rhcos_version_spec|]. cbv beta.
    intros r s1 t (Ht & F1 & F2 & F3 & _).
    destruct r as [v|e|]; [| |now destruct Ht].
    + apply post_bind, post_assign, post_ret. simpl. split.
      { eapply tame_seq; [exact Ht|]. split; [discriminate|]. split.
        - repeat split; try apply keeps_refl. apply keeps_fill. now rewrite F1.
        - constructor. }
      splits; auto. now intros ? [= <-].
    + split; [exact (tame_Raise _ _ _ _ _ Ht)|]. splits; auto; discriminate.
Qed.


Ltac norm := cbv beta iota; cbn [app self world]; rewrite ?app_nil_r.

Lemma tame_then {A B} k (s s1 s2 : st) (a : A) (r : outcome B) (t : list (event Blob)) :
  tame k s (Ok a) s1 t -> r <> OutOfFuel -> extends (self s1) (self s2) ->
  tame k s r s2 t.
Proof.
  intros (_ & H2 & H3) Hr He. split; [exact Hr|]. split; [|exact H3].
  eapply extends_trans; eassumption.
Qed.

Lemma rhcos_url_spec (s : st) :
  post (rhcos_url handle) s (fun r s1 t =>
    tame 0 s r s1 t /\
    _rhcos_path (self s1) = _rhcos_path (self s) /\
    (forall u, r = Ok u -> _rhcos_url (self s1) = Some u /\ PyStr.truthy u = true)).
Proof.
  unfold rhcos_url. apply post_bind, post_get_self. cbv beta iota.
  apply post_lazily.
  - intros v Hv Ht. split; [now apply tame_nil|]. splits; try reflexivity.
    now intros ? [= <-].
  - intros Hn. cbv zeta. apply post_bind.
    eapply post_weaken; [apply rhcos_version_spec|]. cbv beta.
    intros r s1 t (Ht & F1 & F2 & F3 & _).
    destruct r as [v|e|]; [| |now destruct Ht].
    + apply post_bind.
      eapply post_weaken; [apply rhcos_filename_spec|]. cbv beta.
      intros r2 s2 t2 (Ht2 & G1 & G2 & _).
      pose proof (tame_seq _ _ _ _ _ _ _ _ Ht Ht2) as Ht12.
      destruct r2 as [f|e|]; [| |now destruct Ht2].
      * destruct v as [v|].
        -- apply post_bind, post_assign, post_ret. norm. split.
           { eapply tame_then; [exact Ht12|discriminate|]. cbn [self].
             repeat split; try apply keeps_refl. apply keeps_fill.
             now rewrite G2, F3. }
           splits; [cbn; congruence|]. intros ? [= <-]. split; reflexivity.
        -- apply post_raise. norm. split.
           { eapply tame_then; [exact Ht12|discriminate|apply extends_refl]. }
           splits; [congruence|discriminate].
      * split; [exact (tame_Raise _ _ _ _ _ Ht12)|].
        splits; [congruence|discriminate].
    + split; [exact (tame_Raise _ _ _ _ _ Ht)|]. splits; auto; discriminate.
Qed.

Lemma rhcos_path_spec (s : st) :
  post (rhcos_path handle) s (fun r s1 t =>
    tame 0 s r s1 t /\
    _rhcos_url (self s1) = _rhcos_url (self s) /\
    (forall p, r = Ok p -> _rhcos_path (self s1) = Some p /\ PyStr.truthy p = true)).
Proof.
  unfold rhcos_path. apply post_bind, post_get_self. cbv beta iota.
  apply post_lazily.
  - intros v Hv Ht. split; [now apply tame_nil|]. splits; try reflexivity.
    now intros ? [= <-].
  - intros Hn. apply post_bind, post_perform; intros.
    + apply post_bind.
      eapply post_weaken; [apply rhcos_filename_spec|]. cbv beta.
      intros r s1 t (Ht & F1 & F2 & Hf). cbn [self] in F1, F2.
      assert (H0 : tame 0 s (Ok x) (mkState (self s) w')
                     [Called (Blob:=Blob) tempfile_gettempdir (Reply x)]).
      { split; [discriminate|]. split; [apply extends_refl|]. repeat constructor. }
      pose proof (tame_seq _ _ _ _ _ _ _ _ H0 Ht) as Ht1.
      destruct r as [f|e|]; [| |now destruct Ht].
      * apply post_bind, post_assign, post_ret. norm. split.
        { eapply tame_then; [exact Ht1|discriminate|]. cbn [self].
          repeat split; try apply keeps_refl. apply keeps_fill. now rewrite F1. }
        splits; [exact F2|]. intros ? [= <-]. split; [reflexivity|].
        apply os_path_join_truthy. now apply (Hf f).
      * split; [exact (tame_Raise _ _ _ _ _ Ht1)|]. splits; [exact F2|discriminate].
    + split; [|splits; [reflexivity|discriminate]].
      split; [discriminate|]. split; [apply extends_refl|]. repeat constructor.
Qed.


(** *** The methods: compositional facts *)

Lemma Tame_of_post {A} k (m : M Blob st A) :
  (forall s, post m s (fun r s1 t => tame k s r s1 t)) -> Tame k m.
Proof. intros H s. destruct (H s) as (_ & H2 & H3). now split. Qed.

Lemma Halts_of_post {A} k (m : M Blob st A) :
  (forall s, post m s (fun r s1 t => tame k s r s1 t)) -> Halts m.
Proof. intros H s. now destruct (H s) as (H1 & _). Qed.

Lemma Tame_le {A} k k' (m : M Blob st A) : k <= k' -> Tame k m -> Tame k' m.
Proof.
  intros Hk H s. destruct (H s) as [H1 H2]. split; [exact H1|].
  eapply Forall_impl; [exact H2|]. simpl. intros. lia.
Qed.

Lemma Tame_bind {A B} k (m : M Blob st A) (f : A -> M Blob st B) :
  Tame k m -> (forall a, Tame k (f a)) -> Tame k (bind m f).
Proof.
  intros Hm Hf s. specialize (Hm s). unfold bind, state_of, events_of in *.
  destruct (m s) as [[[a|e|] s1] t1]; simpl in *; auto.
  specialize (Hf a s1). unfold state_of, events_of in Hf.
  destruct (f a s1) as [[r2 s2] t2]. simpl in *.
  destruct Hm, Hf. split; [eapply extends_trans; eassumption|].
  apply Forall_app; auto.
Qed.

Lemma Halts_bind {A B} (m : M Blob st A) (f : A -> M Blob st B) :
  Halts m -> (forall a, Halts (f a)) -> Halts (bind m f).
Proof.
  intros Hm Hf s. specialize (Hm s). unfold bind, outcome_of in *.
  destruct (m s) as [[[a|e|] s1] t1]; simpl in *; auto.
  specialize (Hf a s1). unfold outcome_of in Hf.
  destruct (f a s1) as [[r2 s2] t2]. exact Hf.
Qed.

Lemma Tame_ret {A} k (a : A) : Tame k (ret a).
Proof. intros s. split; [apply extends_refl|constructor]. Qed.

Lemma Halts_ret {A} (a : A) : Halts (ret (Blob:=Blob) (S:=st) a).
Proof. intros s. discriminate. Qed.

Lemma Tame_raise {A} k e : Tame k (raise (A:=A) e).
Proof. intros s. split; [apply extends_refl|constructor]. Qed.

Lemma Halts_raise {A} e : Halts (raise (Blob:=Blob) (S:=st) (A:=A) e).
Proof. intros s. discriminate. Qed.

Lemma Tame_get_self k : Tame k get_self.
Proof. intros s. split; [apply extends_refl|constructor]. Qed.

Lemma Halts_get_self : Halts (get_self (Blob:=Blob) (World:=World)).
Proof. intros s. discriminate. Qed.

Lemma Tame_logger_info k msg :
  level (Blob:=Blob) (Logged (INFO msg)) <= k -> Tame k (logger_info msg).
Proof. intros H s. split; [apply extends_refl|]. repeat constructor. exact H. Qed.

Lemma Halts_logger_info msg : Halts (logger_info (Blob:=Blob) (S:=st) msg).
Proof. intros s. discriminate. Qed.

Lemma Tame_perform {X} k (c : call Blob X) :
  (forall r, level (Called c r) <= k) -> Tame k (perform handle c).
Proof.
  intros H s. unfold perform, perform_top, state_of, events_of.
  destruct (handle X c (world s)) as [[x|what] w']; simpl;
    (split; [apply extends_refl|repeat constructor; apply H]).
Qed.

Lemma Halts_perform {X} (c : call Blob X) : Halts (perform handle c).
Proof.
  intros s. unfold perform, perform_top, outcome_of.
  destruct (handle X c (world s)) as [[x|what] w']; discriminate.
Qed.

Lemma Tame_data : Tame 0 (data handle).
Proof. apply Tame_of_post. intros s. eapply post_weaken; [apply data_spec|]. now intros ? ? ? []. Qed.
Lemma Halts_data : Halts (data handle).
Proof. apply (Halts_of_post 0). intros s. eapply post_weaken; [apply data_spec|]. now intros ? ? ? []. Qed.
Lemma Tame_rhcos_version : Tame 0 (rhcos_version handle).
Proof. apply Tame_of_post. intros s. eapply post_weaken; [apply rhcos_version_spec|]. now intros ? ? ? []. Qed.
Lemma Halts_rhcos_version : Halts (rhcos_version handle).
Proof. apply (Halts_of_post 0). intros s. eapply post_weaken; [apply rhcos_version_spec|]. now intros ? ? ? []. Qed.
Lemma Tame_rhcos_filename : Tame 0 (rhcos_filename handle).
Proof. apply Tame_of_post. intros s. eapply post_weaken; [apply rhcos_filename_spec|]. now intros ? ? ? []. Qed.
Lemma Halts_rhcos_filename : Halts (rhcos_filename handle).
Proof. apply (Halts_of_post 0). intros s. eapply post_weaken; [apply rhcos_filename_spec|]. now intros ? ? ? []. Qed.
Lemma Tame_rhcos_url : Tame 0 (rhcos_url handle).
Proof. apply Tame_of_post. intros s. eapply post_weaken; [apply rhcos_url_spec|]. now intros ? ? ? []. Qed.
Lemma Halts_rhcos_url : Halts (rhcos_url handle).
Proof. apply (Halts_of_post 0). intros s. eapply post_weaken; [apply rhcos_url_spec|]. now intros ? ? ? []. Qed.
Lemma Tame_rhcos_path : Tame 0 (rhcos_path handle).
Proof. apply Tame_of_post. intros s. eapply post_weaken; [apply rhcos_path_spec|]. now intros ? ? ? []. Qed.
Lemma Halts_rhcos_path : Halts (rhcos_path handle).
Proof. apply (Halts_of_post 0). intros s. eapply post_weaken; [apply rhcos_path_spec|]. now intros ? ? ? []. Qed.

Ltac level_solve :=
  simpl;
  repeat match goal with |- context [if ?b then _ else _] => destruct b end;
  lia.

Ltac tame_prop k :=
  lazymatch goal with
  | |- Tame _ (data _) => apply (Tame_le 0 k); [lia|apply Tame_data]
  | |- Tame _ (rhcos_version _) => apply (Tame_le 0 k); [lia|apply Tame_rhcos_version]
  | |- Tame _ (rhcos_filename _) => apply (Tame_le 0 k); [lia|apply Tame_rhcos_filename]
  | |- Tame _ (rhcos_url _) => apply (Tame_le 0 k); [lia|apply Tame_rhcos_url]
  | |- Tame _ (rhcos_path _) => apply (Tame_le 0 k); [lia|apply Tame_rhcos_path]
  end.

Ltac tame_go k :=
  repeat first
    [ tame_prop k
    | lazymatch goal with
      | |- Tame _ (bind _ _) => apply Tame_bind; [|intros]
      | |- Tame _ (ret _) => apply Tame_ret
      | |- Tame _ (raise _) => apply Tame_raise
      | |- Tame _ get_self => apply Tame_get_self
      | |- Tame _ (logger_info _) => apply Tame_logger_info; level_solve
      | |- Tame _ (perform _ _) => apply Tame_perform; intros; level_solve
      | |- Tame _ (if ?b then _ else _) => destruct b
      | |- Tame _ (match ?x with _ => _ end) => destruct x
      end
    | progress cbv zeta ].

Ltac halts_go :=
  repeat first
    [ lazymatch goal with
      | |- Halts (data _) => apply Halts_data
      | |- Halts (rhcos_version _) => apply Halts_rhcos_version
      | |- Halts (rhcos_filename _) => apply Halts_rhcos_filename
      | |- Halts (rhcos_url _) => apply Halts_rhcos_url
      | |- Halts (rhcos_path _) => apply Halts_rhcos_path
      | |- Halts (bind _ _) => apply Halts_bind; [|intros]
      | |- Halts (ret _) => apply Halts_ret
      | |- Halts (raise _) => apply Halts_raise
      | |- Halts get_self => apply Halts_get_self
      | |- Halts (logger_info _) => apply Halts_logger_info
      | |- Halts (perform _ _) => apply Halts_perform
      | |- Halts (if ?b then _ else _) => destruct b
      | |- Halts (match ?x with _ => _ end) => destruct x
      end
    | progress cbv zeta ].

Lemma Tame_download_rhcos : Tame 1 (download_rhcos handle).
Proof. unfold download_rhcos. tame_go 1. Qed.

Lemma Halts_download_rhcos : Halts (download_rhcos handle).
Proof. unfold download_rhcos. halts_go. Qed.

Lemma Tame_upload_rhcos : Tame 2 (upload_rhcos handle).
Proof.
  unfold upload_rhcos. tame_go 2.
  apply (Tame_le 1 2); [lia|]. apply Tame_download_rhcos.
Qed.

Lemma Halts_upload_rhcos : Halts (upload_rhcos handle).
Proof. unfold upload_rhcos. halts_go. apply Halts_download_rhcos. Qed.

Lemma Tame_poll_import_task fuel id te : Tame 3 (poll_import_task handle fuel id te).
Proof.
  revert te. induction fuel as [|fuel IH]; intros te; cbn [poll_import_task].
  - intros s. split; [apply extends_refl|constructor].
  - tame_go 3. apply IH.
Qed.

(** The loop ends within the fuel as soon as the fuel covers the rounds left
    before [time_elapsed] passes 300. *)
Lemma Halts_poll_import_task fuel id te :
  (0 < fuel)%nat -> (300 < te + 10 * Z.of_nat fuel)%Z ->
  Halts (poll_import_task handle fuel id te).
Proof.
  revert te. induction fuel as [|fuel IH]; intros te Hpos Hte; [lia|].
  cbn [poll_import_task].
  apply Halts_bind; [apply Halts_logger_info|intros _].
  apply Halts_bind; [apply Halts_perform|intros d].
  destruct (String.eqb (Status d) "completed"); [halts_go|].
  apply Halts_bind; [apply Halts_logger_info|intros _]. cbv zeta.
  apply Halts_bind; [apply Halts_perform|intros _].
  destruct (60 * 5 <? te + 10)%Z eqn:E; [apply Halts_raise|].
  apply Z.ltb_ge in E. apply IH; lia.
Qed.

Lemma Tame_import_snapshot fuel : Tame 3 (import_snapshot handle fuel).
Proof.
  unfold import_snapshot. tame_go 3.
  - apply (Tame_le 2 3); [lia|apply Tame_upload_rhcos].
  - apply Tame_poll_import_task.
Qed.

Lemma Halts_import_snapshot fuel : 31 <= fuel -> Halts (import_snapshot handle fuel).
Proof.
  intros Hf. unfold import_snapshot. halts_go.
  - apply Halts_upload_rhcos.
  - apply Halts_poll_import_task; lia.
Qed.

Lemma Tame_register_image fuel : Tame 4 (register_image handle fuel).
Proof.
  unfold register_image. tame_go 4.
  apply (Tame_le 3 4); [lia|apply Tame_import_snapshot].
Qed.

Lemma Halts_register_image fuel : 31 <= fuel -> Halts (register_image handle fuel).
Proof.
  intros Hf. unfold register_image. halts_go. now apply Halts_import_snapshot.
Qed.

End Properties.

(* ===================================================================== *)
(** ** The poll loop *)
(* ===================================================================== *)

Section PollLoop.

Context {Blob World : Type}.
Variable handle : forall X : Type, call Blob X -> World -> reply X * World.

Lemma post_trivial {S A} (m : M Blob S A) s (Q : outcome A -> S -> list (event Blob) -> Prop) :
  (forall r s1 t, Q r s1 t) -> post m s Q.
Proof. unfold post. auto. Qed.

Lemma slept_cons (e : event Blob) t : slept (e :: t) = (seconds e + slept t)%Z.
Proof. reflexivity. Qed.

Lemma slept_app (t1 t2 : list (event Blob)) : slept (t1 ++ t2) = (slept t1 + slept t2)%Z.
Proof.
  induction t1 as [|e t1 IH]; [reflexivity|]. cbn [app].
  rewrite !slept_cons, IH. lia.
Qed.

Lemma quiet_slept (t : list (event Blob)) : quiet t -> slept t = 0%Z.
Proof.
  induction 1 as [|e t [_ He] _ IH]; [reflexivity|].
  rewrite slept_cons. lia.
Qed.

Lemma quiet_waits (t1 t2 : list (event Blob)) : quiet t1 -> waits (t1 ++ t2) = waits t2.
Proof.
  induction 1 as [|e t [He _] _ IH]; [reflexivity|].
  cbn [app waits]. now rewrite He.
Qed.

Lemma level_quiet (t : list (event Blob)) : Forall (fun e => level e <= 2) t -> quiet t.
Proof.
  intros H. eapply Forall_impl; [exact H|]. intros e He.
  destruct e as [X c r|l]; [destruct c|]; cbn in *; try (split; reflexivity); lia.
Qed.

Lemma timed_out_after_quiet {A} n (r : outcome A) (t1 t2 : list (event Blob)) :
  quiet t1 -> timed_out n r t2 -> timed_out n r (t1 ++ t2).
Proof.
  intros Hq (H1 & H2 & H3). split; [exact H1|]. split.
  - now rewrite quiet_waits.
  - rewrite slept_app, (quiet_slept _ Hq). lia.
Qed.

(** With [n] rounds left before [time_elapsed] passes 300, a loop whose
    polls stay pending makes exactly those rounds and raises. *)
Lemma poll_import_task_stalled (n fuel : nat) id te (s : state World) :
  (1 <= n)%nat -> (n <= fuel)%nat -> (te + 10 * Z.of_nat n = 310)%Z ->
  post (poll_import_task handle fuel id te) s (fun r _ t =>
    forallb pending t = true -> timed_out n r t /\ slept_before_poll t = 0%Z).
Proof.
  revert fuel te s.
  induction n as [|n IH]; intros fuel te s Hn Hfuel Hte; [lia|].
  destruct fuel as [|fuel]; [lia|]. cbn [poll_import_task].
  apply post_bind, post_logger_info. cbv beta iota.
  apply post_bind, post_perform; [intros d w1 _|intros what w1 _]; cbv beta iota;
    [|intros [=]].
  destruct (String.eqb (Status d) "completed") eqn:Hst.
  { apply post_trivial. intros r s1 t. cbn [app forallb pending]. rewrite Hst. intros [=]. }
  apply post_bind, post_logger_info. cbv beta iota zeta.
  apply post_bind, post_perform; [intros [] w2 _|intros what w2 _]; cbv beta iota;
    [|cbn [app forallb pending]; rewrite Hst; intros [=]].
  destruct (60 * 5 <? te + 10)%Z eqn:E.
  - apply Z.ltb_lt in E. assert (n = 0)%nat as -> by lia.
    apply post_raise. intros _. split; [|reflexivity].
    split; [eauto|]. split; reflexivity.
  - apply Z.ltb_ge in E.
    eapply post_weaken; [apply (IH fuel (te + 10)%Z); lia|]. cbv beta.
    intros r s1 t Ht Hp. cbn [app forallb pending] in Hp. rewrite Hst in Hp.
    cbn [negb andb] in Hp. destruct (Ht Hp) as ((H1 & H2 & H3) & H4).
    split; [|reflexivity]. split; [exact H1|]. split.
    + cbn [app waits is_poll slept_before_poll repeat]. rewrite H2, H4. reflexivity.
    + cbn [app]. rewrite !slept_cons, H3. cbn [seconds]. lia.
Qed.

Lemma quiet_nil : quiet (Blob:=Blob) [].
Proof. constructor. Qed.

Lemma quiet_app (t1 t2 : list (event Blob)) : quiet t1 -> quiet t2 -> quiet (t1 ++ t2).
Proof. apply Forall_app_2. Qed.

Lemma stalls_quiet {A} (r : outcome A) (t : list (event Blob)) : quiet t -> stalls r t.
Proof. intros H _. now left. Qed.

Lemma stalls_after_quiet {A} (r : outcome A) (t1 t2 : list (event Blob)) :
  quiet t1 -> stalls r t2 -> stalls r (t1 ++ t2).
Proof.
  intros Hq H Hp. rewrite forallb_app in Hp. apply andb_prop in Hp as [_ Hp].
  destruct (H Hp) as [H2|H2].
  - left. now apply quiet_app.
  - right. now apply timed_out_after_quiet.
Qed.

Lemma post_stalls_bind {A B} (m : M Blob (state World) A)
    (f : A -> M Blob (state World) B) s :
  quiet (events_of (m s)) ->
  (forall a s1, post (f a) s1 (fun r _ t => stalls r t)) ->
  post (bind m f) s (fun r _ t => stalls r t).
Proof.
  intros Hq Hf. apply post_bind. unfold post at 1.
  destruct (outcome_of (m s)) as [a| |].
  - eapply post_weaken; [apply Hf|]. cbv beta. intros r s1 t H.
    now apply stalls_after_quiet.
  - now apply stalls_quiet.
  - now apply stalls_quiet.
Qed.

Lemma quiet_Tame {A} (m : M Blob (state World) A) s :
  Tame 2 m -> quiet (events_of (m s)).
Proof. intros H. apply level_quiet, H. Qed.

Lemma quiet_perform {X} (c : call Blob X) s :
  (forall r, is_poll (Called c r) = false /\ seconds (Called c r) = 0%Z) ->
  quiet (events_of (perform handle c s)).
Proof.
  intros H. unfold perform, perform_top, events_of.
  destruct (handle X c (world s)) as [[x|what] w']; repeat constructor; apply H.
Qed.

Lemma import_snapshot_stalls fuel s :
  31 <= fuel ->
  post (import_snapshot handle fuel) s (fun r _ t => stalls r t).
Proof.
  intros Hfuel. unfold import_snapshot.
  apply post_stalls_bind; [apply quiet_Tame, Tame_upload_rhcos|intros _ s1].
  apply post_stalls_bind;
    [apply quiet_Tame, (Tame_le 0 2), Tame_rhcos_version; lia|intros v s2].
  cbv zeta.
  apply post_stalls_bind; [apply quiet_perform; now intros|intros _ s3].
  apply post_stalls_bind;
    [apply quiet_Tame, (Tame_le 0 2), Tame_rhcos_version; lia|intros v' s4].
  apply post_stalls_bind; [apply quiet_perform; now intros|intros l s5].
  destruct l as [|snapshot_id l].
  - apply post_stalls_bind; [apply quiet_nil|intros o s6].
    apply post_stalls_bind;
      [apply quiet_Tame, (Tame_le 0 2), Tame_rhcos_filename; lia|intros f s7].
    apply post_stalls_bind; [repeat constructor|intros _ s8].
    apply post_stalls_bind;
      [apply quiet_Tame, (Tame_le 0 2), Tame_rhcos_filename; lia|intros f' s9].
    apply post_stalls_bind; [apply quiet_perform; now intros|intros id s10].
    eapply post_weaken; [apply (poll_import_task_stalled 31); lia|]. cbv beta.
    intros r s11 t H Hp. right. now apply H.
  - apply post_stalls_bind; [repeat constructor|intros _ s6].
    apply post_ret. apply stalls_quiet, quiet_nil.
Qed.

End PollLoop.

(** C1: in whatever environment, if a run of [import_snapshot] polled the
    import task at least once and no poll of the run was answered with the
    status ["completed"] (and no call of it failed), then the run ends in the
    [RuntimeError] of line 215, each of its 31 polls is followed by a sleep
    of ten seconds, and the seconds slept add up to 310: more than the five
    minutes of the deadline and at most one poll interval past them. *)
Theorem C1_import_snapshot_times_out_after_310_seconds :
  forall (Blob World : Type)
         (handle : forall X : Type, call Blob X -> World -> reply X * World)
         (fuel : nat) (s : state World) r s1 t,
    31 <= fuel ->
    import_snapshot handle fuel s = (r, s1, t) ->
    existsb is_poll t = true ->
    forallb pending t = true ->
    (exists id, r = Raise (RuntimeError_timeout id)) /\
    waits t = repeat 10%Z 31 /\
    slept t = 310%Z /\
    (60 * 5 < slept t <= 60 * 5 + 10)%Z.
Proof.
  intros Blob World handle fuel s r s1 t Hfuel Hrun Hpoll Hpend.
  pose proof (import_snapshot_stalls handle fuel s Hfuel) as H.
  unfold post, outcome_of, events_of in H. rewrite Hrun in H. cbn [fst snd] in H.
  destruct (H Hpend) as [Hq|(H1 & H2 & H3)].
  - exfalso. apply existsb_exists in Hpoll as (e & He & Hpe).
    unfold quiet in Hq. rewrite Forall_forall in Hq.
    apply list_elem_of_In in He. destruct (Hq e He) as [Hq1 _]. congruence.
  - split; [exact H1|]. split; [exact H2|]. rewrite H3. lia.
Qed.

(* ===================================================================== *)
(** ** Caches, the resolver, the batch *)
(* ===================================================================== *)

Section Claims.

Context {Blob World : Type}.
Variable handle : forall X : Type, call Blob X -> World -> reply X * World.

Lemma lazily_cached {A} (wrap : string -> A) slot v (compute : M Blob (state World) A) s :
  slot = Some v -> PyStr.truthy v = true -> lazily wrap slot compute s = (Ok (wrap v), s, []).
Proof. intros -> H. unfold lazily. rewrite H. reflexivity. Qed.

Lemma lazily_compute {A} (wrap : string -> A) slot (compute : M Blob (state World) A) :
  py_not slot = true -> lazily wrap slot compute = compute.
Proof.
  intros H. unfold lazily. destruct slot as [v|]; [|reflexivity].
  simpl in H. destruct (PyStr.truthy v); [discriminate|reflexivity].
Qed.

Lemma data_cached (s : state World) d :
  _data (self s) = Some d -> PyStr.truthy d = true -> data handle s = (Ok d, s, []).
Proof.
  intros H1 H2. unfold data. erewrite bind_Ok by reflexivity.
  now rewrite (lazily_cached id _ d _ s H1 H2).
Qed.

Lemma rhcos_version_cached (s : state World) v :
  _rhcos_version (self s) = Some v -> PyStr.truthy v = true ->
  rhcos_version handle s = (Ok (Some v), s, []).
Proof.
  intros H1 H2. unfold rhcos_version. erewrite bind_Ok by reflexivity.
  now rewrite (lazily_cached Some _ v _ s H1 H2).
Qed.

Lemma rhcos_filename_cached (s : state World) f :
  _rhcos_filename (self s) = Some f -> PyStr.truthy f = true ->
  rhcos_filename handle s = (Ok f, s, []).
Proof.
  intros H1 H2. unfold rhcos_filename. erewrite bind_Ok by reflexivity.
  now rewrite (lazily_cached id _ f _ s H1 H2).
Qed.

Lemma rhcos_path_cached (s : state World) p :
  _rhcos_path (self s) = Some p -> PyStr.truthy p = true ->
  rhcos_path handle s = (Ok p, s, []).
Proof.
  intros H1 H2. unfold rhcos_path. erewrite bind_Ok by reflexivity.
  now rewrite (lazily_cached id _ p _ s H1 H2).
Qed.

Lemma rhcos_url_cached (s : state World) u :
  _rhcos_url (self s) = Some u -> PyStr.truthy u = true ->
  rhcos_url handle s = (Ok u, s, []).
Proof.
  intros H1 H2. unfold rhcos_url. erewrite bind_Ok by reflexivity.
  now rewrite (lazily_cached id _ u _ s H1 H2).
Qed.

Lemma keeps_cached a b v : keeps a b -> a = Some v -> PyStr.truthy v = true -> b = Some v.
Proof. intros H -> Ht. apply H. cbn. now rewrite Ht. Qed.

(** X19: once an access to a derived field has returned a value that
    Python counts as true (any value of the file name, the local path and
    the source URL; a non-empty release text; a version that was found),
    every later access to that field, from every state whose caches extend
    the ones the first access left, returns the same value, changes nothing
    and performs no call and no log.  (Every method only extends the caches:
    [Tame_register_image] and its like.) *)
Theorem true_values_are_computed_once (s : state World) :
  (forall d s1 t, data handle s = (Ok d, s1, t) -> d <> "" ->
     forall s2, extends (self s1) (self s2) -> data handle s2 = (Ok d, s2, [])) /\
  (forall v s1 t, rhcos_version handle s = (Ok (Some v), s1, t) ->
     forall s2, extends (self s1) (self s2) ->
       rhcos_version handle s2 = (Ok (Some v), s2, [])) /\
  (forall f s1 t, rhcos_filename handle s = (Ok f, s1, t) ->
     forall s2, extends (self s1) (self s2) -> rhcos_filename handle s2 = (Ok f, s2, [])) /\
  (forall p s1 t, rhcos_path handle s = (Ok p, s1, t) ->
     forall s2, extends (self s1) (self s2) -> rhcos_path handle s2 = (Ok p, s2, [])) /\
  (forall u s1 t, rhcos_url handle s = (Ok u, s1, t) ->
     forall s2, extends (self s1) (self s2) -> rhcos_url handle s2 = (Ok u, s2, [])).
Proof.
  split; [|split; [|split; [|split]]].
  - intros d s1 t H Hd s2 (_ & _ & K & _).
    pose proof (proj1 (post_eq _ _ _) (data_spec handle s) _ _ _ H) as (_ & _ & Hc).
    apply truthy_not_empty in Hd.
    apply data_cached; [|exact Hd]. apply (keeps_cached _ _ _ K); [now apply Hc|exact Hd].
  - intros v s1 t H s2 (_ & _ & _ & _ & _ & _ & K).
    pose proof (proj1 (post_eq _ _ _) (rhcos_version_spec handle s) _ _ _ H)
      as (_ & _ & _ & _ & Hc & _).
    destruct (Hc v eq_refl) as [Hv Ht].
    apply rhcos_version_cached; [|exact Ht]. now apply (keeps_cached _ _ _ K).
  - intros f s1 t H s2 (_ & _ & _ & K & _).
    pose proof (proj1 (post_eq _ _ _) (rhcos_filename_spec handle s) _ _ _ H)
      as (_ & _ & _ & Hc).
    destruct (Hc f eq_refl) as [Hv Ht].
    apply rhcos_filename_cached; [|exact Ht]. now apply (keeps_cached _ _ _ K).
  - intros p s1 t H s2 (_ & _ & _ & _ & K & _).
    pose proof (proj1 (post_eq _ _ _) (rhcos_path_spec handle s) _ _ _ H)
      as (_ & _ & Hc).
    destruct (Hc p eq_refl) as [Hv Ht].
    apply rhcos_path_cached; [|exact Ht]. now apply (keeps_cached _ _ _ K).
  - intros u s1 t H s2 (_ & _ & _ & _ & _ & K & _).
    pose proof (proj1 (post_eq _ _ _) (rhcos_url_spec handle s) _ _ _ H)
      as (_ & _ & Hc).
    destruct (Hc u eq_refl) as [Hv Ht].
    apply rhcos_url_cached; [|exact Ht]. now apply (keeps_cached _ _ _ K).
Qed.

(** X20: a release text without a [machine-os] line makes the resolver
    log one INFO line and return [None]; no exception, and the cache of the
    version stays empty. *)
Theorem version_not_found_is_logged_not_raised (s : state World) d s1 t :
  py_not (_rhcos_version (self s)) = true ->
  data handle s = (Ok d, s1, t) ->
  PyStr.re_search_machine_os d = None ->
  rhcos_version handle s
  = (Ok None, s1,
     t ++ [Logged (INFO ("Unable to find RHCOS version for " +:+ version (self s)))])
  /\ py_not (_rhcos_version (self s1)) = true.
Proof.
  intros Hn Hd Hre. split.
  - unfold rhcos_version. erewrite bind_Ok by reflexivity. cbn [app].
    rewrite (lazily_compute _ _ _ Hn). erewrite bind_Ok by exact Hd. rewrite Hre.
    erewrite bind_Ok by reflexivity. reflexivity.
  - pose proof (proj1 (post_eq _ _ _) (data_spec handle s) _ _ _ Hd) as (_ & (F & _) & _).
    now rewrite F.
Qed.

(** *** The loop over the batch *)

Lemma processed_app (t1 t2 : list (event Blob)) :
  processed (t1 ++ t2) = processed t1 ++ processed t2.
Proof.
  induction t1 as [|e t1 IH]; [reflexivity|]. cbn [app processed].
  destruct e as [X c r|[msg|e]]; auto.
  destruct (PyStr.strip_prefix _ msg); [cbn [app]; f_equal|]; exact IH.
Qed.

Lemma processed_low (t : list (event Blob)) :
  Forall (fun e => level e <= 4) t -> processed t = [].
Proof.
  induction 1 as [|e t He _ IH]; [reflexivity|]. cbn [processed].
  destruct e as [X c r|[msg|e]]; auto.
  cbn [level] in He. unfold PyStr.startswith in He.
  destruct (PyStr.strip_prefix _ msg); [lia|exact IH].
Qed.

Lemma errors_logged_app (t1 t2 : list (event Blob)) :
  errors_logged (t1 ++ t2) = errors_logged t1 ++ errors_logged t2.
Proof.
  induction t1 as [|e t1 IH]; [reflexivity|]. cbn [app errors_logged].
  destruct e as [X c r|[msg|e]]; auto. cbn [app]. now f_equal.
Qed.

Lemma processed_announce v :
  processed (Blob:=Blob) [Logged (INFO ("Processing OpenShift " +:+ v))] = [v].
Proof. reflexivity. Qed.

(** The loop never raises: it ends normally, having gone through the whole
    batch as [batch] describes. *)
Lemma process_versions_runs (fuel : nat) (openshift_versions : list string) (w : World) :
  31 <= fuel ->
  exists w' t,
    process_versions handle fuel openshift_versions w = (Ok tt, w', t) /\
    batch handle fuel openshift_versions w w' t /\
    processed t = openshift_versions.
Proof.
  intros Hfuel. revert w.
  induction openshift_versions as [|v vs IH]; intros w.
  - exists w, []. repeat split. constructor.
  - cbn [process_versions].
    destruct (register_image handle fuel (mkState (__init__ v "io-rhdt-govcloud-vmimport") w))
      as [[r s1] t1] eqn:Hrun.
    pose proof (Halts_register_image handle fuel Hfuel
                  (mkState (__init__ v "io-rhdt-govcloud-vmimport") w)) as Hh.
    pose proof (Tame_register_image handle fuel
                  (mkState (__init__ v "io-rhdt-govcloud-vmimport") w)) as [_ Hlow].
    unfold outcome_of, events_of in Hh, Hlow. rewrite Hrun in Hh, Hlow. cbn [fst snd] in Hh, Hlow.
    destruct (IH (world s1)) as (w' & t2 & Hrest & Hb & Hp).
    erewrite bind_Ok by reflexivity.
    destruct r as [image_id|e|]; [| |congruence].
    + exists w', ([Logged (INFO ("Processing OpenShift " +:+ v))] ++ t1 ++ t2).
      assert (Hstep : process_versions handle fuel (v :: vs) w
                      = (Ok tt, w', [Logged (INFO ("Processing OpenShift " +:+ v))] ++ t1 ++ t2)).
      { cbn [process_versions]. erewrite bind_Ok by reflexivity.
        erewrite bind_Ok.
        2:{ unfold try_except. erewrite bind_Ok.
            2:{ unfold on_object. rewrite Hrun. reflexivity. }
            reflexivity. }
        rewrite Hrest. rewrite app_nil_r. reflexivity. }
      cbn [process_versions] in Hstep. erewrite bind_Ok in Hstep by reflexivity.
      rewrite Hstep. repeat split.
      * econstructor; eassumption.
      * rewrite !processed_app, processed_announce, (processed_low _ Hlow), Hp. reflexivity.
    + exists w', ([Logged (INFO ("Processing OpenShift " +:+ v))] ++ t1 ++ [Logged (ERROR e)] ++ t2).
      assert (Hstep : process_versions handle fuel (v :: vs) w
                      = (Ok tt, w', [Logged (INFO ("Processing OpenShift " +:+ v))]
                                    ++ t1 ++ [Logged (ERROR e)] ++ t2)).
      { cbn [process_versions]. erewrite bind_Ok by reflexivity.
        erewrite bind_Ok.
        2:{ unfold try_except. erewrite bind_Raise.
            2:{ unfold on_object. rewrite Hrun. reflexivity. }
            reflexivity. }
        rewrite Hrest. cbn [app]. now rewrite <- app_assoc. }
      cbn [process_versions] in Hstep. erewrite bind_Ok in Hstep by reflexivity.
      rewrite Hstep. repeat split.
      * econstructor; eassumption.
      * rewrite !processed_app, processed_announce, (processed_low _ Hlow), Hp. reflexivity.
Qed.

(** C8: the loop over a batch never raises, whatever the versions and
    whatever the environment answers: it ends normally, it is a [batch] (each
    version announced, its pipeline run on a fresh object, an exception
    logged at ERROR, the next version started in the world the failed one
    left), and the versions announced are the whole list, in order.
    And once discovery and sorting have returned, the script as a whole ends
    normally, which is exit status 0. *)
Theorem C8_failures_are_isolated (fuel : nat) :
  31 <= fuel ->
  (forall (openshift_versions : list string) (w : World),
     exists w' t,
       process_versions handle fuel openshift_versions w = (Ok tt, w', t) /\
       batch handle fuel openshift_versions w w' t /\
       processed t = openshift_versions) /\
  (forall versions_to_upload w0 found w t0 sorted,
     collect_versions handle versions_to_upload versions_to_upload [] w0 = (Ok found, w, t0) ->
     Discovery.sort_versions found = Some sorted ->
     exists w' t,
       main handle fuel versions_to_upload w0 = (Ok tt, w', t0 ++ t) /\
       exit_status (outcome_of (main handle fuel versions_to_upload w0)) = Some 0%Z /\
       batch handle fuel sorted w w' t).
Proof.
  intros Hfuel. split.
  - intros vs w. now apply process_versions_runs.
  - intros vtu w0 found w t0 sorted Hc Hs.
    destruct (process_versions_runs fuel sorted w Hfuel) as (w' & t & Hrun & Hb & _).
    assert (Hm : main handle fuel vtu w0 = (Ok tt, w', t0 ++ t)).
    { unfold main. erewrite bind_Ok by exact Hc. now rewrite Hs, Hrun. }
    exists w', t. split; [exact Hm|]. split; [now rewrite Hm|exact Hb].
Qed.

End Claims.

(* ===================================================================== *)
(** ** The idempotence checks *)
(* ===================================================================== *)

Section Skips.

Context {Blob World : Type}.
Variable handle : forall X : Type, call Blob X -> World -> reply X * World.

Lemma existsb_low {k} (p : event Blob -> bool) (t : list (event Blob)) :
  (forall e, level e <= k -> p e = false) ->
  Forall (fun e => level e <= k) t -> existsb p t = false.
Proof.
  intros Hp. induction 1 as [|e t He _ IH]; [reflexivity|].
  cbn [existsb]. now rewrite (Hp e He), IH.
Qed.

Lemma low_not_upload (e : event Blob) : level e <= 0 -> is_upload e = false.
Proof. destruct e as [X c r|l]; [destruct c|]; cbn; try reflexivity; lia. Qed.

Lemma low_not_fetch (e : event Blob) : level e <= 0 -> is_fetch e = false.
Proof.
  destruct e as [X c r|l]; [destruct c|]; cbn; try reflexivity; try lia.
  destruct (PyStr.startswith _ url); [reflexivity|lia].
Qed.

Lemma low_not_import_submit (e : event Blob) : level e <= 2 -> is_import_submit e = false.
Proof. destruct e as [X c r|l]; [destruct c|]; cbn; try reflexivity; lia. Qed.

Lemma low_not_register (e : event Blob) : level e <= 3 -> is_register e = false.
Proof. destruct e as [X c r|l]; [destruct c|]; cbn; try reflexivity; lia. Qed.

Lemma low_not_modify (e : event Blob) : level e <= 3 -> is_modify e = false.
Proof. destruct e as [X c r|l]; [destruct c|]; cbn; try reflexivity; lia. Qed.

Lemma events_low {A} k (m : M Blob (state World) A) s r s1 t :
  Tame k m -> m s = (r, s1, t) -> Forall (fun e => level e <= k) t.
Proof. intros H E. destruct (H s) as [_ H2]. unfold events_of in H2. now rewrite E in H2. Qed.

(** The first branch of [upload_rhcos]. *)
Lemma upload_rhcos_skips (s : state World) w1 f s2 t2 kc w3 :
  handle _ (boto3_client "s3") (world s) = (Reply tt, w1) ->
  rhcos_filename handle (mkState (self s) w1) = (Ok f, s2, t2) ->
  handle _ (s3_list_objects_v2 (s3_bucket (self s)) f) (world s2) = (Reply kc, w3) ->
  key_count_positive kc = true ->
  upload_rhcos handle s
  = (Ok tt, mkState (self s2) w3,
     [Called (boto3_client "s3") (Reply tt)] ++ t2 ++
     [Called (s3_list_objects_v2 (s3_bucket (self s)) f) (Reply kc);
      Logged (INFO ("Skipping upload because s3://" +:+ s3_bucket (self s) +:+ "/"
                    +:+ f +:+ " already exists"))]).
Proof.
  intros H1 H2 H3 H4. unfold upload_rhcos.
  erewrite bind_Ok by (apply perform_Reply; exact H1).
  erewrite bind_Ok by reflexivity. cbn [self world].
  erewrite bind_Ok by exact H2.
  erewrite bind_Ok by (apply perform_Reply; exact H3).
  rewrite H4.
  pose proof (proj1 (post_eq _ _ _) (rhcos_filename_spec handle _) _ _ _ H2)
    as (_ & _ & _ & Hc).
  destruct (Hc f eq_refl) as [Hf Ht].
  erewrite bind_Ok by (apply rhcos_filename_cached; [exact Hf|exact Ht]).
  reflexivity.
Qed.

(** The first branch of [import_snapshot]. *)
Lemma import_snapshot_skips fuel (s : state World) s1 t1 v s2 t2 w3 v' s4 t4 sid rest w5 :
  upload_rhcos handle s = (Ok tt, s1, t1) ->
  rhcos_version handle s1 = (Ok v, s2, t2) ->
  handle _ (boto3_client "ec2") (world s2) = (Reply tt, w3) ->
  rhcos_version handle (mkState (self s2) w3) = (Ok v', s4, t4) ->
  handle _ (ec2_describe_snapshots v') (world s4) = (Reply (sid :: rest), w5) ->
  import_snapshot handle fuel s
  = (Ok sid, mkState (self s4) w5,
     t1 ++ t2 ++ [Called (boto3_client "ec2") (Reply tt)] ++ t4 ++
     [Called (ec2_describe_snapshots v') (Reply (sid :: rest));
      Logged (INFO ("Skipping snapshot creation because " +:+ sid +:+ " already exists"))]).
Proof.
  intros H1 H2 H3 H4 H5. unfold import_snapshot.
  erewrite bind_Ok by exact H1.
  erewrite bind_Ok by exact H2. cbv zeta.
  erewrite bind_Ok by (apply perform_Reply; exact H3).
  erewrite bind_Ok by exact H4.
  erewrite bind_Ok by (apply perform_Reply; exact H5). cbv iota.
  erewrite bind_Ok by reflexivity.
  reflexivity.
Qed.

(** The first branch of [register_image]. *)
Lemma register_image_skips fuel (s : state World) sid s1 t1 w2 v s3 t3 img rest w4 :
  import_snapshot handle fuel s = (Ok sid, s1, t1) ->
  handle _ (boto3_client "ec2") (world s1) = (Reply tt, w2) ->
  rhcos_version handle (mkState (self s1) w2) = (Ok v, s3, t3) ->
  handle _ (ec2_describe_images ("rhcos-" +:+ PyStr.fmt v)) (world s3)
  = (Reply (img :: rest), w4) ->
  register_image handle fuel s
  = (Ok img, mkState (self s3) w4,
     t1 ++ [Called (boto3_client "ec2") (Reply tt)] ++ t3 ++
     [Called (ec2_describe_images ("rhcos-" +:+ PyStr.fmt v)) (Reply (img :: rest));
      Logged (INFO ("Skipping image creation because " +:+ img +:+ " already exists"))]).
Proof.
  intros H1 H2 H3 H4. unfold register_image.
  erewrite bind_Ok by exact H1.
  erewrite bind_Ok by (apply perform_Reply; exact H2).
  erewrite bind_Ok by exact H3.
  erewrite bind_Ok by (apply perform_Reply; exact H4). cbv iota.
  erewrite bind_Ok by reflexivity.
  reflexivity.
Qed.

(** C3: if the listing of the bucket under the derived file name counts at
    least one key, [upload_rhcos] returns normally and its trace holds no
    upload and no fetch (no download, no file written, unpacked or removed);
    and a second call, when the listing still counts a key, does the same
    with three events in all: the client, the listing and the log line. *)
Theorem C3_stage_skips_when_the_object_exists (s : state World) w1 f s2 t2 kc w3 :
  handle _ (boto3_client "s3") (world s) = (Reply tt, w1) ->
  rhcos_filename handle (mkState (self s) w1) = (Ok f, s2, t2) ->
  handle _ (s3_list_objects_v2 (s3_bucket (self s)) f) (world s2) = (Reply kc, w3) ->
  key_count_positive kc = true ->
  exists t,
    upload_rhcos handle s = (Ok tt, mkState (self s2) w3, t) /\
    existsb is_upload t = false /\ existsb is_fetch t = false /\
    forall w4 kc' w5,
      handle _ (boto3_client "s3") w3 = (Reply tt, w4) ->
      handle _ (s3_list_objects_v2 (s3_bucket (self s)) f) w4 = (Reply kc', w5) ->
      key_count_positive kc' = true ->
      exists t',
        upload_rhcos handle (mkState (self s2) w3) = (Ok tt, mkState (self s2) w5, t') /\
        existsb is_upload t' = false /\ existsb is_fetch t' = false /\
        List.length t' = 3.
Proof.
  intros H1 H2 H3 H4.
  pose proof (proj1 (post_eq _ _ _) (rhcos_filename_spec handle _) _ _ _ H2)
    as ((_ & Hext & _) & _ & _ & Hc).
  destruct (Hc f eq_refl) as [Hf Ht].
  pose proof (events_low 0 _ _ _ _ _ (Tame_rhcos_filename handle) H2) as Hlow.
  eexists. split; [now apply (upload_rhcos_skips s w1 f s2 t2 kc w3)|].
  rewrite !existsb_app, (existsb_low is_upload t2 low_not_upload Hlow),
    (existsb_low is_fetch t2 low_not_fetch Hlow).
  split; [reflexivity|]. split; [reflexivity|].
  intros w4 kc' w5 G1 G2 G3.
  assert (Hb : s3_bucket (self s2) = s3_bucket (self s)) by apply Hext.
  eexists. split.
  - rewrite <- Hb in G2.
    rewrite (upload_rhcos_skips (mkState (self s2) w3) w4 f (mkState (self s2) w4) [] kc' w5);
      [reflexivity|exact G1|now apply rhcos_filename_cached|exact G2|exact G3].
  - repeat split.
Qed.

Lemma post_low {A} k (m : M Blob (state World) A) s :
  Tame k m -> post m s (fun _ _ t => Forall (fun e => level e <= k) t).
Proof. intros H. apply H. Qed.

(** [import_snapshot] asks for an import only after a listing that came back
    empty. *)
Lemma import_snapshot_submits_after_empty_listing fuel (s : state World) :
  post (import_snapshot handle fuel) s (fun _ _ t =>
    existsb is_empty_snapshot_listing t = false -> existsb is_import_submit t = false).
Proof.
  unfold import_snapshot.
  apply post_bind. eapply post_weaken; [apply (post_low 2), Tame_upload_rhcos|].
  cbv beta. intros r1 s1 t1 L1.
  pose proof (existsb_low is_import_submit t1 low_not_import_submit L1) as N1.
  destruct r1 as [[]|e|]; [|intros _; exact N1..].
  apply post_bind. eapply post_weaken; [apply (post_low 0), Tame_rhcos_version|].
  cbv beta. intros r2 s2 t2 L2.
  assert (N2 : existsb is_import_submit t2 = false).
  { apply (existsb_low (k:=2)); [apply low_not_import_submit|].
    eapply Forall_impl; [exact L2|]. cbv beta. intros. lia. }
  destruct r2 as [v2|e|]; [|intros _; now rewrite existsb_app, N1, N2..].
  cbv zeta.
  apply post_bind, post_perform; [intros [] w3 _|intros what w3 _ _];
    [|now rewrite !existsb_app, N1, N2].
  apply post_bind. eapply post_weaken; [apply (post_low 0), Tame_rhcos_version|].
  cbv beta. intros r4 s4 t4 L4.
  assert (N4 : existsb is_import_submit t4 = false).
  { apply (existsb_low (k:=2)); [apply low_not_import_submit|].
    eapply Forall_impl; [exact L4|]. cbv beta. intros. lia. }
  destruct r4 as [v4|e|]; [|intros _; now rewrite !existsb_app, N1, N2, N4..].
  apply post_bind, post_perform; [intros [|sid rest] w5 _|intros what w5 _ _];
    [| |now rewrite !existsb_app, N1, N2, N4].
  - apply post_trivial. intros r s6 t6 H. exfalso.
    rewrite !existsb_app in H. cbn [existsb is_empty_snapshot_listing] in H.
    rewrite !orb_true_r in H. discriminate H.
  - apply post_bind, post_logger_info. cbv beta iota. apply post_ret. intros _.
    now rewrite !existsb_app, N1, N2, N4.
Qed.

(** C2, as amended.  [import_snapshot] asks for no import unless a listing
    of the snapshots tagged with the version came back empty: none when the
    listing holds a snapshot, and none when the staging step [upload_rhcos]
    that runs before the listing fails, in which case its exception is the
    outcome.  For a job whose version is resolved, if the staging step
    returns normally and the listing is not empty, [import_snapshot]
    returns the id of the first snapshot listed. *)
Theorem C2_import_snapshot_skips_when_a_snapshot_is_tagged fuel (s : state World) :
  (existsb is_empty_snapshot_listing (events_of (import_snapshot handle fuel s)) = false ->
   existsb is_import_submit (events_of (import_snapshot handle fuel s)) = false) /\
  (forall e s1 t1,
     upload_rhcos handle s = (Raise e, s1, t1) ->
     import_snapshot handle fuel s = (Raise e, s1, t1) /\
     existsb is_import_submit t1 = false) /\
  (forall s1 t1 v w2 sid rest w3,
     upload_rhcos handle s = (Ok tt, s1, t1) ->
     _rhcos_version (self s1) = Some v -> v <> "" ->
     handle _ (boto3_client "ec2") (world s1) = (Reply tt, w2) ->
     handle _ (ec2_describe_snapshots (Some v)) w2 = (Reply (sid :: rest), w3) ->
     exists t,
       import_snapshot handle fuel s = (Ok sid, mkState (self s1) w3, t) /\
       existsb is_import_submit t = false).
Proof.
  split; [apply import_snapshot_submits_after_empty_listing|]. split.
  - intros e s1 t1 H1. split.
    + unfold import_snapshot. now apply bind_Raise.
    + pose proof (events_low 2 _ _ _ _ _ (Tame_upload_rhcos handle) H1) as Hlow.
      exact (existsb_low is_import_submit t1 low_not_import_submit Hlow).
  - intros s1 t1 v w2 sid rest w3 H1 Hv Hne H2 H3. apply truthy_not_empty in Hne.
    pose proof (events_low 2 _ _ _ _ _ (Tame_upload_rhcos handle) H1) as Hlow.
    eexists. split.
    + apply (import_snapshot_skips fuel s s1 t1 (Some v) s1 [] w2 (Some v)
               (mkState (self s1) w2) [] sid rest w3);
        [exact H1|now apply rhcos_version_cached|exact H2
        |now apply rhcos_version_cached|exact H3].
    + rewrite !existsb_app, (existsb_low is_import_submit t1 low_not_import_submit Hlow).
      reflexivity.
Qed.

(** [register_image] registers and publishes only after a listing of the
    images that came back empty. *)
Lemma register_image_registers_after_empty_listing fuel (s : state World) :
  post (register_image handle fuel) s (fun _ _ t =>
    existsb is_empty_image_listing t = false ->
    existsb is_register t = false /\ existsb is_modify t = false).
Proof.
  unfold register_image.
  apply post_bind. eapply post_weaken; [apply (post_low 3), Tame_import_snapshot|].
  cbv beta. intros r1 s1 t1 L1.
  pose proof (existsb_low is_register t1 low_not_register L1) as R1.
  pose proof (existsb_low is_modify t1 low_not_modify L1) as M1.
  destruct r1 as [sid|e|]; [|intros _; now split..].
  apply post_bind, post_perform; [intros [] w2 _|intros what w2 _ _];
    [|now rewrite !existsb_app, R1, M1].
  apply post_bind. eapply post_weaken; [apply (post_low 0), Tame_rhcos_version|].
  cbv beta. intros r3 s3 t3 L3.
  assert (L3' : Forall (fun e => level e <= 3) t3).
  { eapply Forall_impl; [exact L3|]. cbv beta. intros. lia. }
  pose proof (existsb_low is_register t3 low_not_register L3') as R3.
  pose proof (existsb_low is_modify t3 low_not_modify L3') as M3.
  destruct r3 as [v|e|]; [|intros _; now rewrite !existsb_app, R1, M1, R3, M3..].
  apply post_bind, post_perform; [intros [|img rest] w4 _|intros what w4 _ _];
    [| |now rewrite !existsb_app, R1, M1, R3, M3].
  - apply post_trivial. intros r s5 t5 H. exfalso.
    rewrite !existsb_app in H. cbn [existsb is_empty_image_listing] in H.
    rewrite !orb_true_r in H. discriminate H.
  - apply post_bind, post_logger_info. cbv beta iota. apply post_ret. intros _.
    now rewrite !existsb_app, R1, M1, R3, M3.
Qed.

(** C4, as amended.  [register_image] registers no image and changes no
    launch permission unless a listing of the images named
    ["rhcos-<version>"] came back empty: not when the listing holds an
    image, and not when the [import_snapshot] call that runs before the
    listing fails, in which case its exception is the outcome.  If that call
    returns normally and the listing is not empty, [register_image] returns
    the id of the first image listed. *)
Theorem C4_register_image_skips_when_the_image_exists fuel (s : state World) :
  (existsb is_empty_image_listing (events_of (register_image handle fuel s)) = false ->
   existsb is_register (events_of (register_image handle fuel s)) = false /\
   existsb is_modify (events_of (register_image handle fuel s)) = false) /\
  (forall e s1 t1,
     import_snapshot handle fuel s = (Raise e, s1, t1) ->
     register_image handle fuel s = (Raise e, s1, t1) /\
     existsb is_register t1 = false /\ existsb is_modify t1 = false) /\
  (forall sid s1 t1 v w2 img rest w3,
     import_snapshot handle fuel s = (Ok sid, s1, t1) ->
     _rhcos_version (self s1) = Some v -> v <> "" ->
     handle _ (boto3_client "ec2") (world s1) = (Reply tt, w2) ->
     handle _ (ec2_describe_images ("rhcos-" +:+ v)) w2 = (Reply (img :: rest), w3) ->
     exists t,
       register_image handle fuel s = (Ok img, mkState (self s1) w3, t) /\
       existsb is_register t = false /\ existsb is_modify t = false).
Proof.
  split; [apply register_image_registers_after_empty_listing|]. split.
  - intros e s1 t1 H1.
    pose proof (events_low 3 _ _ _ _ _ (Tame_import_snapshot handle fuel) H1) as Hlow.
    split; [unfold register_image; now apply bind_Raise|].
    split; [exact (existsb_low is_register t1 low_not_register Hlow)
           |exact (existsb_low is_modify t1 low_not_modify Hlow)].
  - intros sid s1 t1 v w2 img rest w3 H1 Hv Hne H2 H3. apply truthy_not_empty in Hne.
    pose proof (events_low 3 _ _ _ _ _ (Tame_import_snapshot handle fuel) H1) as Hlow.
    eexists. split.
    + apply (register_image_skips fuel s sid s1 t1 w2 (Some v)
               (mkState (self s1) w2) [] img rest w3);
        [exact H1|exact H2|now apply rhcos_version_cached|exact H3].
    + rewrite !existsb_app, (existsb_low is_register t1 low_not_register Hlow),
        (existsb_low is_modify t1 low_not_modify Hlow).
      split; reflexivity.
Qed.

End Skips.

(* ===================================================================== *)
(** ** The fetcher on the simulated disk *)
(* ===================================================================== *)

(** The size test of line 127 is a comparison with 100 MiB. *)
Lemma size_check (rhcos_size : Z) :
  float_lt (true_div rhcos_size (1024 * 1024)) (inject_Z 100)
  = (rhcos_size <? 100 * 1024 * 1024)%Z.
Proof.
  change (1024 * 1024)%Z with 1048576%Z. change (100 * 1024 * 1024)%Z with 104857600%Z.
  unfold float_lt, true_div, Qle_bool, Qdiv, Qmult, Qinv, inject_Z.
  cbn [Qnum Qden]. change (Z.pos (1 * 1048576)) with 1048576%Z.
  rewrite <- Z.ltb_antisym. f_equal. lia.
Qed.

Lemma length_append (a b : string) :
  String.length (a +:+ b) = String.length a + String.length b.
Proof. induction a as [|c a IH]; [reflexivity|]. simpl. f_equal. exact IH. Qed.

Lemma append_neq (p suffix : string) : suffix <> "" -> p +:+ suffix <> p.
Proof.
  intros Hs H. apply (f_equal String.length) in H.
  rewrite length_append in H. destruct suffix; [congruence|]. cbn in H. lia.
Qed.

(** *** Facts that hold in the simulated environment *)

Section SimFacts.

Abbreviation sim_state := (state Sim.World).

Lemma Still_bind {A B} (m : M Sim.Blob sim_state A) (f : A -> M Sim.Blob sim_state B) :
  Still m -> (forall a, Still (f a)) -> Still (bind m f).
Proof.
  intros Hm Hf s. specialize (Hm s). unfold bind, state_of in *.
  destruct (m s) as [[[a|e|] s1] t1]; cbn [fst snd] in *; auto.
  specialize (Hf a s1). unfold state_of in Hf.
  destruct (f a s1) as [[r2 s2] t2]. cbn [fst snd] in *. congruence.
Qed.

Lemma Still_ret {A} (a : A) : Still (ret a).
Proof. intros s. reflexivity. Qed.

Lemma Still_raise {A} e : Still (A:=A) (raise e).
Proof. intros s. reflexivity. Qed.

Lemma Still_get_self : Still get_self.
Proof. intros s. reflexivity. Qed.

Lemma Still_assign f : Still (assign f).
Proof. intros s. reflexivity. Qed.

Lemma Still_logger_info msg : Still (logger_info msg).
Proof. intros s. reflexivity. Qed.

Lemma Still_perform {X} (c : call Sim.Blob X) :
  (forall w, snd (Sim.handle X c w) = w) -> Still (perform Sim.handle c).
Proof.
  intros H s. specialize (H (world s)). unfold perform, perform_top, state_of.
  destruct (Sim.handle X c (world s)) as [[x|what] w']; cbn [fst snd] in *; exact H.
Qed.

Lemma Still_lazily {A} (wrap : string -> A) slot (compute : M Sim.Blob sim_state A) :
  Still compute -> Still (lazily wrap slot compute).
Proof.
  intros H. unfold lazily. destruct slot as [v|]; [|exact H].
  destruct (PyStr.truthy v); [apply Still_ret|exact H].
Qed.

Lemma sim_get_still url w : snd (Sim.handle _ (requests_get url) w) = w.
Proof. cbn. now destruct (Sim.http w !! url). Qed.

Ltac still_go :=
  repeat first
    [ lazymatch goal with
      | |- Still (bind _ _) => apply Still_bind; [|intros]
      | |- Still (lazily _ _ _) => apply Still_lazily
      | |- Still (ret _) => apply Still_ret
      | |- Still (raise _) => apply Still_raise
      | |- Still get_self => apply Still_get_self
      | |- Still (assign _) => apply Still_assign
      | |- Still (logger_info _) => apply Still_logger_info
      | |- Still (perform _ (requests_get _)) => apply Still_perform, sim_get_still
      | |- Still (perform _ tempfile_gettempdir) => apply Still_perform; reflexivity
      | |- Still (match ?x with _ => _ end) => destruct x
      end
    | progress cbv zeta ].

Lemma Still_data : Still (data Sim.handle).
Proof. unfold data. still_go. Qed.

Lemma Still_rhcos_version : Still (rhcos_version Sim.handle).
Proof. unfold rhcos_version. still_go. apply Still_data. Qed.

Lemma Still_rhcos_filename : Still (rhcos_filename Sim.handle).
Proof. unfold rhcos_filename. still_go. apply Still_rhcos_version. Qed.

Lemma Still_rhcos_url : Still (rhcos_url Sim.handle).
Proof.
  unfold rhcos_url. still_go; [apply Still_rhcos_version|apply Still_rhcos_filename].
Qed.

Lemma Still_rhcos_path : Still (rhcos_path Sim.handle).
Proof. unfold rhcos_path. still_go. apply Still_rhcos_filename. Qed.

Lemma still_run {A} (m : M Sim.Blob sim_state A) s r s1 t :
  Still m -> m s = (r, s1, t) -> s1 = mkState (self s1) (world s).
Proof.
  intros H E. specialize (H s). unfold state_of in H. rewrite E in H. cbn in H.
  destruct s1 as [o1 w1]. cbn in *. now subst.
Qed.

End SimFacts.

Section ForeignFacts.

Context {Blob World : Type}.
Variable handle : forall X : Type, call Blob X -> World -> reply X * World.

Lemma Foreign_bind {A B} (m : M Blob (state World) A) (f : A -> M Blob (state World) B) :
  Foreign m -> (forall a, Foreign (f a)) -> Foreign (bind m f).
Proof.
  intros Hm Hf s e. specialize (Hm s). unfold bind, outcome_of in *.
  destruct (m s) as [[[a|e'|] s1] t1]; cbn [fst snd] in *.
  - specialize (Hf a s1). unfold outcome_of in Hf.
    destruct (f a s1) as [[r2 s2] t2]. cbn [fst snd] in *. apply Hf.
  - intros [= <-]. now apply Hm.
  - intros [=].
Qed.

Lemma Foreign_ret {A} (a : A) : Foreign (Blob:=Blob) (World:=World) (ret a).
Proof. intros s e [=]. Qed.

Lemma Foreign_get_self : Foreign (Blob:=Blob) (World:=World) get_self.
Proof. intros s e [=]. Qed.

Lemma Foreign_assign f : Foreign (Blob:=Blob) (World:=World) (assign f).
Proof. intros s e [=]. Qed.

Lemma Foreign_logger_info msg : Foreign (Blob:=Blob) (World:=World) (logger_info msg).
Proof. intros s e [=]. Qed.

Lemma Foreign_perform {X} (c : call Blob X) : Foreign (perform handle c).
Proof.
  intros s e. unfold perform, perform_top, outcome_of.
  destruct (handle X c (world s)) as [[x|what] w']; simpl; intros E;
    [discriminate|]. injection E as <-. eauto.
Qed.

Lemma Foreign_lazily {A} (wrap : string -> A) slot (compute : M Blob (state World) A) :
  Foreign compute -> Foreign (lazily wrap slot compute).
Proof.
  intros H. unfold lazily. destruct slot as [v|]; [|exact H].
  destruct (PyStr.truthy v); [apply Foreign_ret|exact H].
Qed.

Ltac foreign_go :=
  repeat first
    [ lazymatch goal with
      | |- Foreign (bind _ _) => apply Foreign_bind; [|intros]
      | |- Foreign (lazily _ _ _) => apply Foreign_lazily
      | |- Foreign (ret _) => apply Foreign_ret
      | |- Foreign get_self => apply Foreign_get_self
      | |- Foreign (assign _) => apply Foreign_assign
      | |- Foreign (logger_info _) => apply Foreign_logger_info
      | |- Foreign (perform _ _) => apply Foreign_perform
      | |- Foreign (match ?x with _ => _ end) => destruct x
      end
    | progress cbv zeta ].

Lemma Foreign_data : Foreign (data handle).
Proof. unfold data. foreign_go. Qed.

Lemma Foreign_rhcos_version : Foreign (rhcos_version handle).
Proof. unfold rhcos_version. foreign_go. apply Foreign_data. Qed.

Lemma Foreign_rhcos_filename : Foreign (rhcos_filename handle).
Proof. unfold rhcos_filename. foreign_go. apply Foreign_rhcos_version. Qed.

Lemma Foreign_rhcos_path : Foreign (rhcos_path handle).
Proof. unfold rhcos_path. foreign_go. apply Foreign_rhcos_filename. Qed.

(** Lines 130-134: once the size is accepted, only a library can raise. *)
Lemma Foreign_unpack gz :
  Foreign (bind (logger_info ("Unpacking " +:+ gz)) (fun _ =>
           bind (perform handle (gzip_open_rb gz)) (fun _ =>
           bind (rhcos_path handle) (fun p =>
           bind (perform handle (open_wb p)) (fun _ =>
           bind (perform handle (shutil_copyfileobj gz p)) (fun _ =>
           perform handle (os_remove gz))))))).
Proof. foreign_go. apply Foreign_rhcos_path. Qed.

Lemma low_not_unpack p (e : event Blob) : level e <= 0 -> is_unpack p e = false.
Proof. destruct e as [X c r|l]; [destruct c|]; cbn; try reflexivity; lia. Qed.

End ForeignFacts.

(** C6: in the simulated environment, with no file at the local path and a
    mirror that answers the source URL, [download_rhcos] raises the
    [RuntimeError] of line 128 exactly when the saved archive is smaller
    than 100 MiB; when it does, nothing was unpacked, no file stands at the
    local path, and the archive is still on disk next to it. *)
Theorem C6_small_download_is_fatal_before_unpacking
    (o : OpenShiftRelease) (w : Sim.World) p s1 t1 u s2 t2 r :
  rhcos_path Sim.handle (mkState o w) = (Ok p, s1, t1) ->
  Sim.files w !! p = None ->
  rhcos_url Sim.handle s1 = (Ok u, s2, t2) ->
  Sim.http w !! u = Some r ->
  let run := download_rhcos Sim.handle (mkState o w) in
  let size := Sim.blob_len (content r) in
  ((exists n, outcome_of run = Raise (RuntimeError_size n)) <-> (size < 100 * 1024 * 1024)%Z) /\
  ((size < 100 * 1024 * 1024)%Z ->
     outcome_of run = Raise (RuntimeError_size size) /\
     existsb (is_unpack p) (events_of run) = false /\
     Sim.files (world (state_of run)) !! p = None /\
     Sim.files (world (state_of run)) !! (p +:+ ".gz") = Some (content r)).
Proof.
  intros H1 H2 H3 H4 run size.
  pose proof (still_run _ _ _ _ _ Still_rhcos_path H1) as E1. cbn [world] in E1.
  destruct s1 as [o1 w1]. injection E1 as ->.
  pose proof (still_run _ _ _ _ _ Still_rhcos_url H3) as E2. cbn [world] in E2.
  destruct s2 as [o2 w2]. injection E2 as ->. cbn [self] in *.
  pose proof (proj1 (post_eq _ _ _) (rhcos_path_spec Sim.handle _) _ _ _ H1)
    as (_ & _ & Hp).
  destruct (Hp p eq_refl) as [Hpc Hpt]. cbn [self] in Hpc.
  pose proof (proj1 (post_eq _ _ _) (rhcos_url_spec Sim.handle _) _ _ _ H3)
    as (_ & Hframe & Hu).
  destruct (Hu u eq_refl) as [Huc Hut]. cbn [self] in Huc, Hframe.
  rewrite Hpc in Hframe.
  pose proof (events_low 0 _ _ _ _ _ (Tame_rhcos_path Sim.handle) H1) as Hlow1.
  pose proof (events_low 0 _ _ _ _ _ (Tame_rhcos_url Sim.handle) H3) as Hlow2.
  assert (Hgz : p +:+ ".gz" <> p) by (apply append_neq; discriminate).
  set (gz := p +:+ ".gz") in *.
  set (w3 := Sim.set_files (<[gz := content r]> (<[gz := Sim.mkBlob 0 None]> (Sim.files w)))
                (Sim.set_files (<[gz := Sim.mkBlob 0 None]> (Sim.files w)) w)).
  set (tail := bind (logger_info ("Unpacking " +:+ gz)) (fun _ =>
           bind (perform Sim.handle (gzip_open_rb gz)) (fun _ =>
           bind (rhcos_path Sim.handle) (fun p =>
           bind (perform Sim.handle (open_wb p)) (fun _ =>
           bind (perform Sim.handle (shutil_copyfileobj gz p)) (fun _ =>
           perform Sim.handle (os_remove gz))))))).
  assert (Hrun : run =
    let '(r', s', t') :=
      (if (size <? 100 * 1024 * 1024)%Z
       then raise (RuntimeError_size size) else tail) (mkState o2 w3) in
    (r', s',
     t1 ++ [Called (os_path_exists p) (Reply false)] ++ t2 ++
     [Logged (INFO ("Downloading " +:+ u))] ++ [] ++
     [Called (requests_get u) (Reply r)] ++ [] ++
     [Called (open_wb gz) (Reply tt)] ++ [Logged (INFO ("Saving " +:+ gz))] ++
     [Called (file_write gz (content r)) (Reply tt)] ++
     [Called (os_path_getsize gz) (Reply size)] ++ t')).
  { unfold run, download_rhcos.
    erewrite bind_Ok by exact H1.
    erewrite bind_Ok.
    2:{ apply perform_Reply. cbn. rewrite H2. reflexivity. }
    cbv iota. cbn [self world].
    erewrite bind_Ok by exact H3.
    erewrite bind_Ok by reflexivity.
    erewrite bind_Ok by (apply rhcos_url_cached; [exact Huc|exact Hut]).
    erewrite bind_Ok.
    2:{ apply perform_Reply. cbn. rewrite H4. reflexivity. }
    cbn [self world].
    erewrite bind_Ok by (apply rhcos_path_cached; [exact Hframe|exact Hpt]).
    cbv zeta. fold gz.
    erewrite bind_Ok by (apply perform_Reply; reflexivity).
    erewrite bind_Ok by reflexivity. cbn [self world].
    erewrite bind_Ok.
    2:{ apply perform_Reply. cbn [Sim.handle world Sim.files Sim.set_files].
        rewrite lookup_insert_eq. reflexivity. }
    cbn [self world].
    erewrite bind_Ok.
    2:{ apply perform_Reply. cbn [Sim.handle world Sim.files Sim.set_files].
        rewrite lookup_insert_eq. reflexivity. }
    cbn [self world]. rewrite size_check. fold size. fold w3. fold tail.
    destruct ((if (size <? 100 * 1024 * 1024)%Z then raise (RuntimeError_size size) else tail)
                (mkState o2 w3)) as [[r' s'] t'].
    reflexivity. }
  destruct (Z.ltb_spec size (100 * 1024 * 1024)) as [Hlt|Hge].
  - unfold raise in Hrun. cbv beta iota in Hrun. rewrite Hrun.
    assert (Hall : outcome_of (Raise (A:=unit) (RuntimeError_size size), mkState o2 w3,
                     t1 ++ [Called (os_path_exists p) (Reply false)] ++ t2 ++
                     [Logged (INFO ("Downloading " +:+ u))] ++ [] ++
                     [Called (requests_get u) (Reply r)] ++ [] ++
                     [Called (open_wb gz) (Reply tt)] ++ [Logged (INFO ("Saving " +:+ gz))] ++
                     [Called (file_write gz (content r)) (Reply tt)] ++
                     [Called (os_path_getsize gz) (Reply size)] ++ [])
                   = Raise (RuntimeError_size size)) by reflexivity.
    split; [split; [intros _; exact Hlt|intros _; eauto]|].
    intros _. split; [reflexivity|]. split; [|split].
    + unfold events_of. cbn [snd]. rewrite !existsb_app.
      rewrite (existsb_low (is_unpack p) t1 (low_not_unpack p) Hlow1),
        (existsb_low (is_unpack p) t2 (low_not_unpack p) Hlow2).
      cbn [existsb is_unpack orb].
      apply String.eqb_neq in Hgz. now rewrite Hgz.
    + unfold state_of. cbn [fst snd world]. unfold w3.
      cbn [Sim.files Sim.set_files]. rewrite !lookup_insert_ne by exact Hgz. exact H2.
    + unfold state_of. cbn [fst snd world]. unfold w3.
      cbn [Sim.files Sim.set_files]. now rewrite lookup_insert_eq.
  - split; [|lia]. split; [|lia]. intros [n Hn]. exfalso.
    pose proof (Foreign_unpack Sim.handle gz (mkState o2 w3) (RuntimeError_size n)) as Hf.
    fold tail in Hf. rewrite Hrun in Hn.
    unfold outcome_of in Hn, Hf.
    destruct (tail (mkState o2 w3)) as [[r' s'] t']. cbn [fst snd] in Hn, Hf.
    destruct (Hf Hn) as [what [=]].
Qed.

(* ===================================================================== *)
(** ** The registrar on the simulated account *)
(* ===================================================================== *)

(** *** What each stage may change in the simulated world *)

Section Frames.

Variable R : Sim.World -> Sim.World -> Prop.
Hypothesis R_refl : forall w, R w w.
Hypothesis R_trans : forall a b c, R a b -> R b c -> R a c.

Lemma Frame_bind {A B} (m : M Sim.Blob (state Sim.World) A)
    (f : A -> M Sim.Blob (state Sim.World) B) :
  Frame R m -> (forall a, Frame R (f a)) -> Frame R (bind m f).
Proof using R_trans.
  intros Hm Hf s. specialize (Hm s). unfold bind, state_of in *.
  destruct (m s) as [[[a|e|] s1] t1]; cbn [fst snd] in *; auto.
  specialize (Hf a s1). unfold state_of in Hf.
  destruct (f a s1) as [[r2 s2] t2]. cbn [fst snd] in *. eauto.
Qed.

Lemma Frame_still {A} (m : M Sim.Blob (state Sim.World) A) : Still m -> Frame R m.
Proof using R_refl. intros H s. rewrite (H s). apply R_refl. Qed.

Lemma Frame_perform {X} (c : call Sim.Blob X) :
  (forall w, R w (snd (Sim.handle X c w))) -> Frame R (perform Sim.handle c).
Proof.
  intros H s. specialize (H (world s)). unfold perform, perform_top, state_of.
  destruct (Sim.handle X c (world s)) as [[x|what] w']; cbn [fst snd world] in *; exact H.
Qed.

End Frames.

Lemma only_files_refl w : only_files w w.
Proof. now destruct w. Qed.
Lemma only_files_trans a b c : only_files a b -> only_files b c -> only_files a c.
Proof. unfold only_files. intros -> ->. now destruct a. Qed.
Lemma only_disk_refl w : only_disk w w.
Proof. now destruct w. Qed.
Lemma only_disk_trans a b c : only_disk a b -> only_disk b c -> only_disk a c.
Proof. unfold only_disk. intros -> ->. now destruct a. Qed.
Lemma only_import_refl w : only_import w w.
Proof. now destruct w. Qed.
Lemma only_import_trans a b c : only_import a b -> only_import b c -> only_import a c.
Proof. unfold only_import. intros -> ->. now destruct a. Qed.
Lemma only_files_disk a b : only_files a b -> only_disk a b.
Proof. unfold only_files, only_disk. intros ->. now destruct a. Qed.

Ltac frame_go refl trans :=
  repeat first
    [ lazymatch goal with
      | |- Frame _ (data _) => apply (Frame_still _ refl), Still_data
      | |- Frame _ (rhcos_version _) => apply (Frame_still _ refl), Still_rhcos_version
      | |- Frame _ (rhcos_filename _) => apply (Frame_still _ refl), Still_rhcos_filename
      | |- Frame _ (rhcos_url _) => apply (Frame_still _ refl), Still_rhcos_url
      | |- Frame _ (rhcos_path _) => apply (Frame_still _ refl), Still_rhcos_path
      | |- Frame _ (bind _ _) => apply (Frame_bind _ trans); [|intros]
      | |- Frame _ (ret _) => apply (Frame_still _ refl), Still_ret
      | |- Frame _ (raise _) => apply (Frame_still _ refl), Still_raise
      | |- Frame _ get_self => apply (Frame_still _ refl), Still_get_self
      | |- Frame _ (logger_info _) => apply (Frame_still _ refl), Still_logger_info
      | |- Frame _ (perform _ _) =>
          apply Frame_perform; intros [];
          cbn [Sim.handle snd];
          repeat (match goal with |- context [match ?x with _ => _ end] => destruct x end;
                  cbn [snd]);
          reflexivity
      | |- Frame _ (if ?b then _ else _) => destruct b
      | |- Frame _ (match ?x with _ => _ end) => destruct x
      end
    | progress cbv zeta ].

Lemma Frame_download_rhcos : Frame only_files (download_rhcos Sim.handle).
Proof. unfold download_rhcos. frame_go only_files_refl only_files_trans. Qed.

(** *** What a finished stage leaves in the simulated world *)

Lemma registered_app {Blob} (t1 t2 : list (event Blob)) :
  registered (t1 ++ t2)
  = match registered t1 with Some id => Some id | None => registered t2 end.
Proof.
  induction t1 as [|e t1 IH]; [reflexivity|]. cbn [app registered].
  destruct e as [X c r|l]; [|exact IH].
  destruct c; try exact IH. destruct r; [reflexivity|exact IH].
Qed.

Lemma registered_low {Blob} (t : list (event Blob)) :
  Forall (fun e => level e <= 3) t -> registered t = None.
Proof.
  induction 1 as [|e t He _ IH]; [reflexivity|]. cbn [registered].
  destruct e as [X c r|l]; [|exact IH].
  destruct c; try exact IH. cbn in He. lia.
Qed.

Lemma Staged_stable (s s1 : state Sim.World) :
  Staged s -> extends (self s) (self s1) ->
  Sim.objects (world s1) = Sim.objects (world s) ->
  Sim.denied (world s1) = Sim.denied (world s) ->
  Staged s1.
Proof.
  intros (f & Hf & Ht & Hd & Hk) (_ & Hb & _ & Kf & _) Ho Hden.
  exists f. split; [eapply keeps_cached; eauto|]. split; [exact Ht|].
  unfold Sim.is_denied, Sim.key_count in *. rewrite Hden, Ho, Hb. now split.
Qed.

Lemma Imported_stable (s s1 : state Sim.World) :
  Imported s -> extends (self s) (self s1) ->
  Sim.snapshots (world s1) = Sim.snapshots (world s) ->
  Sim.denied (world s1) = Sim.denied (world s) ->
  Imported s1.
Proof.
  intros (v & Hv & Ht & Hd & Hk) (_ & _ & _ & _ & _ & _ & Kv) Ho Hden.
  exists v. split; [eapply keeps_cached; eauto|]. split; [exact Ht|].
  unfold Sim.is_denied, Sim.snapshots_tagged in *. rewrite Hden, Ho. now split.
Qed.

Lemma strip_prefix_refl p : PyStr.strip_prefix p p = Some "".
Proof.
  induction p as [|c p IH]; [reflexivity|]. cbn. now rewrite Ascii.eqb_refl.
Qed.

Lemma has_object_key_count b k w :
  Sim.has_object b k w = true -> (0 < Sim.key_count b k w)%Z.
Proof.
  unfold Sim.has_object, Sim.key_count. intros H.
  apply existsb_exists in H as ([b' k'] & Hin & Hm). cbn [fst snd] in Hm.
  apply andb_prop in Hm as [Hb Hk]. apply String.eqb_eq in Hb, Hk. subst.
  assert (Hf : In (b, k) (List.filter
            (fun o => String.eqb (fst o) b && PyStr.startswith k (snd o)) (Sim.objects w))).
  { apply filter_In. split; [exact Hin|]. cbn [fst snd].
    rewrite String.eqb_refl. unfold PyStr.startswith. now rewrite strip_prefix_refl. }
  destruct (List.filter _ (Sim.objects w)); [destruct Hf|]. cbn [List.length]. lia.
Qed.

Lemma has_object_put b k w :
  Sim.has_object b k
    (if Sim.has_object b k w then w else Sim.set_objects (Sim.objects w ++ [(b, k)]) w) = true.
Proof.
  destruct (Sim.has_object b k w) eqn:E; [exact E|].
  unfold Sim.has_object. cbn [Sim.objects Sim.set_objects]. rewrite existsb_app.
  cbn. rewrite !String.eqb_refl. cbn. apply orb_true_r.
Qed.

(** What the properties do in the simulated world. *)
Lemma sim_rhcos_version (s : state Sim.World) :
  post (rhcos_version Sim.handle) s (fun r s1 t =>
    r <> OutOfFuel /\ world s1 = world s /\ extends (self s) (self s1) /\
    (forall v, r = Ok (Some v) -> _rhcos_version (self s1) = Some v /\ PyStr.truthy v = true)).
Proof.
  pose proof (rhcos_version_spec Sim.handle s) as ((H1 & H2 & _) & _ & _ & _ & H3 & _).
  split; [exact H1|]. split; [apply Still_rhcos_version|]. now split.
Qed.

Lemma sim_rhcos_filename (s : state Sim.World) :
  post (rhcos_filename Sim.handle) s (fun r s1 t =>
    r <> OutOfFuel /\ world s1 = world s /\ extends (self s) (self s1) /\
    (forall f, r = Ok f -> _rhcos_filename (self s1) = Some f /\ PyStr.truthy f = true)).
Proof.
  pose proof (rhcos_filename_spec Sim.handle s) as ((H1 & H2 & _) & _ & _ & H3).
  split; [exact H1|]. split; [apply Still_rhcos_filename|]. now split.
Qed.

Lemma sim_rhcos_path (s : state Sim.World) :
  post (rhcos_path Sim.handle) s (fun r s1 t =>
    r <> OutOfFuel /\ world s1 = world s /\ extends (self s) (self s1)).
Proof.
  pose proof (rhcos_path_spec Sim.handle s) as ((H1 & H2 & _) & _).
  split; [exact H1|]. split; [apply Still_rhcos_path|exact H2].
Qed.

Lemma sim_download_rhcos (s : state Sim.World) :
  post (download_rhcos Sim.handle) s (fun r s1 t =>
    r <> OutOfFuel /\ only_files (world s) (world s1) /\ extends (self s) (self s1)).
Proof.
  split; [apply Halts_download_rhcos|]. split; [apply Frame_download_rhcos|].
  apply Tame_download_rhcos.
Qed.

Lemma only_files_objects w w1 : only_files w w1 -> Sim.objects w1 = Sim.objects w.
Proof. intros ->. reflexivity. Qed.
Lemma only_files_denied w w1 : only_files w w1 -> Sim.denied w1 = Sim.denied w.
Proof. intros ->. reflexivity. Qed.

(** A successful [upload_rhcos] leaves the object staged. *)
Lemma upload_rhcos_staged (s : state Sim.World) :
  post (upload_rhcos Sim.handle) s (fun r s1 _ => r = Ok tt -> Staged s1).
Proof.
  unfold upload_rhcos.
  apply post_bind, post_perform; [intros [] w0 Hh|intros; discriminate].
  cbn in Hh. injection Hh as <-.
  apply post_bind, post_get_self. cbv beta iota. cbn [self].
  apply post_bind. eapply post_weaken; [apply sim_rhcos_filename|]. cbv beta.
  intros r s1 t1 (_ & Hw1 & He1 & Hc1). cbn [world self] in Hw1, He1.
  destruct r as [f|e|]; [|intros; discriminate..].
  destruct (Hc1 f eq_refl) as [Hf Hft].
  assert (Hb1 : s3_bucket (self s1) = s3_bucket (self s)) by apply He1.
  apply post_bind, post_perform; [intros kc w2 Hh|intros; discriminate].
  cbn [Sim.handle] in Hh.
  destruct (Sim.is_denied "s3:ListBucket" (world s1)) eqn:Hden; [discriminate|].
  injection Hh as <- <-.
  destruct (key_count_positive (Some (Sim.key_count (s3_bucket (self s)) f (world s1)))) eqn:Hpos.
  - apply post_bind. eapply post_weaken; [apply sim_rhcos_filename|]. cbv beta.
    intros r2 s2 t2 (_ & Hw2 & He2 & _). cbn [world self] in Hw2, He2.
    destruct r2 as [f2|e|]; [|intros; discriminate..].
    apply post_logger_info. intros _.
    apply (Staged_stable s1 s2); [|exact He2|now rewrite Hw2|now rewrite Hw2].
    exists f. split; [exact Hf|]. split; [exact Hft|]. split; [exact Hden|].
    rewrite Hb1. cbn in Hpos. now apply Z.ltb_lt in Hpos.
  - apply post_bind. eapply post_weaken; [apply sim_download_rhcos|]. cbv beta.
    intros r2 s2 t2 (_ & Hw2 & He2). cbn [world self] in Hw2, He2.
    destruct r2 as [[]|e|]; [|intros; discriminate..].
    apply post_bind. eapply post_weaken; [apply sim_rhcos_path|]. cbv beta.
    intros r3 s3 t3 (_ & Hw3 & He3).
    destruct r3 as [p|e|]; [|intros; discriminate..].
    apply post_bind, post_perform; [intros [] w4 Hh|intros; discriminate].
    cbn [Sim.handle] in Hh. destruct (Sim.files (world s3) !! p); [|discriminate].
    injection Hh as <-.
    apply post_bind. eapply post_weaken; [apply sim_rhcos_path|]. cbv beta.
    intros r5 s5 t5 (_ & Hw5 & He5). cbn [world self] in Hw5, He5.
    destruct r5 as [p'|e|]; [|intros; discriminate..].
    apply post_bind, post_logger_info. cbv beta iota.
    apply post_bind. eapply post_weaken; [apply sim_rhcos_filename|]. cbv beta.
    intros r6 s6 t6 (_ & Hw6 & He6 & Hc6).
    destruct r6 as [f6|e|]; [|intros; discriminate..].
    assert (Hext16 : extends (self s1) (self s6)) by eauto using extends_trans.
    assert (Hf6 : f6 = f).
    { destruct (Hc6 f6 eq_refl) as [Hf6 _].
      destruct Hext16 as (_ & _ & _ & Kf & _).
      rewrite (keeps_cached _ _ _ Kf Hf Hft) in Hf6. congruence. }
    subst f6.
    assert (Hworld6 : only_files (world s1) (world s6)).
    { rewrite Hw6, Hw5, Hw3. exact Hw2. }
    apply post_bind, post_perform; [intros [] w7 Hh|intros; discriminate].
    cbn [Sim.handle] in Hh.
    destruct (Sim.is_denied "s3:PutObject" (world s6)); [discriminate|].
    destruct (Sim.files (world s6) !! p); [|discriminate].
    injection Hh as <-.
    apply post_bind. eapply post_weaken; [apply sim_rhcos_path|]. cbv beta.
    intros r8 s8 t8 (_ & Hw8 & He8). cbn [world self] in Hw8, He8.
    destruct r8 as [p8|e|]; [|intros; discriminate..].
    apply post_perform; [intros [] w9 Hh|intros; discriminate].
    cbn [Sim.handle] in Hh. destruct (Sim.files (world s8) !! p8); [|discriminate].
    injection Hh as <-. intros _.
    set (wput := if Sim.has_object (s3_bucket (self s)) f (world s6)
                 then world s6
                 else Sim.set_objects (Sim.objects (world s6) ++ [(s3_bucket (self s), f)])
                        (world s6)) in *.
    assert (Hext : extends (self s1) (self s8)) by eauto using extends_trans.
    destruct Hext as (_ & Hb & _ & Kf & _).
    exists f. cbn [self world].
    split; [eapply keeps_cached; eauto|]. split; [exact Hft|].
    assert (Hdput : Sim.denied wput = Sim.denied (world s1)).
    { unfold wput. destruct (Sim.has_object _ _ _); cbn; now rewrite (only_files_denied _ _ Hworld6). }
    split.
    + unfold Sim.is_denied in *. rewrite Hw8. cbn [Sim.denied Sim.set_files]. now rewrite Hdput.
    + apply has_object_key_count. unfold Sim.has_object. rewrite Hw8.
      cbn [Sim.objects Sim.set_files]. rewrite Hb, Hb1.
      apply (has_object_put (s3_bucket (self s)) f (world s6)).
Qed.

Lemma Frame_poll_import_task fuel id te :
  Frame only_import (poll_import_task Sim.handle fuel id te).
Proof.
  revert te. induction fuel as [|fuel IH]; intros te; cbn [poll_import_task].
  - intros s. apply only_import_refl.
  - frame_go only_import_refl only_import_trans. apply IH.
Qed.

Lemma only_import_objects w w1 : only_import w w1 -> Sim.objects w1 = Sim.objects w.
Proof. intros ->. reflexivity. Qed.
Lemma only_import_denied w w1 : only_import w w1 -> Sim.denied w1 = Sim.denied w.
Proof. intros ->. reflexivity. Qed.

Lemma tag_snapshot_tagged id v l :
  List.filter (fun s => Sim.opt_eqb (Sim.snap_rhcos_version s) (Some v))
    (Sim.tag_snapshot id v l) <> [].
Proof.
  unfold Sim.tag_snapshot.
  destruct (existsb (fun s => String.eqb (Sim.snap_id s) id) l) eqn:E.
  - apply existsb_exists in E as (x & Hin & Hx).
    assert (Hy : In (Sim.mkSnapshot id (Some v))
              (List.filter (fun s => Sim.opt_eqb (Sim.snap_rhcos_version s) (Some v))
                 (map (fun s => if String.eqb (Sim.snap_id s) id
                                then Sim.mkSnapshot id (Some v) else s) l))).
    { apply filter_In. split.
      - apply in_map_iff. exists x. now rewrite Hx.
      - cbn. apply String.eqb_refl. }
    intros Hnil. rewrite Hnil in Hy. destruct Hy.
  - rewrite List.filter_app. cbn. rewrite String.eqb_refl.
    intros H. apply app_eq_nil in H as [_ H]. discriminate.
Qed.

(** A poll loop that returns leaves a snapshot tagged with the version. *)
Lemma poll_import_task_tagged fuel id te (s : state Sim.World) :
  post (poll_import_task Sim.handle fuel id te) s (fun r s1 _ =>
    forall sid, r = Ok sid ->
      exists v, _rhcos_version (self s1) = Some v /\ PyStr.truthy v = true /\
                Sim.snapshots_tagged v (world s1) <> []).
Proof.
  revert te s. induction fuel as [|fuel IH]; intros te s; cbn [poll_import_task].
  - intros sid [=].
  - apply post_bind, post_logger_info. cbv beta iota.
    apply post_bind, post_perform; [intros d w1 _|intros; discriminate].
    destruct (String.eqb (Status d) "completed").
    + apply post_bind, post_logger_info. cbv beta iota.
      apply post_bind. eapply post_weaken; [apply sim_rhcos_version|]. cbv beta.
      intros r2 s2 t2 _. destruct r2 as [v2|e|]; [|intros; discriminate..].
      apply post_bind, post_logger_info. cbv beta iota.
      apply post_bind. eapply post_weaken; [apply sim_rhcos_version|]. cbv beta.
      intros r3 s3 t3 (_ & _ & _ & Hc). destruct r3 as [v3|e|]; [|intros; discriminate..].
      apply post_bind, post_perform; [intros [] w4 Hh|intros; discriminate].
      cbn [Sim.handle] in Hh.
      destruct (Sim.is_denied "ec2:CreateTags" (world s3)); [discriminate|].
      destruct v3 as [v|]; [|discriminate]. injection Hh as <-.
      apply post_ret. intros sid _. destruct (Hc v eq_refl) as [Hv Hvt].
      exists v. cbn [self world]. split; [exact Hv|]. split; [exact Hvt|].
      unfold Sim.snapshots_tagged. cbn [Sim.snapshots Sim.set_snapshots].
      intros Hnil. apply map_eq_nil in Hnil. now apply tag_snapshot_tagged in Hnil.
    + apply post_bind, post_logger_info. cbv beta iota zeta.
      apply post_bind, post_perform; [intros [] w2 _|intros; discriminate].
      destruct (60 * 5 <? te + 10)%Z; [intros sid [=]|].
      eapply post_weaken; [apply IH|]. cbv beta. auto.
Qed.

Lemma sim_poll_import_task fuel id te (s : state Sim.World) :
  post (poll_import_task Sim.handle fuel id te) s (fun r s1 _ =>
    only_import (world s) (world s1) /\ extends (self s) (self s1) /\
    forall sid, r = Ok sid ->
      exists v, _rhcos_version (self s1) = Some v /\ PyStr.truthy v = true /\
                Sim.snapshots_tagged v (world s1) <> []).
Proof.
  split; [apply Frame_poll_import_task|]. split; [apply Tame_poll_import_task|].
  apply poll_import_task_tagged.
Qed.

Lemma sim_upload_rhcos (s : state Sim.World) :
  post (upload_rhcos Sim.handle) s (fun r s1 _ =>
    extends (self s) (self s1) /\ (r = Ok tt -> Staged s1)).
Proof. split; [apply Tame_upload_rhcos|apply upload_rhcos_staged]. Qed.

(** A successful [import_snapshot] leaves the object staged and the
    snapshot imported. *)
Lemma import_snapshot_imported fuel (s : state Sim.World) :
  post (import_snapshot Sim.handle fuel) s (fun r s1 _ =>
    forall sid, r = Ok sid -> Staged s1 /\ Imported s1).
Proof.
  unfold import_snapshot.
  apply post_bind. eapply post_weaken; [apply sim_upload_rhcos|]. cbv beta.
  intros r1 s1 t1 (_ & Hst). destruct r1 as [[]|e|]; [|intros; discriminate..].
  specialize (Hst eq_refl).
  apply post_bind. eapply post_weaken; [apply sim_rhcos_version|]. cbv beta.
  intros r2 s2 t2 (_ & Hw2 & He2 & _). destruct r2 as [v2|e|]; [|intros; discriminate..].
  cbv zeta.
  apply post_bind, post_perform; [intros [] w3 Hh|intros; discriminate].
  cbn in Hh. injection Hh as <-.
  apply post_bind. eapply post_weaken; [apply sim_rhcos_version|]. cbv beta.
  intros r4 s4 t4 (_ & Hw4 & He4 & Hc4). cbn [self world] in Hw4, He4.
  destruct r4 as [v4|e|]; [|intros; discriminate..].
  apply post_bind, post_perform; [intros l w5 Hh|intros; discriminate].
  cbn [Sim.handle] in Hh.
  destruct (Sim.is_denied "ec2:DescribeSnapshots" (world s4)) eqn:Hden; [discriminate|].
  destruct v4 as [v|]; [|discriminate]. injection Hh as <- <-.
  destruct (Hc4 v eq_refl) as [Hv Hvt].
  assert (Hst4 : Staged s4).
  { apply (Staged_stable s1 s4); [exact Hst|eauto using extends_trans| |];
      now rewrite Hw4, Hw2. }
  destruct (Sim.snapshots_tagged v (world s4)) as [|sid rest] eqn:Htag.
  - apply post_bind, post_get_self. cbv beta iota.
    apply post_bind. eapply post_weaken; [apply sim_rhcos_filename|]. cbv beta.
    intros r6 s6 t6 (_ & Hw6 & He6 & _). cbn [self world] in Hw6, He6.
    destruct r6 as [f6|e|]; [|intros; discriminate..].
    apply post_bind, post_logger_info. cbv beta iota.
    apply post_bind. eapply post_weaken; [apply sim_rhcos_filename|]. cbv beta.
    intros r7 s7 t7 (_ & Hw7 & He7 & _).
    destruct r7 as [f7|e|]; [|intros; discriminate..].
    apply post_bind, post_perform; [intros id w8 Hh|intros; discriminate].
    cbn [Sim.handle] in Hh.
    destruct (Sim.is_denied "ec2:ImportSnapshot" (world s7)); [discriminate|].
    injection Hh as <- <-.
    eapply post_weaken; [apply sim_poll_import_task|]. cbv beta.
    intros r9 s9 t9 (Hw9 & He9 & Hc9) sid ->. cbn [self world] in Hw9, He9.
    destruct (Hc9 sid eq_refl) as (v' & Hv' & Hvt' & Htag').
    assert (Hext : extends (self s4) (self s9)) by eauto using extends_trans.
    assert (Hobj : Sim.objects (world s9) = Sim.objects (world s4)).
    { rewrite (only_import_objects _ _ Hw9). cbn. now rewrite Hw7, Hw6. }
    assert (Hdn : Sim.denied (world s9) = Sim.denied (world s4)).
    { rewrite (only_import_denied _ _ Hw9). cbn. now rewrite Hw7, Hw6. }
    split; [now apply (Staged_stable s4 s9)|].
    exists v'. split; [exact Hv'|]. split; [exact Hvt'|]. split; [|exact Htag'].
    unfold Sim.is_denied in *. now rewrite Hdn.
  - apply post_bind, post_logger_info. cbv beta iota.
    apply post_ret. intros sid' _. split; [exact Hst4|].
    exists v. cbn [self world]. split; [exact Hv|]. split; [exact Hvt|].
    split; [exact Hden|]. rewrite Htag. discriminate.
Qed.

Lemma post_run {S A} {Blob} (m : M Blob S A) s r s1 t (Q : outcome A -> S -> list (event Blob) -> Prop) :
  m s = (r, s1, t) -> Q r s1 t -> post m s Q.
Proof. intros E H. unfold post, outcome_of, state_of, events_of. now rewrite E. Qed.

Lemma sim_import_snapshot fuel (s : state Sim.World) :
  post (import_snapshot Sim.handle fuel) s (fun r s1 t =>
    registered t = None /\ forall sid, r = Ok sid -> Staged s1 /\ Imported s1).
Proof.
  split; [|apply import_snapshot_imported].
  apply registered_low, (Tame_import_snapshot Sim.handle fuel s).
Qed.

Lemma register_image_unpublished fuel (s : state Sim.World) img :
  post (register_image Sim.handle fuel) s (fun r s1 t =>
    forall e, r = Raise e -> registered t = Some img ->
      (exists what, e = LibraryError what) /\
      existsb failed_modify t = true /\
      exists v f, Unpublished img v f s1).
Proof.
  unfold register_image.
  apply post_bind. eapply post_weaken; [apply sim_import_snapshot|]. cbv beta.
  intros r1 s1 t1 (Hreg1 & Hok).
  destruct r1 as [sid|e|]; [|intros e' _ Hr; congruence|intros e' [=]].
  destruct (Hok sid eq_refl) as [Hst Him].
  destruct Him as (v & Hv & Hvt & Hdsn & Htag).
  apply post_bind, post_perform;
    [intros [] w2 Hh|intros what w2 _ e' _ Hr; rewrite registered_app, Hreg1 in Hr; discriminate].
  cbn in Hh. injection Hh as <-.
  apply post_bind.
  eapply (post_run _ _ _ _ _ _ (rhcos_version_cached Sim.handle (mkState (self s1) (world s1)) v Hv Hvt)).
  cbv beta iota. cbn [PyStr.fmt].
  apply post_bind, post_perform;
    [intros l w3 Hh|intros what w3 _ e' _ Hr; rewrite registered_app, Hreg1 in Hr; discriminate].
  cbn [Sim.handle world] in Hh.
  destruct (Sim.is_denied "ec2:DescribeImages" (world s1)) eqn:Hdim; [discriminate|].
  injection Hh as <- <-.
  destruct (map Sim.image_id (Sim.images_named ("rhcos-" +:+ v) (world s1)))
    as [|i l] eqn:Hnamed.
  2:{ apply post_bind, post_logger_info. cbv beta iota. apply post_ret. intros e' [=]. }
  apply map_eq_nil in Hnamed.
  apply post_bind, post_logger_info. cbv beta iota.
  apply post_bind.
  eapply (post_run _ _ _ _ _ _ (rhcos_version_cached Sim.handle (mkState (self s1) (world s1)) v Hv Hvt)).
  cbv beta iota.
  apply post_bind.
  eapply (post_run _ _ _ _ _ _ (rhcos_version_cached Sim.handle (mkState (self s1) (world s1)) v Hv Hvt)).
  cbv beta iota. cbn [PyStr.fmt].
  apply post_bind, post_perform;
    [intros id w4 Hh|intros what w4 _ e' _ Hr; rewrite registered_app, Hreg1 in Hr; discriminate].
  cbn [Sim.handle world] in Hh.
  destruct (Sim.is_denied "ec2:RegisterImage" (world s1)); [discriminate|].
  rewrite Hnamed in Hh. injection Hh as <- <-.
  set (id := "ami-" +:+ Sim.number (List.length (Sim.images (world s1)))) in *.
  set (w4 := Sim.set_images (Sim.images (world s1)
               ++ [Sim.mkImage id ("rhcos-" +:+ v) sid false]) (world s1)) in *.
  apply post_bind, post_logger_info. cbv beta iota.
  apply post_bind, post_logger_info. cbv beta iota.
  apply post_bind, post_perform; [intros [] w5 _; apply post_ret; intros e' [=]|].
  intros what w5 Hh e' [= <-] Hr.
  rewrite registered_app, Hreg1 in Hr. cbn in Hr. injection Hr as <-.
  cbn [Sim.handle world] in Hh.
  assert (Hw5 : w5 = w4).
  { destruct (Sim.is_denied "ec2:ModifyImageAttribute" w4); [congruence|].
    destruct (existsb _ (Sim.images w4)); [discriminate|congruence]. }
  subst w5.
  split; [eauto|]. split.
  { rewrite !existsb_app. cbn. now rewrite !orb_true_r. }
  destruct Hst as (f & Hf & Hft & Hdl & Hk).
  exists v, f. unfold Unpublished. cbn [self world].
  split; [exact Hv|]. split; [exact Hvt|]. split; [exact Hf|]. split; [exact Hft|].
  split; [exact Hdl|]. split; [exact Hk|]. split; [exact Hdsn|]. split; [exact Htag|].
  split; [exact Hdim|]. exists sid.
  unfold Sim.images_named, w4. cbn [Sim.images Sim.set_images].
  rewrite List.filter_app. fold (Sim.images_named ("rhcos-" +:+ v) (world s1)).
  rewrite Hnamed. cbn. now rewrite String.eqb_refl.
Qed.

(** In such a world every object of the same bucket that resolves to the
    same version and file name takes the three skips. *)
Lemma unpublished_rerun fuel img v f (s1 : state Sim.World) o2 s2 tf s3 tv :
  Unpublished img v f s1 ->
  s3_bucket o2 = s3_bucket (self s1) ->
  rhcos_filename Sim.handle (mkState o2 (world s1)) = (Ok f, s2, tf) ->
  rhcos_version Sim.handle s2 = (Ok (Some v), s3, tv) ->
  exists t,
    register_image Sim.handle fuel (mkState o2 (world s1)) = (Ok img, s3, t) /\
    world s3 = world s1 /\
    existsb is_modify t = false /\ existsb is_register t = false.
Proof.
  intros (Hv & Hvt & Hf & Hft & Hdl & Hk & Hdsn & Htag & Hdim & snap & Hnamed) Hb Hfn Hvn.
  pose proof (still_run _ _ _ _ _ Still_rhcos_filename Hfn) as E2. cbn [world] in E2.
  pose proof (still_run _ _ _ _ _ Still_rhcos_version Hvn) as E3. rewrite E2 in E3.
  cbn [world] in E3.
  set (w1 := world s1) in *.
  pose proof (proj1 (post_eq _ _ _) (rhcos_filename_spec Sim.handle _) _ _ _ Hfn)
    as ((_ & He2 & _) & _).
  pose proof (proj1 (post_eq _ _ _) (rhcos_version_spec Sim.handle _) _ _ _ Hvn)
    as ((_ & He3 & _) & _ & _ & _ & Hc3 & _).
  destruct (Hc3 v eq_refl) as [Hv3 _].
  destruct (Sim.snapshots_tagged v w1) as [|sid rest] eqn:Hsn; [congruence|].
  pose (s0 := mkState o2 w1).
  assert (Hb2 : s3_bucket (self s2) = s3_bucket o2) by apply He2.
  assert (U1 : Sim.handle _ (boto3_client "s3") (world s0) = (Reply tt, w1)) by reflexivity.
  assert (U3 : Sim.handle _ (s3_list_objects_v2 (s3_bucket (self s0)) f) (world s2)
               = (Reply (Some (Sim.key_count (s3_bucket (self s1)) f w1)), w1)).
  { rewrite E2. cbn [Sim.handle world self s0]. fold w1. now rewrite Hdl, Hb. }
  assert (U4 : key_count_positive (Some (Sim.key_count (s3_bucket (self s1)) f w1)) = true).
  { cbn. now apply Z.ltb_lt. }
  pose proof (upload_rhcos_skips Sim.handle s0 w1 f s2 tf _ w1 U1 Hfn U3 U4) as Hup.
  assert (Hs2 : mkState (self s2) w1 = s2) by now rewrite E2.
  rewrite Hs2 in Hup.
  assert (I2 : Sim.handle _ (boto3_client "ec2") (world s3) = (Reply tt, w1)).
  { rewrite E3. reflexivity. }
  assert (Hs3 : mkState (self s3) w1 = s3) by now rewrite E3.
  assert (I1 : rhcos_version Sim.handle (mkState (self s3) w1) = (Ok (Some v), s3, [])).
  { rewrite Hs3. now apply rhcos_version_cached. }
  assert (I3 : Sim.handle _ (ec2_describe_snapshots (Some v)) (world s3)
               = (Reply (sid :: rest), w1)).
  { rewrite E3. cbn [Sim.handle world]. now rewrite Hdsn, Hsn. }
  pose proof (import_snapshot_skips Sim.handle fuel s0 s2 _ (Some v) s3 tv w1 (Some v) s3 []
                sid rest w1 Hup Hvn I2 I1 I3) as Him.
  rewrite Hs3 in Him.
  assert (R1 : Sim.handle _ (ec2_describe_images ("rhcos-" +:+ PyStr.fmt (Some v))) (world s3)
               = (Reply [img], w1)).
  { rewrite E3. cbn [Sim.handle world PyStr.fmt]. now rewrite Hdim, Hnamed. }
  pose proof (register_image_skips Sim.handle fuel s0 sid s3 _ w1 (Some v) s3 [] img [] w1
                Him I2 I1 R1) as Hre.
  rewrite Hs3 in Hre.
  eexists. split; [exact Hre|]. split; [now rewrite E3|].
  pose proof (events_low 0 _ _ _ _ _ (Tame_rhcos_filename Sim.handle) Hfn) as Hlf.
  pose proof (events_low 0 _ _ _ _ _ (Tame_rhcos_version Sim.handle) Hvn) as Hlv.
  assert (L3 : forall t : list (event Sim.Blob),
            Forall (fun e => level e <= 0) t -> Forall (fun e => level e <= 3) t).
  { intros t H. eapply Forall_impl; [exact H|]. cbv beta. intros. lia. }
  rewrite !existsb_app.
  rewrite (existsb_low is_modify tf low_not_modify (L3 _ Hlf)),
    (existsb_low is_modify tv low_not_modify (L3 _ Hlv)),
    (existsb_low is_register tf low_not_register (L3 _ Hlf)),
    (existsb_low is_register tv low_not_register (L3 _ Hlv)).
  split; reflexivity.
Qed.

(** C10: in the simulated environment, if [register_image] raised after an
    image was registered, the exception came from the library (the
    [modify_image_attribute] request failed), the image is in the account and
    is not public, and from then on every call of [register_image], on the
    same object or on a fresh object for a release with the same version,
    returns that image id with no [register_image] request and no
    [modify_image_attribute] request, leaving the account as it is. *)
Theorem C10_failed_publication_is_never_retried
    (fuel : nat) (s : state Sim.World) e s1 t img :
  register_image Sim.handle fuel s = (Raise e, s1, t) ->
  registered t = Some img ->
  (exists what, e = LibraryError what) /\
  existsb failed_modify t = true /\
  existsb (fun i => String.eqb (Sim.image_id i) img && negb (Sim.image_public i))
    (Sim.images (world s1)) = true /\
  exists v f,
    _rhcos_version (self s1) = Some v /\ _rhcos_filename (self s1) = Some f /\
    (forall fuel', exists t',
       register_image Sim.handle fuel' s1 = (Ok img, s1, t') /\
       existsb is_modify t' = false /\ existsb is_register t' = false) /\
    (forall fuel' o2 s2 tf s3 tv,
       s3_bucket o2 = s3_bucket (self s1) ->
       rhcos_filename Sim.handle (mkState o2 (world s1)) = (Ok f, s2, tf) ->
       rhcos_version Sim.handle s2 = (Ok (Some v), s3, tv) ->
       exists t',
         register_image Sim.handle fuel' (mkState o2 (world s1)) = (Ok img, s3, t') /\
         world s3 = world s1 /\
         existsb is_modify t' = false /\ existsb is_register t' = false).
Proof.
  intros Hrun Hreg.
  destruct (proj1 (post_eq _ _ _) (register_image_unpublished fuel s img)
              _ _ _ Hrun e eq_refl Hreg) as (He & Hfail & v & f & Hun).
  split; [exact He|]. split; [exact Hfail|]. split.
  - destruct Hun as (_ & _ & _ & _ & _ & _ & _ & _ & _ & snap & Hnamed).
    apply existsb_exists. exists (Sim.mkImage img ("rhcos-" +:+ v) snap false). split.
    + assert (Hin : In (Sim.mkImage img ("rhcos-" +:+ v) snap false)
                      (Sim.images_named ("rhcos-" +:+ v) (world s1))).
      { rewrite Hnamed. now left. }
      unfold Sim.images_named in Hin. now apply filter_In in Hin.
    + cbn. now rewrite String.eqb_refl.
  - exists v, f.
    pose proof Hun as (Hv & Hvt & Hf & Hft & _).
    split; [exact Hv|]. split; [exact Hf|]. split.
    + intros fuel'. destruct s1 as [o1 w1]. cbn [self world] in *.
      destruct (unpublished_rerun fuel' img v f (mkState o1 w1) o1
                  (mkState o1 w1) [] (mkState o1 w1) [] Hun eq_refl)
        as (t' & Ht' & _ & Hm & Hr).
      * now apply rhcos_filename_cached.
      * now apply rhcos_version_cached.
      * exists t'. now split.
    + intros fuel' o2 s2 tf s3 tv. now apply unpublished_rerun.
Qed.

(* ===================================================================== *)
(** ** Runs as triples *)
(* ===================================================================== *)

Import Scenario.

Lemma run_eta {A S E} (x : outcome A * S * E) : x = (outcome_of x, state_of x, events_of x).
Proof. now destruct x as [[r s] t]. Qed.

Lemma run_outcome {A S E} (x : outcome A * S * E) r :
  outcome_of x = r -> x = (r, state_of x, events_of x).
Proof. intros <-. apply run_eta. Qed.


(* ===================================================================== *)
(** ** The theorems at concrete inputs *)
(* ===================================================================== *)

Ltac by_run :=
  lazymatch goal with |- _ = ?r => vm_cast_no_check (@eq_refl _ r) end.

(** C1 at a stalled import: 31 polls, ten seconds after each, then the
    timeout. *)
Lemma C1_witness :
  let run := import_snapshot Sim.handle 31 (job stalled_import) in
  outcome_of run = Raise (RuntimeError_timeout "import-snap-0") /\
  waits (events_of run) = repeat 10%Z 31 /\ slept (events_of run) = 310%Z.
Proof.
  intros run.
  destruct (C1_import_snapshot_times_out_after_310_seconds Sim.Blob Sim.World Sim.handle 31
              (job stalled_import) (outcome_of run) (state_of run) (events_of run))
    as (_ & H2 & H3 & _).
  - lia.
  - apply run_eta.
  - by_run.
  - by_run.
  - split; [by_run|]. split; [exact H2|exact H3].
Defined.

(** C2, as amended, where object and snapshot exist, and where the
    snapshot exists and the staging step fails. *)
Lemma C2_witness :
  let up := upload_rhcos Sim.handle (job with_snapshot) in
  let failed := import_snapshot Sim.handle 31 (resolved_job snapshot_without_object) in
  (exists t,
     import_snapshot Sim.handle 31 (job with_snapshot)
     = (Ok "snap-1", mkState (self (state_of up)) with_snapshot, t) /\
     existsb is_import_submit t = false) /\
  outcome_of failed = Raise (RuntimeError_size 5) /\
  existsb is_import_submit (events_of failed) = false.
Proof.
  intros up failed.
  destruct (C2_import_snapshot_skips_when_a_snapshot_is_tagged Sim.handle 31
              (job with_snapshot)) as (_ & _ & H).
  destruct (C2_import_snapshot_skips_when_a_snapshot_is_tagged Sim.handle 31
              (resolved_job snapshot_without_object)) as (G & _ & _).
  split; [|split; [by_run|apply G; by_run]].
  apply (H (state_of up) (events_of up) rhcos with_snapshot "snap-1" [] with_snapshot).
  - apply run_outcome. by_run.
  - by_run.
  - discriminate.
  - by_run.
  - by_run.
Defined.

(** C3 where the object exists: two calls, no upload, no fetch. *)
Lemma C3_witness :
  let named := rhcos_filename Sim.handle (job with_snapshot) in
  exists t,
    upload_rhcos Sim.handle (job with_snapshot)
    = (Ok tt, mkState (self (state_of named)) with_snapshot, t) /\
    existsb is_upload t = false /\ existsb is_fetch t = false /\
    exists t',
      upload_rhcos Sim.handle (mkState (self (state_of named)) with_snapshot)
      = (Ok tt, mkState (self (state_of named)) with_snapshot, t') /\
      existsb is_upload t' = false /\ existsb is_fetch t' = false.
Proof.
  intros named.
  destruct (C3_stage_skips_when_the_object_exists Sim.handle (job with_snapshot)
              with_snapshot filename (state_of named) (events_of named)
              (Some 1%Z) with_snapshot)
    as (t & H1 & H2 & H3 & H4).
  - reflexivity.
  - apply run_outcome. by_run.
  - by_run.
  - reflexivity.
  - exists t. split; [exact H1|]. split; [exact H2|]. split; [exact H3|].
    destruct (H4 with_snapshot (Some 1%Z) with_snapshot) as (t' & G1 & G2 & G3 & _).
    + reflexivity.
    + by_run.
    + reflexivity.
    + exists t'. split; [exact G1|]. split; [exact G2|exact G3].
Defined.

(** C4, as amended, where object, snapshot and image exist, and where the
    image exists and the import fails. *)
Lemma C4_witness :
  let imp := import_snapshot Sim.handle 31 (job with_image) in
  let failed := register_image Sim.handle 31 (resolved_job image_without_object) in
  (exists t,
     register_image Sim.handle 31 (job with_image)
     = (Ok "ami-1", mkState (self (state_of imp)) with_image, t) /\
     existsb is_register t = false /\ existsb is_modify t = false) /\
  outcome_of failed = Raise (RuntimeError_size 5) /\
  existsb is_register (events_of failed) = false /\
  existsb is_modify (events_of failed) = false.
Proof.
  intros imp failed.
  destruct (C4_register_image_skips_when_the_image_exists Sim.handle 31
              (job with_image)) as (_ & _ & H).
  destruct (C4_register_image_skips_when_the_image_exists Sim.handle 31
              (resolved_job image_without_object)) as (G & _ & _).
  split; [|split; [by_run|apply G; by_run]].
  apply (H "snap-1" (state_of imp) (events_of imp) rhcos with_image "ami-1" [] with_image).
  - apply run_outcome. by_run.
  - by_run.
  - discriminate.
  - by_run.
  - by_run.
Defined.

(** C6 on a download cut after five bytes. *)
Lemma C6_witness :
  let run := download_rhcos Sim.handle (job cut_download) in
  outcome_of run = Raise (RuntimeError_size 5) /\
  existsb (is_unpack "/tmp/rhcos-47.83.202103251640-0-aws.x86_64.vmdk") (events_of run) = false /\
  Sim.files (world (state_of run)) !! "/tmp/rhcos-47.83.202103251640-0-aws.x86_64.vmdk" = None.
Proof.
  intros run.
  pose (located := rhcos_path Sim.handle (job cut_download)).
  pose (linked := rhcos_url Sim.handle (state_of located)).
  destruct (C6_small_download_is_fatal_before_unpacking (__init__ "4.7.7" bucket) cut_download
              "/tmp/rhcos-47.83.202103251640-0-aws.x86_64.vmdk"
              (state_of located) (events_of located)
              url (state_of linked) (events_of linked)
              (mkResponse "" truncated)) as [_ H].
  - apply run_outcome. by_run.
  - by_run.
  - apply run_outcome. by_run.
  - by_run.
  - destruct H as (H1 & H2 & H3 & _); [vm_compute; reflexivity|].
    split; [exact H1|]. split; [exact H2|exact H3].
Defined.

(** C8 on three releases, the second of which fails its size check. *)
Lemma C8_witness :
  let run := process_versions Sim.handle 31 ["4.7.10"; "4.7.7"; "4.7.3"] three_releases in
  outcome_of run = Ok tt /\
  processed (events_of run) = ["4.7.10"; "4.7.7"; "4.7.3"] /\
  errors_logged (events_of run) = [RuntimeError_size 5] /\
  map Sim.image_name (Sim.images (state_of run)) = ["rhcos-47.83.10-0"; "rhcos-47.83.3-0"].
Proof.
  intros run.
  destruct (C8_failures_are_isolated Sim.handle 31) as [H _]; [lia|].
  destruct (H ["4.7.10"; "4.7.7"; "4.7.3"] three_releases) as (w' & t & Hrun & _ & Hp).
  split; [unfold run; now rewrite Hrun|].
  split; [unfold run; now rewrite Hrun|].
  split; by_run.
Defined.

(** C10 on an account that may not change launch permissions: the first
    run registers [ami-0] and fails to publish it; a fresh object for the
    same release, run in the account the first run left, returns [ami-0]
    and asks for no change of launch permissions. *)
Lemma C10_witness :
  let first := register_image Sim.handle 31 (job no_publish) in
  let again := register_image Sim.handle 31 (job (world (state_of first))) in
  outcome_of first = Raise (LibraryError "UnauthorizedOperation") /\
  map Sim.image_public (Sim.images (world (state_of first))) = [false] /\
  outcome_of again = Ok "ami-0" /\
  world (state_of again) = world (state_of first) /\
  existsb is_modify (events_of again) = false.
Proof.
  intros first again.
  destruct (C10_failed_publication_is_never_retried 31 (job no_publish)
              (LibraryError "UnauthorizedOperation") (state_of first) (events_of first) "ami-0")
    as (_ & _ & _ & v & f & Hv & Hf & _ & Hany).
  - apply run_outcome. by_run.
  - by_run.
  - split; [by_run|]. split; [by_run|].
    assert (Ev : Some v = Some rhcos) by (rewrite <- Hv; by_run).
    assert (Ef : Some f = Some filename) by (rewrite <- Hf; by_run).
    injection Ev as ->. injection Ef as ->.
    pose (named := rhcos_filename Sim.handle (job (world (state_of first)))).
    pose (resolved := rhcos_version Sim.handle (state_of named)).
    destruct (Hany 31 (__init__ "4.7.7" bucket) (state_of named) (events_of named)
               (state_of resolved) (events_of resolved)) as (t' & Ht' & Hw & Hm & _).
    + by_run.
    + apply run_outcome. by_run.
    + apply run_outcome. by_run.
    + unfold again, job. rewrite Ht'. split; [reflexivity|]. split; [exact Hw|exact Hm].
Defined.

(* ===================================================================== *)
(** ** Where the spec and the code part *)
(* ===================================================================== *)

(** C2 as the spec has it fails: a snapshot tagged with the resolved version
    exists, and [import_snapshot] raises instead of returning it, because
    [upload_rhcos] runs first and the download fails its size check. *)
Lemma C2_counterexample :
  let s := resolved_job snapshot_without_object in
  _rhcos_version (self s) = Some rhcos /\
  Sim.snapshots_tagged rhcos (world s) = ["snap-1"] /\
  outcome_of (import_snapshot Sim.handle 31 s) = Raise (RuntimeError_size 5) /\
  outcome_of (import_snapshot Sim.handle 31 s) <> Ok "snap-1".
Proof.
  cbv zeta. split; [by_run|]. split; [by_run|].
  assert (H : outcome_of (import_snapshot Sim.handle 31 (resolved_job snapshot_without_object))
              = Raise (RuntimeError_size 5)) by (by_run).
  split; [exact H|]. rewrite H. discriminate.
Qed.

(** C4 as the spec has it fails: an image of the derived name exists, and
    [register_image] raises instead of returning it, because
    [import_snapshot] runs first and fails. *)
Lemma C4_counterexample :
  let s := resolved_job image_without_object in
  _rhcos_version (self s) = Some rhcos /\
  map Sim.image_id (Sim.images_named ("rhcos-" +:+ rhcos) (world s)) = ["ami-1"] /\
  outcome_of (register_image Sim.handle 31 s) = Raise (RuntimeError_size 5) /\
  outcome_of (register_image Sim.handle 31 s) <> Ok "ami-1".
Proof.
  cbv zeta. split; [by_run|]. split; [by_run|].
  assert (H : outcome_of (register_image Sim.handle 31 (resolved_job image_without_object))
              = Raise (RuntimeError_size 5)) by (by_run).
  split; [exact H|]. rewrite H. discriminate.
Qed.

(** C5: the code at a release text without a [machine-os] line.  The
    resolver returns [None], but the file name and the local path are set
    all the same, from the text ["None"]; the bucket is queried under that
    key and the release is not skipped: [register_image] goes on to the
    download, and ends in the [TypeError] of line 88. *)
Theorem C5_release_without_version_is_not_skipped :
  let run := register_image Sim.handle 31 (job no_machine_os) in
  PyStr.re_search_machine_os release_txt_without_machine_os = None /\
  outcome_of (rhcos_version Sim.handle (job no_machine_os)) = Ok None /\
  outcome_of run = Raise TypeError_join /\
  _rhcos_filename (self (state_of run)) = Some "rhcos-None-aws.x86_64.vmdk" /\
  _rhcos_path (self (state_of run)) = Some "/tmp/rhcos-None-aws.x86_64.vmdk" /\
  existsb (fun e => match e with
                    | Called (s3_list_objects_v2 _ key) _ =>
                        String.eqb key "rhcos-None-aws.x86_64.vmdk"
                    | _ => false
                    end) (events_of run) = true.
Proof. cbv zeta. repeat split; by_run. Qed.

(** C9: the code at values that Python counts as false.  An empty release
    text is fetched again by the second access to [data]; a version that
    was not found is searched for and logged again by the second access to
    [rhcos_version]. *)
Theorem C9_falsy_values_are_computed_again :
  let first := data Sim.handle (job empty_release_txt) in
  let again := data Sim.handle (state_of first) in
  let looked := rhcos_version Sim.handle (job no_machine_os) in
  let relooked := rhcos_version Sim.handle (state_of looked) in
  outcome_of first = Ok "" /\
  outcome_of again = Ok "" /\
  events_of again
  = [Called (requests_get (release_txt_url "4.7.7"))
       (Reply (mkResponse "" (Sim.mkBlob 0 None)))] /\
  outcome_of looked = Ok None /\
  outcome_of relooked = Ok None /\
  events_of relooked = [Logged (INFO "Unable to find RHCOS version for 4.7.7")].
Proof. cbv zeta. repeat split; by_run. Qed.

(* ===================================================================== *)
(** ** Further properties: the strings, the filter, the sort *)
(* ===================================================================== *)

Section StringFacts.

Import PyStr Discovery.


Lemma append_cons c (a b : string) : String c a +:+ b = String c (a +:+ b).
Proof. reflexivity. Qed.

Lemma take_drop_while p s : take_while p s +:+ drop_while p s = s.
Proof.
  induction s as [|c s IH]; [reflexivity|]. simpl. destruct (p c); [rewrite append_cons; f_equal; exact IH|reflexivity].
Qed.

Lemma take_while_all p s : all_chars p (take_while p s) = true.
Proof. induction s as [|c s IH]; [reflexivity|]. simpl. destruct (p c) eqn:E; simpl; [now rewrite E|reflexivity]. Qed.

Lemma digits1_inv s r :
  digits1 s = Some r ->
  exists d, s = d +:+ r /\ truthy d = true /\ all_chars is_digit d = true.
Proof.
  unfold digits1. destruct (truthy (take_while is_digit s)) eqn:E; [|discriminate].
  intros [= <-]. exists (take_while is_digit s). split; [now rewrite take_drop_while|].
  split; [exact E|apply take_while_all].
Qed.

Lemma expect_inv c s r : expect c s = Some r -> s = String c r.
Proof.
  destruct s as [|a s]; [discriminate|]. simpl. destruct (Ascii.eqb a c) eqn:E; [|discriminate].
  apply Ascii.eqb_eq in E. now intros [= <-]; subst.
Qed.

Lemma at_dollar_inv s : at_dollar s = true -> s = "" \/ s = String "010" "".
Proof.
  destruct s as [|c [|d s]]; simpl; [now left| |discriminate].
  intros E. apply Ascii.eqb_eq in E. subst. now right.
Qed.

Lemma all_chars_impl (p q : ascii -> bool) s :
  (forall c, p c = true -> q c = true) -> all_chars p s = true -> all_chars q s = true.
Proof.
  intros H. induction s as [|c s IH]; [reflexivity|]. simpl.
  intros [Hc Hs]%andb_prop. now rewrite (H c Hc), IH.
Qed.

Lemma all_chars_app p a b : all_chars p (a +:+ b) = all_chars p a && all_chars p b.
Proof.
  induction a as [|c a IH]; [reflexivity|]. rewrite append_cons. simpl.
  now rewrite IH, andb_assoc.
Qed.

Lemma digit_not_dot c : is_digit c = true -> Ascii.eqb c "." = false.
Proof. destruct c as [[] [] [] [] [] [] [] []]; vm_compute; congruence. Qed.

Lemma digit_not_space c : is_digit c = true -> is_space c = false.
Proof. destruct c as [[] [] [] [] [] [] [] []]; vm_compute; congruence. Qed.

Lemma split_not_nil sep s : split sep s <> [].
Proof.
  induction s as [|c s IH]; [discriminate|]. simpl.
  destruct (Ascii.eqb c sep); [discriminate|]. now destruct (split sep s).
Qed.

Lemma split_no_sep sep s :
  all_chars (fun c => negb (Ascii.eqb c sep)) s = true -> split sep s = [s].
Proof.
  induction s as [|c s IH]; [reflexivity|]. simpl.
  intros [Hc Hs]%andb_prop. apply negb_true_iff in Hc. now rewrite Hc, (IH Hs).
Qed.

Lemma split_app_sep sep d r :
  all_chars (fun c => negb (Ascii.eqb c sep)) d = true ->
  split sep (d +:+ String sep r) = d :: split sep r.
Proof.
  induction d as [|c d IH].
  - intros _. simpl. now rewrite Ascii.eqb_refl.
  - simpl all_chars. intros [Hc Hd]%andb_prop. apply negb_true_iff in Hc.
    rewrite append_cons. simpl. now rewrite Hc, (IH Hd).
Qed.

Lemma rev_string_rev s acc t :
  rev_string (rev_string s acc) t = rev_string acc (s +:+ t).
Proof.
  revert acc. induction s as [|c s IH]; intros acc; [reflexivity|].
  simpl rev_string at 2. rewrite IH. reflexivity.
Qed.

Lemma rev_string_app a b acc : rev_string (a +:+ b) acc = rev_string b (rev_string a acc).
Proof.
  revert acc. induction a as [|c a IH]; intros acc; [reflexivity|].
  rewrite append_cons. simpl. apply IH.
Qed.

Lemma all_chars_rev p s acc :
  all_chars p (rev_string s acc) = all_chars p s && all_chars p acc.
Proof.
  revert acc. induction s as [|c s IH]; intros acc; [reflexivity|].
  simpl. rewrite IH. simpl. destruct (p c), (all_chars p s); reflexivity.
Qed.

Lemma truthy_rev_acc s acc : truthy acc = true -> truthy (rev_string s acc) = true.
Proof. revert acc. induction s as [|c s IH]; intros acc H; [exact H|]. simpl. now apply IH. Qed.

Lemma truthy_rev s : truthy s = true -> truthy (rev_string s "") = true.
Proof. destruct s as [|c s]; [discriminate|]. intros _. simpl. now apply truthy_rev_acc. Qed.

Lemma drop_while_none p s :
  truthy s = true -> all_chars (fun c => negb (p c)) s = true -> forall t, drop_while p (s +:+ t) = s +:+ t.
Proof.
  destruct s as [|c s]; [discriminate|]. intros _. simpl.
  intros [Hc _]%andb_prop t. apply negb_true_iff in Hc. rewrite append_cons. simpl. now rewrite Hc.
Qed.

Lemma drop_while_whole p s :
  truthy s = true -> all_chars (fun c => negb (p c)) s = true -> drop_while p s = s.
Proof.
  destruct s as [|c s]; [discriminate|]. intros _. simpl.
  intros [Hc _]%andb_prop. apply negb_true_iff in Hc. now rewrite Hc.
Qed.

Lemma append_assoc (a b c : string) : (a +:+ b) +:+ c = a +:+ (b +:+ c).
Proof. induction a as [|x a IH]; [reflexivity|]. rewrite !append_cons. now rewrite IH. Qed.

Lemma append_nil_r (s : string) : s +:+ "" = s.
Proof. induction s as [|c s IH]; [reflexivity|]. rewrite append_cons. now rewrite IH. Qed.

(** [strip] leaves a string of digits as it is, and removes a final newline. *)
Lemma strip_digits d :
  truthy d = true -> all_chars is_digit d = true ->
  strip d = d /\ strip (d +:+ String "010" "") = d.
Proof.
  intros Ht Hd.
  assert (Hn : all_chars (fun c => negb (is_space c)) d = true).
  { apply (all_chars_impl is_digit); [|exact Hd]. intros c Hc. now rewrite digit_not_space. }
  assert (Hr : drop_while is_space (rev_string d "") = rev_string d "").
  { apply drop_while_whole; [now apply truthy_rev|]. rewrite all_chars_rev, Hn. reflexivity. }
  unfold strip. split.
  - rewrite (drop_while_whole _ _ Ht Hn), Hr, rev_string_rev. simpl. apply append_nil_r.
  - rewrite (drop_while_none _ _ Ht Hn), rev_string_app. simpl rev_string at 2.
    simpl drop_while. change (is_space "010") with true. cbv iota.
    rewrite Hr, rev_string_rev. simpl. apply append_nil_r.
Qed.

Lemma int_digits_total d :
  all_chars is_digit d = true ->
  forall acc b, (0 <= acc)%Z -> truthy d = true \/ b = true ->
  exists n, int_digits d acc b = Some n /\ (0 <= n)%Z.
Proof.
  induction d as [|c d IH]; intros Hd acc b Hacc Hb.
  - destruct Hb as [Hb| ->]; [discriminate|]. now exists acc.
  - simpl in Hd. apply andb_prop in Hd as [Hc Hd]. simpl. rewrite Hc.
    apply (IH Hd); [|now right].
    assert (48 <= Z.of_nat (nat_of_ascii c))%Z.
    { unfold is_digit in Hc. apply andb_prop in Hc as [H1 _]. apply Nat.leb_le in H1. lia. }
    lia.
Qed.

Lemma digit_count_nonneg s : (0 <= digit_count s)%Z.
Proof. induction s as [|c s IH]; simpl; [lia|]. destruct (is_digit c); lia. Qed.

Lemma digit_count_app a b : digit_count (a +:+ b) = (digit_count a + digit_count b)%Z.
Proof. induction a as [|c a IH]; [reflexivity|]. rewrite append_cons. simpl. rewrite IH. lia. Qed.

(** [int] on a run of digits, with or without a final newline: the value
    when the run is within the limit, [ValueError] when it is longer. *)
Lemma int_of_digits d :
  truthy d = true -> all_chars is_digit d = true ->
  int (d +:+ newline) = int d /\
  if (digit_count d <=? int_max_str_digits)%Z
  then exists n, int d = Some n /\ (0 <= n)%Z
  else int d = None.
Proof.
  intros Ht Hd. destruct (strip_digits d Ht Hd) as [E1 E2].
  destruct (int_digits_total d Hd 0%Z false) as (n & Hn & Hpos); [lia|now left|].
  assert (E : forall t, strip t = d -> int t = int_unsigned d).
  { intros t Et. unfold int. rewrite Et.
    destruct d as [|c d]; [discriminate|]. simpl in Hd. apply andb_prop in Hd as [Hc _].
    destruct c as [[] [] [] [] [] [] [] []]; try reflexivity; discriminate Hc. }
  unfold newline. rewrite (E _ E1), (E _ E2). split; [reflexivity|].
  unfold int_unsigned. destruct (digit_count d <=? int_max_str_digits)%Z; [|reflexivity].
  now exists n.
Qed.

Lemma re_release_inv s :
  re_release s = true ->
  exists d1 d2 d3 tail,
    s = d1 +:+ "." +:+ d2 +:+ "." +:+ d3 +:+ tail /\
    is_digits d1 = true /\ is_digits d2 = true /\ is_digits d3 = true /\
    (tail = "" \/ tail = newline).
Proof.
  unfold re_release.
  destruct (digits1 s) as [s1|] eqn:E1; [|discriminate].
  destruct (expect "." s1) as [s2|] eqn:E2; [|discriminate].
  destruct (digits1 s2) as [s3|] eqn:E3; [|discriminate].
  destruct (expect "." s3) as [s4|] eqn:E4; [|discriminate].
  destruct (digits1 s4) as [s5|] eqn:E5; [|discriminate].
  intros E6.
  apply digits1_inv in E1 as (d1 & -> & T1 & A1).
  apply digits1_inv in E3 as (d2 & -> & T2 & A2).
  apply digits1_inv in E5 as (d3 & -> & T3 & A3).
  apply expect_inv in E2 as ->. apply expect_inv in E4 as ->.
  exists d1, d2, d3, s5. unfold is_digits. rewrite T1, T2, T3, A1, A2, A3.
  split; [reflexivity|]. repeat split. now apply at_dollar_inv.
Qed.

Lemma take_while_app p d rest :
  all_chars p d = true ->
  match rest with String c _ => p c = false | EmptyString => True end ->
  take_while p (d +:+ rest) = d /\ drop_while p (d +:+ rest) = rest.
Proof.
  intros Hd Hr. induction d as [|c d IH].
  - destruct rest as [|c r]; [now split|]. simpl. now rewrite Hr.
  - simpl in Hd. apply andb_prop in Hd as [Hc Hd]. rewrite append_cons. simpl. rewrite Hc.
    destruct (IH Hd) as [-> ->]. now split.
Qed.

Lemma digits1_app d rest :
  is_digits d = true ->
  match rest with String c _ => is_digit c = false | EmptyString => True end ->
  digits1 (d +:+ rest) = Some rest.
Proof.
  unfold is_digits. intros [Ht Hd]%andb_prop Hr. unfold digits1.
  destruct (take_while_app is_digit d rest Hd Hr) as [-> ->]. now rewrite Ht.
Qed.

Lemma re_release_intro d1 d2 d3 tail :
  is_digits d1 = true -> is_digits d2 = true -> is_digits d3 = true ->
  tail = "" \/ tail = newline ->
  re_release (d1 +:+ "." +:+ d2 +:+ "." +:+ d3 +:+ tail) = true.
Proof.
  intros H1 H2 H3 Ht. unfold re_release.
  change (d1 +:+ "." +:+ d2 +:+ "." +:+ d3 +:+ tail)
    with (d1 +:+ String "." (d2 +:+ String "." (d3 +:+ tail))).
  rewrite (digits1_app d1 _ H1) by reflexivity. cbn [expect]. rewrite Ascii.eqb_refl.
  rewrite (digits1_app d2 _ H2) by reflexivity. cbn [expect]. rewrite Ascii.eqb_refl.
  rewrite (digits1_app d3 tail H3); [|now destruct Ht as [-> | ->]].
  now destruct Ht as [-> | ->].
Qed.

Lemma digits_no_dot d :
  is_digits d = true -> all_chars (fun c => negb (Ascii.eqb c ".")) d = true.
Proof.
  unfold is_digits. intros [_ Hd]%andb_prop.
  apply (all_chars_impl is_digit); [|exact Hd]. intros c Hc. now rewrite digit_not_dot.
Qed.

Lemma split_release d1 d2 d3 tail :
  is_digits d1 = true -> is_digits d2 = true -> is_digits d3 = true ->
  tail = "" \/ tail = newline ->
  split "." (d1 +:+ "." +:+ d2 +:+ "." +:+ d3 +:+ tail) = [d1; d2; d3 +:+ tail].
Proof.
  intros H1 H2 H3 Ht.
  change (d1 +:+ "." +:+ d2 +:+ "." +:+ d3 +:+ tail)
    with (d1 +:+ String "." (d2 +:+ String "." (d3 +:+ tail))).
  rewrite (split_app_sep "." d1) by now apply digits_no_dot.
  rewrite (split_app_sep "." d2) by now apply digits_no_dot.
  rewrite split_no_sep; [reflexivity|].
  rewrite all_chars_app, (digits_no_dot d3 H3). now destruct Ht as [-> | ->].
Qed.


Lemma int_fits d :
  is_digits d = true ->
  int (d +:+ newline) = int d /\
  if fits d then exists n, int d = Some n /\ (0 <= n)%Z else int d = None.
Proof.
  unfold is_digits. intros [Ht Hd]%andb_prop. exact (int_of_digits d Ht Hd).
Qed.

Lemma fits_tail d tail : tail = "" \/ tail = newline -> fits (d +:+ tail) = fits d.
Proof.
  intros [-> | ->]; unfold fits; rewrite digit_count_app; cbn [digit_count newline];
    change (is_digit "010") with false; cbv iota; now rewrite ?Z.add_0_r.
Qed.

(** The key of a version of the form [d1.d2.d3]: three integers when each
    run is within the limit of [int()], none otherwise. *)
Lemma sort_key_parts d1 d2 d3 tail :
  is_digits d1 = true -> is_digits d2 = true -> is_digits d3 = true ->
  tail = "" \/ tail = newline ->
  let v := d1 +:+ "." +:+ d2 +:+ "." +:+ d3 +:+ tail in
  parts_fit v = fits d1 && fits d2 && fits d3 /\
  if parts_fit v
  then exists a b c, sort_key v = Some [a; b; c] /\ (0 <= a)%Z /\ (0 <= b)%Z /\ (0 <= c)%Z
  else sort_key v = None.
Proof.
  intros H1 H2 H3 Ht v.
  assert (Ep : parts_fit v = fits d1 && fits d2 && fits d3).
  { unfold parts_fit, v. rewrite (split_release _ _ _ _ H1 H2 H3 Ht). cbn [forallb].
    rewrite (fits_tail d3 tail Ht), andb_true_r, andb_assoc. reflexivity. }
  split; [exact Ep|]. rewrite Ep.
  unfold sort_key, v. rewrite (split_release _ _ _ _ H1 H2 H3 Ht).
  destruct (int_fits d1 H1) as [_ I1], (int_fits d2 H2) as [_ I2],
    (int_fits d3 H3) as [E3 I3].
  assert (E : int (d3 +:+ tail) = int d3).
  { destruct Ht as [-> | ->]; [now rewrite append_nil_r|exact E3]. }
  cbn [map_int]. rewrite E.
  destruct (fits d1); cbn [andb].
  - destruct I1 as (a & -> & Pa). destruct (fits d2); cbn [andb].
    + destruct I2 as (b & -> & Pb). destruct (fits d3).
      * destruct I3 as (c & -> & Pc). now exists a, b, c.
      * now rewrite I3.
    + now rewrite I2.
  - now rewrite I1.
Qed.

Lemma sort_key_release v :
  re_release v = true ->
  if parts_fit v
  then exists a b c, sort_key v = Some [a; b; c] /\ (0 <= a)%Z /\ (0 <= b)%Z /\ (0 <= c)%Z
  else sort_key v = None.
Proof.
  intros (d1 & d2 & d3 & tail & -> & H1 & H2 & H3 & Ht)%re_release_inv.
  apply (sort_key_parts d1 d2 d3 tail H1 H2 H3 Ht).
Qed.

Lemma major_minor_release s :
  re_release s = true ->
  exists d1 d2, major_minor s = d1 +:+ "." +:+ d2 /\ is_digits d1 = true /\ is_digits d2 = true /\
                startswith (d1 +:+ "." +:+ d2 +:+ ".") s = true.
Proof.
  intros (d1 & d2 & d3 & tail & -> & H1 & H2 & H3 & Ht)%re_release_inv.
  exists d1, d2. unfold major_minor. rewrite (split_release _ _ _ _ H1 H2 H3 Ht).
  split; [reflexivity|]. split; [exact H1|]. split; [exact H2|].
  unfold startswith.
  assert (G : forall p r, strip_prefix p (p +:+ r) = Some r).
  { induction p as [|c p IH]; intros r; [reflexivity|]. rewrite append_cons. simpl.
    now rewrite Ascii.eqb_refl. }
  replace (d1 +:+ "." +:+ d2 +:+ "." +:+ d3 +:+ tail)
    with ((d1 +:+ "." +:+ d2 +:+ ".") +:+ (d3 +:+ tail)).
  - now rewrite G.
  - rewrite !append_assoc. reflexivity.
Qed.

Lemma keyed_total l :
  Forall (fun s => sort_key s <> None) l -> exists kl, keyed l = Some kl.
Proof.
  induction 1 as [|s l Hs _ (kl & IH)]; [now exists []|].
  destruct (sort_key s) as [k|] eqn:E; [|congruence].
  exists ((k, s) :: kl). cbn [keyed]. now rewrite E, IH.
Qed.

Lemma sort_versions_total l :
  Forall (fun s => sort_key s <> None) l -> exists sorted, sort_versions l = Some sorted.
Proof.
  intros (kl & E)%keyed_total. unfold sort_versions. rewrite E. now eexists.
Qed.

Lemma selected_release vs v : selected vs v = true -> re_release v = true.
Proof. unfold selected. now intros [_ H]%andb_prop. Qed.

Lemma collect_nodes_release vs nodes acc :
  Forall (fun s => re_release s = true) acc ->
  Forall (fun s => re_release s = true) (collect_nodes vs nodes acc).
Proof.
  revert acc. induction nodes as [|v nodes IH]; intros acc Hacc; [exact Hacc|].
  cbn [collect_nodes]. apply IH.
  destruct (selected vs v) eqn:E; [|exact Hacc].
  destruct (negb (py_in v acc)); [|exact Hacc].
  apply Forall_app. split; [exact Hacc|]. repeat constructor. now apply (selected_release vs).
Qed.

(** *** The sort *)

Lemma list_lt_irrefl a : list_lt a a = false.
Proof. induction a as [|x a IH]; [reflexivity|]. simpl. now rewrite Z.ltb_irrefl. Qed.

Lemma list_lt_asym a b : list_lt a b = true -> list_lt b a = false.
Proof.
  revert b. induction a as [|x a IH]; intros [|y b]; simpl; try congruence.
  destruct (x <? y)%Z eqn:E1, (y <? x)%Z eqn:E2; try congruence; try lia.
  apply IH.
Qed.

(** [list_lt a b = false] is [b <= a]: it is transitive. *)
Lemma list_ge_trans a b c :
  list_lt a b = false -> list_lt b c = false -> list_lt a c = false.
Proof.
  revert b c. induction a as [|x a IH]; intros [|y b] [|z c]; simpl; try congruence.
  destruct (x <? y)%Z eqn:E1; [congruence|].
  destruct (y <? x)%Z eqn:E2.
  - intros _. destruct (y <? z)%Z eqn:E3; [congruence|].
    destruct (z <? y)%Z eqn:E4.
    + intros _. assert ((x <? z)%Z = false) as -> by lia. now assert ((z <? x)%Z = true) as -> by lia.
    + intros H. assert (y = z) as <- by lia. now rewrite E1, E2.
  - intros Hab. assert (x = y) as <- by lia.
    destruct (x <? z)%Z; [congruence|]. destruct (z <? x)%Z; [reflexivity|].
    intros Hbc. now apply (IH b).
Qed.

Lemma insert_desc_perm kx l : Permutation (insert_desc kx l) (kx :: l).
Proof.
  induction l as [|ky l IH]; [reflexivity|]. cbn [insert_desc].
  destruct (list_lt (fst kx) (fst ky)); [|reflexivity].
  rewrite IH. apply perm_swap.
Qed.

Lemma sort_desc_perm l : Permutation (sort_desc l) l.
Proof.
  induction l as [|kx l IH]; [reflexivity|]. cbn [sort_desc fold_right].
  fold (sort_desc l). rewrite insert_desc_perm. now constructor.
Qed.

Lemma insert_desc_sorted kx l :
  StronglySorted key_ge l -> StronglySorted key_ge (insert_desc kx l).
Proof.
  induction 1 as [|ky l Hl IH Hky]; [repeat constructor|]. cbn [insert_desc].
  destruct (list_lt (fst kx) (fst ky)) eqn:E.
  - constructor; [exact IH|].
    eapply Permutation_Forall; [symmetry; apply insert_desc_perm|].
    constructor; [|exact Hky]. now apply list_lt_asym.
  - constructor; [now constructor|]. constructor; [exact E|].
    eapply Forall_impl; [exact Hky|]. intros kz Hz. unfold key_ge in *.
    now apply (list_ge_trans _ (fst ky)).
Qed.

Lemma sort_desc_sorted l : StronglySorted key_ge (sort_desc l).
Proof.
  induction l as [|kx l IH]; [constructor|]. cbn [sort_desc fold_right].
  now apply insert_desc_sorted.
Qed.

Lemma list_eqb_lt a b : list_eqb a b = true -> list_lt a b = false.
Proof.
  revert b. induction a as [|x a IH]; intros [|y b]; simpl; try congruence.
  intros [E H]%andb_prop. apply Z.eqb_eq in E as <-. rewrite Z.ltb_irrefl. now apply IH.
Qed.

Lemma list_eqb_lt' a b k :
  list_lt a b = true -> list_eqb a k = true -> list_eqb b k = false.
Proof.
  revert b k. induction a as [|x a IH]; intros [|y b] [|z k]; simpl; try congruence.
  destruct (x <? y)%Z eqn:E1.
  - intros _ [E _]%andb_prop. apply Z.eqb_eq in E as <-.
    assert ((y =? x)%Z = false) as -> by lia. reflexivity.
  - destruct (y <? x)%Z eqn:E2; [congruence|].
    intros H [E H']%andb_prop. apply Z.eqb_eq in E as <-.
    assert (y = x) as -> by lia. rewrite Z.eqb_refl. now apply (IH b).
Qed.

(** Insertion keeps the order among elements of one key. *)
Lemma insert_desc_stable k kx l :
  List.filter (fun p => list_eqb (fst p) k) (insert_desc kx l)
  = List.filter (fun p => list_eqb (fst p) k) (kx :: l).
Proof.
  induction l as [|ky l IH]; [reflexivity|]. cbn [insert_desc].
  destruct (list_lt (fst kx) (fst ky)) eqn:E; [|reflexivity].
  cbn [List.filter] in *. rewrite IH.
  destruct (list_eqb (fst kx) k) eqn:Ex; [|reflexivity].
  now rewrite (list_eqb_lt' _ _ _ E Ex).
Qed.

Lemma sort_desc_stable k l :
  List.filter (fun p => list_eqb (fst p) k) (sort_desc l)
  = List.filter (fun p => list_eqb (fst p) k) l.
Proof.
  induction l as [|kx l IH]; [reflexivity|]. cbn [sort_desc fold_right].
  fold (sort_desc l). rewrite insert_desc_stable. cbn [List.filter]. now rewrite IH.
Qed.

Lemma keyed_inv l kl :
  keyed l = Some kl ->
  map snd kl = l /\ Forall (fun p => sort_key (snd p) = Some (fst p)) kl.
Proof.
  revert kl. induction l as [|s l IH]; intros kl; cbn [keyed].
  - intros [= <-]. now split.
  - destruct (sort_key s) as [k|] eqn:E; [|discriminate].
    destruct (keyed l) as [r|]; [|discriminate]. intros [= <-].
    destruct (IH r eq_refl) as [H1 H2]. split; [cbn; now rewrite H1|now constructor].
Qed.

Lemma keyed_none l : keyed l = None -> exists s, In s l /\ sort_key s = None.
Proof.
  induction l as [|s l IH]; [discriminate|]. cbn [keyed].
  destruct (sort_key s) as [k|] eqn:E; [|intros _; exists s; split; [now left|exact E]].
  destruct (keyed l) as [r|]; [discriminate|]. intros _.
  destruct (IH eq_refl) as (x & Hx & Ex). exists x. split; [now right|exact Ex].
Qed.

Lemma keyed_some l kl s : keyed l = Some kl -> In s l -> sort_key s <> None.
Proof.
  intros (<- & Hk)%keyed_inv (p & <- & Hp)%in_map_iff.
  rewrite Forall_forall in Hk. rewrite (Hk p); [discriminate|].
  now apply list_elem_of_In.
Qed.

Lemma list_lt_spec a b : list_lt a b = true <-> py_list_lt a b.
Proof.
  split.
  - revert b. induction a as [|x a IH]; intros [|y b]; simpl; try discriminate.
    + intros _. constructor.
    + destruct (x <? y)%Z eqn:E1; [intros _; constructor; lia|].
      destruct (y <? x)%Z eqn:E2; [discriminate|].
      assert (x = y) as -> by lia. intros H. apply py_lt_tail. now apply IH.
  - induction 1 as [y b|x y a b H|x a b H IH]; simpl.
    + reflexivity.
    + assert (E : (x <? y)%Z = true) by lia. now rewrite E.
    + now rewrite Z.ltb_irrefl.
Qed.

(** What the sort returns: the same versions, none before one of a higher
    key. *)
Lemma sort_versions_sorted l sorted :
  sort_versions l = Some sorted ->
  Permutation sorted l /\ StronglySorted stands_before sorted.
Proof.
  unfold sort_versions. destruct (keyed l) as [kl|] eqn:E; cbn [option_map]; [|discriminate].
  intros [= <-].
  destruct (keyed_inv _ _ E) as [Hm Hk]. subst l.
  assert (Hs : Forall (fun p => sort_key (snd p) = Some (fst p)) (sort_desc kl)).
  { eapply Permutation_Forall; [symmetry; apply sort_desc_perm|exact Hk]. }
  split; [apply Permutation_map, sort_desc_perm|].
  pose proof (sort_desc_sorted kl) as H. revert Hs.
  induction H as [|p l Hl IH Hp]; intros Hs; [constructor|].
  apply Forall_cons in Hs as [Hp' Hs]. cbn [map]. constructor; [now apply IH|].
  apply Forall_map. rewrite Forall_forall in *. intros q Hq.
  exists (fst p), (fst q). split; [exact Hp'|]. split; [now apply Hs|].
  intros L. apply list_lt_spec in L. specialize (Hp q Hq). unfold key_ge in Hp. congruence.
Qed.

(** X1: the sort of line 306.  When every version has a key, the result is
    a permutation of the input, no version stands before one of a higher
    key, and versions of equal key keep the order they had in the input
    (the sort is stable); otherwise some version of the input has no key,
    which is the [ValueError] of [int()]. *)
Theorem sort_versions_spec (openshift_versions : list string) :
  match sort_versions openshift_versions with
  | Some sorted =>
      Permutation sorted openshift_versions /\
      StronglySorted stands_before sorted /\
      (forall k, List.filter (has_key k) sorted = List.filter (has_key k) openshift_versions)
  | None => exists s, In s openshift_versions /\ sort_key s = None
  end.
Proof.
  destruct (sort_versions openshift_versions) as [sorted|] eqn:Es.
  2:{ unfold sort_versions in Es.
      destruct (keyed openshift_versions) eqn:E; [discriminate|]. now apply keyed_none. }
  destruct (sort_versions_sorted _ _ Es) as [Hperm Hsorted].
  split; [exact Hperm|]. split; [exact Hsorted|].
  unfold sort_versions in Es.
  destruct (keyed openshift_versions) as [kl|] eqn:E; cbn [option_map] in Es; [|discriminate].
  injection Es as <-.
  destruct (keyed_inv _ _ E) as [Hm Hk]. subst openshift_versions.
  assert (Hs : Forall (fun p => sort_key (snd p) = Some (fst p)) (sort_desc kl)).
  { eapply Permutation_Forall; [symmetry; apply sort_desc_perm|exact Hk]. }
  intros k.
  assert (G : forall l, Forall (fun p => sort_key (snd p) = Some (fst p)) l ->
              List.filter (has_key k) (map snd l)
              = map snd (List.filter (fun p => list_eqb (fst p) k) l)).
  { induction 1 as [|p l Hp _ IH]; [reflexivity|]. cbn [map List.filter].
    unfold has_key at 1. rewrite Hp. destruct (list_eqb (fst p) k); cbn [map]; now rewrite IH. }
  rewrite (G _ Hs), (G _ Hk), sort_desc_stable. reflexivity.
Qed.


Lemma py_in_In x l : py_in x l = true <-> In x l.
Proof.
  unfold py_in. rewrite existsb_exists. split.
  - intros (y & Hy & E). apply String.eqb_eq in E. now subst.
  - intros H. exists x. split; [exact H|apply String.eqb_refl].
Qed.

Lemma collect_nodes_facts (versions_to_upload nodes openshift_versions : list string) :
  let found := collect_nodes versions_to_upload nodes openshift_versions in
  (exists added, found = openshift_versions ++ added) /\
  (forall v, In v found <->
             In v openshift_versions \/ (In v nodes /\ selected versions_to_upload v = true)) /\
  (NoDup openshift_versions -> NoDup found).
Proof.
  cbv zeta. revert openshift_versions.
  induction nodes as [|version rest IH]; intros acc; cbn [collect_nodes].
  - split; [exists []; now rewrite app_nil_r|]. split; [|auto].
    intros v. split; [now left|]. now intros [H|[[] _]].
  - set (acc' := if selected versions_to_upload version
                 then if negb (py_in version acc) then acc ++ [version] else acc
                 else acc).
    destruct (IH acc') as ((added & Ha) & Hin & Hnd).
    assert (Hacc' : (exists x, acc' = acc ++ x) /\
                    (forall v, In v acc' <->
                       In v acc \/ (v = version /\ selected versions_to_upload v = true)) /\
                    (NoDup acc -> NoDup acc')).
    { unfold acc'. destruct (selected versions_to_upload version) eqn:Es.
      - destruct (py_in version acc) eqn:Ei; cbn [negb].
        + apply py_in_In in Ei. split; [exists []; now rewrite app_nil_r|]. split; [|auto].
          intros v. split; [now left|]. now intros [H|[-> _]].
        + split; [now exists [version]|]. split.
          * intros v. rewrite in_app_iff. cbn [In]. split.
            -- intros [H|[<-|[]]]; [now left|right; now split].
            -- intros [H|[-> _]]; [now left|right; now left].
          * intros H. apply NoDup_app. split; [exact H|]. split.
            -- intros x Hx [->|[]]%list_elem_of_In. apply list_elem_of_In, py_in_In in Hx. congruence.
            -- apply NoDup_singleton.
      - split; [exists []; now rewrite app_nil_r|]. split; [|auto].
        intros v. split; [now left|]. intros [H|[-> H]]; [exact H|congruence]. }
    destruct Hacc' as ((x & Hx) & Hin' & Hnd').
    split; [exists (x ++ added); now rewrite Ha, Hx, app_assoc|]. split.
    + intros v. rewrite Hin, Hin'. cbn [In]. split.
      * intros [[H|[-> H]]|[H1 H2]]; [now left|right; split; [now left|exact H]|right; split; [now right|exact H2]].
      * intros [H|[[<-|H1] H2]]; [left; now left|left; right; now split|right; now split].
    + intros H. now apply Hnd, Hnd'.
Qed.

(** X2: the loop over the nodes of one answer (lines 300-304) only appends
    to [openshift_versions]; afterwards a version is in the list exactly
    when it was there before or is a node that passes the filter; and a list
    without duplicates stays without duplicates. *)
Theorem collect_nodes_spec (versions_to_upload nodes openshift_versions : list string) :
  let found := collect_nodes versions_to_upload nodes openshift_versions in
  (exists added, found = openshift_versions ++ added) /\
  (forall v, In v found <->
             In v openshift_versions \/ (In v nodes /\ selected versions_to_upload v = true)) /\
  (NoDup openshift_versions -> NoDup found).
Proof. exact (collect_nodes_facts versions_to_upload nodes openshift_versions). Qed.

(** *** The search for [machine-os] *)

Lemma strip_prefix_app p r : strip_prefix p (p +:+ r) = Some r.
Proof.
  induction p as [|c p IH]; [reflexivity|]. rewrite append_cons. simpl.
  now rewrite Ascii.eqb_refl.
Qed.

Lemma strip_prefix_inv p s r : strip_prefix p s = Some r -> s = p +:+ r.
Proof.
  revert s. induction p as [|c p IH]; intros s; [now intros [= ->]|].
  destruct s as [|a s]; [discriminate|]. simpl.
  destruct (Ascii.eqb c a) eqn:E; [|discriminate]. apply Ascii.eqb_eq in E as ->.
  intros H. rewrite append_cons. f_equal. now apply IH.
Qed.

Lemma drop_while_ends p s : run_ends p (drop_while p s).
Proof.
  induction s as [|c s IH]; [exact I|]. simpl. destruct (p c) eqn:E; [exact IH|exact E].
Qed.

(** X3: the search of line 72.  A result [v] is a non-empty run of digits,
    dots and dashes that follows the text ["machine-os "] in the release
    text, is not continued by a further character of the class, and starts
    at the leftmost place where the text is followed by such a character;
    there is no result exactly when ["machine-os "] is nowhere followed by
    a character of the class. *)
Theorem re_search_machine_os_spec (d : string) :
  match re_search_machine_os d with
  | Some v =>
      exists pre post,
        d = pre +:+ "machine-os " +:+ v +:+ post /\
        truthy v = true /\ all_chars is_version_char v = true /\
        run_ends is_version_char post /\
        (forall pre' c post',
           d = pre' +:+ "machine-os " +:+ String c post' -> is_version_char c = true ->
           String.length pre <= String.length pre')
  | None =>
      forall pre c post,
        d = pre +:+ "machine-os " +:+ String c post -> is_version_char c = false
  end.
Proof.
  induction d as [|a d IH].
  - cbn. intros [|x pre] c post; discriminate.
  - cbn [re_search_machine_os].
    destruct (strip_prefix "machine-os " (String a d)) as [rest|] eqn:Ep.
    + apply strip_prefix_inv in Ep.
      destruct (truthy (take_while is_version_char rest)) eqn:Et.
      * exists "", (drop_while is_version_char rest). split.
        { rewrite Ep. change ("" +:+ ?x) with x. f_equal.
          now rewrite take_drop_while. }
        split; [exact Et|]. split; [apply take_while_all|]. split; [apply drop_while_ends|].
        intros; cbn; lia.
      * assert (Hrest : forall c post', rest = String c post' -> is_version_char c = false).
        { intros c post' ->. simpl in Et. now destruct (is_version_char c). }
        assert (Hhead : forall c post',
                  String a d = "" +:+ "machine-os " +:+ String c post' ->
                  is_version_char c = false).
        { intros c post' E. rewrite Ep in E. change ("" +:+ ?x) with x in E.
          apply (Hrest c post').
          assert (G : strip_prefix "machine-os " ("machine-os " +:+ rest)
                      = strip_prefix "machine-os " ("machine-os " +:+ String c post'))
            by now rewrite E.
          rewrite !strip_prefix_app in G. congruence. }
        destruct (re_search_machine_os d) as [v|].
        -- destruct IH as (pre & post & Ed & Tv & Av & Hp & Hl).
           exists (String a pre), post. split; [now rewrite append_cons, <- Ed|].
           split; [exact Tv|]. split; [exact Av|]. split; [exact Hp|].
           intros [|x pre'] c post' E Hc.
           ++ rewrite (Hhead c post' E) in Hc. discriminate.
           ++ rewrite append_cons in E. injection E as _ E. cbn [String.length].
              pose proof (Hl pre' c post' E Hc). lia.
        -- intros [|x pre] c post E.
           ++ now apply (Hhead c post).
           ++ rewrite append_cons in E. injection E as _ E. now apply (IH pre c post).
    + assert (Hhead : forall c post',
                String a d <> "" +:+ "machine-os " +:+ String c post').
      { intros c post' E. rewrite E in Ep. change ("" +:+ ?x) with x in Ep.
        now rewrite strip_prefix_app in Ep. }
      destruct (re_search_machine_os d) as [v|].
      * destruct IH as (pre & post & Ed & Tv & Av & Hp & Hl).
        exists (String a pre), post. split; [now rewrite append_cons, <- Ed|].
        split; [exact Tv|]. split; [exact Av|]. split; [exact Hp|].
        intros [|x pre'] c post' E Hc.
        -- now destruct (Hhead c post').
        -- rewrite append_cons in E. injection E as _ E. cbn [String.length].
           pose proof (Hl pre' c post' E Hc). lia.
      * intros [|x pre] c post E.
        -- now destruct (Hhead c post).
        -- rewrite append_cons in E. injection E as _ E. now apply (IH pre c post).
Qed.

(** *** The filter of line 302 *)

(** X4: the condition of line 302.  A version passes exactly when it reads
    [d1.d2.d3], each a non-empty run of digits, possibly followed by one
    final newline, and [d1.d2] is one of the arguments given. *)
Theorem selected_spec (versions_to_upload : list string) (version : string) :
  Discovery.selected versions_to_upload version = true <->
  exists d1 d2 d3 tail,
    version = d1 +:+ "." +:+ d2 +:+ "." +:+ d3 +:+ tail /\
    is_digits d1 = true /\ is_digits d2 = true /\ is_digits d3 = true /\
    (tail = "" \/ tail = newline) /\
    In (d1 +:+ "." +:+ d2) versions_to_upload.
Proof.
  unfold Discovery.selected. rewrite andb_true_iff, py_in_In. split.
  - intros [Hin (d1 & d2 & d3 & tail & -> & H1 & H2 & H3 & Ht)%re_release_inv].
    exists d1, d2, d3, tail. split; [reflexivity|]. repeat split; try assumption.
    unfold PyStr.major_minor in Hin. now rewrite (split_release _ _ _ _ H1 H2 H3 Ht) in Hin.
  - intros (d1 & d2 & d3 & tail & -> & H1 & H2 & H3 & Ht & Hin). split.
    + unfold PyStr.major_minor. now rewrite (split_release _ _ _ _ H1 H2 H3 Ht).
    + now apply re_release_intro.
Qed.

Lemma sort_versions_none l s : In s l -> sort_key s = None -> sort_versions l = None.
Proof.
  intros Hin Hs. unfold sort_versions. destruct (keyed l) as [kl|] eqn:E; [|reflexivity].
  now destruct (keyed_some l kl s E Hin).
Qed.

(** X5: a version that matches the pattern of line 302 has a sort key of
    three integers, none negative, when each of its three parts is within
    the limit of [int()] on the number of digits (4300); when a part is
    longer, [int()] raises [ValueError], and so does the sort of line 306
    on every list that holds the version.  The filter does not keep such a
    version out. *)
Theorem filtered_version_sort_key (v : string) :
  PyStr.re_release v = true ->
  if parts_fit v
  then exists a b c,
         Discovery.sort_key v = Some [a; b; c] /\ (0 <= a)%Z /\ (0 <= b)%Z /\ (0 <= c)%Z
  else Discovery.sort_key v = None /\
       forall openshift_versions,
         In v openshift_versions -> Discovery.sort_versions openshift_versions = None.
Proof.
  intros H. pose proof (sort_key_release v H) as K.
  destruct (parts_fit v); [exact K|]. split; [exact K|].
  intros l Hin. now apply (sort_versions_none l v).
Qed.

End StringFacts.

(* ===================================================================== *)
(** ** Further properties: discovery and the top level *)
(* ===================================================================== *)

Section Discovery.

Context {Blob World : Type}.
Variable handle : forall X : Type, call Blob X -> World -> reply X * World.

Lemma collect_versions_run (versions_to_upload todo acc : list string) (w : World) :
  NoDup acc -> Forall (fun v => Discovery.selected versions_to_upload v = true) acc ->
  let run := collect_versions handle versions_to_upload todo acc w in
  forallb is_graph_query (events_of run) = true /\
  match outcome_of run with
  | Ok found =>
      channels_queried (events_of run) = map (String.append "stable-") todo /\
      NoDup found /\
      Forall (fun v => Discovery.selected versions_to_upload v = true) found
  | Raise e =>
      (exists what, e = LibraryError what) /\
      exists n, n < List.length todo /\
        channels_queried (events_of run) = map (String.append "stable-") (firstn (S n) todo)
  | OutOfFuel => False
  end.
Proof.
  cbv zeta. revert acc w. induction todo as [|i rest IH]; intros acc w Hnd Hsel.
  - cbn. auto.
  - cbn [collect_versions]. unfold bind, perform_top.
    destruct (handle _ (upgrades_graph ("stable-" +:+ i)) w) as [[nodes|what] w1] eqn:Hh.
    + destruct (collect_nodes_facts versions_to_upload nodes acc) as (_ & Hin & Hnd').
      specialize (IH (Discovery.collect_nodes versions_to_upload nodes acc) w1 (Hnd' Hnd)).
      destruct (collect_versions handle versions_to_upload rest
                  (Discovery.collect_nodes versions_to_upload nodes acc) w1)
        as [[r s2] t2].
      unfold outcome_of, events_of in *. cbn [fst snd] in *.
      destruct IH as [Hq Hr].
      { rewrite Forall_forall in *. intros v Hv%list_elem_of_In%Hin.
        destruct Hv as [Hv|[_ Hv]]; [|exact Hv]. now apply Hsel, list_elem_of_In. }
      split; [cbn; exact Hq|].
      destruct r as [found|e|].
      * destruct Hr as (Hc & Hr). split; [cbn; now rewrite Hc|exact Hr].
      * destruct Hr as (Hw & n & Hn & Hc). split; [exact Hw|].
        exists (S n). split; [cbn; lia|]. cbn [app channels_queried]. rewrite Hc. reflexivity.
      * exact Hr.
    + unfold outcome_of, events_of. cbn. split; [reflexivity|]. split; [eauto|].
      exists 0. split; [lia|reflexivity].
Qed.


(** X6: the discovery loop of lines 288-304, in any environment.  It makes
    no call but queries of the upgrade graph.  When all of them are
    answered, the channels [stable-<i>] were queried once each in the order
    of the arguments, and the versions found are without duplicates and all
    pass the filter.  Otherwise it raises what the library raised, at the
    first query that failed, after querying the channels before it. *)
Theorem discovery_queries_each_channel_in_turn (versions_to_upload : list string) (w : World) :
  let run := collect_versions handle versions_to_upload versions_to_upload [] w in
  forallb is_graph_query (events_of run) = true /\
  match outcome_of run with
  | Ok found =>
      channels_queried (events_of run) = map (String.append "stable-") versions_to_upload /\
      NoDup found /\
      Forall (fun v => Discovery.selected versions_to_upload v = true) found
  | Raise e =>
      (exists what, e = LibraryError what) /\
      exists n, n < List.length versions_to_upload /\
        channels_queried (events_of run)
        = map (String.append "stable-") (firstn (S n) versions_to_upload)
  | OutOfFuel => False
  end.
Proof. apply collect_versions_run; constructor. Qed.

Lemma process_versions_never_raises fuel (openshift_versions : list string) (w : World) e :
  outcome_of (process_versions handle fuel openshift_versions w) <> Raise e.
Proof.
  revert w. induction openshift_versions as [|v rest IH]; intros w; [discriminate|].
  cbn [process_versions]. unfold bind at 1. unfold logger_info at 1. cbv beta iota.
  unfold bind at 1. unfold try_except, bind, on_object, ret, logger_error.
  destruct (register_image handle fuel (mkState (__init__ v "io-rhdt-govcloud-vmimport") w))
    as [[[img|e'|] s1] t1]; cbv beta iota.
  - specialize (IH (world s1)).
    destruct (process_versions handle fuel rest (world s1)) as [[r2 w2] t2]. exact IH.
  - specialize (IH (world s1)).
    destruct (process_versions handle fuel rest (world s1)) as [[r2 w2] t2]. exact IH.
  - discriminate.
Qed.

Lemma graph_queries_process_nothing (t : list (event Blob)) :
  forallb is_graph_query t = true -> processed t = [].
Proof.
  induction t as [|e t IH]; [reflexivity|]. cbn [forallb].
  intros [He Ht]%andb_prop. destruct e as [X c r|l]; [|discriminate].
  cbn [processed]. now apply IH.
Qed.

(** X7: the script fails only before it processes a version: when a query
    of the upgrade graph failed, with the exception of the library, or when
    the sort of line 306 raised [ValueError], which happens exactly when a
    version found has no key.  Either way it ends in the world and with the
    trace of the discovery, no version was announced, and the exit status
    is 1.  A [ValueError] means that a version which passed the filter has
    a part of more digits than [int()] accepts. *)
Theorem main_fails_only_before_processing
    (fuel : nat) (versions_to_upload : list string) (w : World) :
  let found := collect_versions handle versions_to_upload versions_to_upload [] w in
  let run := main handle fuel versions_to_upload w in
  (forall e, outcome_of run = Raise e <->
     (outcome_of found = Raise e /\ exists what, e = LibraryError what) \/
     (e = ValueError_int /\
      exists vs, outcome_of found = Ok vs /\ Discovery.sort_versions vs = None)) /\
  (forall e, outcome_of run = Raise e ->
     state_of run = state_of found /\ events_of run = events_of found /\
     processed (events_of run) = [] /\
     exit_status (outcome_of run) = Some 1%Z) /\
  (outcome_of run = Raise ValueError_int ->
     exists vs v, outcome_of found = Ok vs /\ In v vs /\
       Discovery.selected versions_to_upload v = true /\ parts_fit v = false).
Proof.
  cbv zeta.
  pose proof (collect_versions_run versions_to_upload versions_to_upload [] w
                (NoDup_nil_2) (Forall_nil_2 _)) as H.
  cbv zeta in H. unfold main, bind.
  destruct (collect_versions handle versions_to_upload versions_to_upload [] w)
    as [[[found|e0|] w1] t1]; unfold outcome_of, state_of, events_of in *; cbn [fst snd] in *.
  - destruct H as (Hq & _ & _ & Hsel).
    destruct (Discovery.sort_versions found) as [sorted|] eqn:Es.
    + pose proof (process_versions_never_raises fuel sorted w1) as Hp.
      unfold outcome_of in Hp.
      destruct (process_versions handle fuel sorted w1) as [[r2 w2] t2]. cbn [fst snd] in *.
      split; [|split].
      * intros e. split; [intros E; now destruct (Hp e)|].
        intros [[[=] _]|[_ (vs & Hvs & Hn)]]. injection Hvs as <-. congruence.
      * intros e E. now destruct (Hp e).
      * intros E. now destruct (Hp ValueError_int).
    + unfold raise. cbn [fst snd]. rewrite app_nil_r. split; [|split].
      * intros e. split.
        -- intros [= <-]. right. split; [reflexivity|]. now exists found.
        -- intros [[[=] _]|[-> _]]. reflexivity.
      * intros e _. repeat split. now apply graph_queries_process_nothing.
      * intros _. unfold Discovery.sort_versions in Es.
        destruct (Discovery.keyed found) as [kl|] eqn:Ek; [discriminate|].
        destruct (keyed_none found Ek) as (v & Hin & Hv).
        exists found, v. split; [reflexivity|]. split; [exact Hin|].
        rewrite Forall_forall in Hsel.
        assert (Sv : Discovery.selected versions_to_upload v = true).
        { apply Hsel. now apply list_elem_of_In. }
        split; [exact Sv|].
        pose proof (sort_key_release v (selected_release _ _ Sv)) as K.
        destruct (parts_fit v); [|reflexivity].
        destruct K as (a & b & c & K & _). congruence.
  - destruct H as (Hq & (what & ->) & _).
    split; [|split].
    + intros e. split.
      * intros [= <-]. left. split; [reflexivity|eauto].
      * intros [[[= <-] _]|[_ (vs & [=] & _)]]. reflexivity.
    + intros e [= <-]. repeat split. now apply graph_queries_process_nothing.
    + discriminate.
  - destruct H as [_ []].
Qed.

End Discovery.

(* ===================================================================== *)
(** ** The discoverer on the four nodes of the spec, and its order *)
(* ===================================================================== *)


Section Orchestrator.

Context {Blob World : Type}.
Variable handle : forall X : Type, call Blob X -> World -> reply X * World.


End Orchestrator.

(* ===================================================================== *)
(** ** Further properties: the methods in any environment *)
(* ===================================================================== *)

Section Methods.

Context {Blob World : Type}.
Variable handle : forall X : Type, call Blob X -> World -> reply X * World.

(** The first branch of [download_rhcos]. *)
Lemma download_rhcos_skips (s : state World) p s1 t1 w2 :
  rhcos_path handle s = (Ok p, s1, t1) ->
  handle _ (os_path_exists p) (world s1) = (Reply true, w2) ->
  download_rhcos handle s
  = (Ok tt, mkState (self s1) w2,
     t1 ++ [Called (os_path_exists p) (Reply true);
            Logged (INFO ("Skipping download because " +:+ p +:+ " already exists"))]) /\
  Forall (fun e => level e <= 0) t1.
Proof.
  intros H1 H2. split; [|exact (events_low 0 _ _ _ _ _ (Tame_rhcos_path handle) H1)].
  pose proof (proj1 (post_eq _ _ _) (rhcos_path_spec handle s) _ _ _ H1) as (_ & _ & Hp).
  destruct (Hp p eq_refl) as [Hpc Hpt].
  unfold download_rhcos.
  erewrite bind_Ok by exact H1.
  erewrite bind_Ok by (apply perform_Reply; exact H2).
  cbv iota.
  erewrite bind_Ok by (apply rhcos_path_cached; [exact Hpc|exact Hpt]).
  reflexivity.
Qed.

(** X8: the first branch of [download_rhcos] (lines 112-114), in any
    environment: when [os.path.exists] answers true for the local path, the
    method returns after that one call and one log line; it does not
    request the artifact and writes no file (the events before the test are
    those of the properties). *)
Theorem download_rhcos_skips_existing_file (s : state World) p s1 t1 w2 :
  rhcos_path handle s = (Ok p, s1, t1) ->
  handle _ (os_path_exists p) (world s1) = (Reply true, w2) ->
  download_rhcos handle s
  = (Ok tt, mkState (self s1) w2,
     t1 ++ [Called (os_path_exists p) (Reply true);
            Logged (INFO ("Skipping download because " +:+ p +:+ " already exists"))]) /\
  Forall (fun e => level e <= 0) t1.
Proof. exact (download_rhcos_skips s p s1 t1 w2). Qed.


Ltac run_step :=
  unfold rhcos_url, rhcos_filename, rhcos_version, data, lazily, bind, get_self, assign, ret,
    raise, logger_info, perform, perform_top;
  cbn [self world version s3_bucket _data _rhcos_filename _rhcos_path _rhcos_url _rhcos_version
       __init__ set_data set_rhcos_filename set_rhcos_path set_rhcos_url set_rhcos_version
       fst snd app id PyStr.fmt].

(** X9: [rhcos_url] on a fresh object, in any environment that answers the
    GET of the release text.  When the text names a version [v], the URL is
    [<base>/rhcos-<major.minor>/<v>/x86_64/rhcos-<v>-aws.x86_64.vmdk.gz],
    the release text, the version, the file name and the URL are cached,
    and the trace is the one GET and one log line.  When the text is not
    empty and names no version, the call raises [TypeError], after logging
    the missing version twice, with the file name [rhcos-None-...]
    cached. *)
Theorem rhcos_url_of_a_fresh_object (version bucket : string) (w : World) r w1 :
  handle _ (requests_get (release_txt_url version)) w = (Reply r, w1) ->
  match PyStr.re_search_machine_os (text r) with
  | Some v =>
      rhcos_url handle (mkState (__init__ version bucket) w)
      = (Ok (artifact_url version v),
         mkState (mkRelease version bucket (Some (text r))
                    (Some ("rhcos-" +:+ v +:+ "-aws.x86_64.vmdk")) None
                    (Some (artifact_url version v)) (Some v)) w1,
         [Called (requests_get (release_txt_url version)) (Reply r);
          Logged (INFO ("RHCOS version " +:+ v))])
  | None =>
      text r <> "" ->
      rhcos_url handle (mkState (__init__ version bucket) w)
      = (Raise TypeError_join,
         mkState (mkRelease version bucket (Some (text r))
                    (Some "rhcos-None-aws.x86_64.vmdk") None None None) w1,
         [Called (requests_get (release_txt_url version)) (Reply r);
          Logged (INFO ("Unable to find RHCOS version for " +:+ version));
          Logged (INFO ("Unable to find RHCOS version for " +:+ version))])
  end.
Proof.
  intros Hh. destruct (PyStr.re_search_machine_os (text r)) as [v|] eqn:Hre.
  - pose proof (re_search_machine_os_truthy _ _ Hre) as Hv.
    run_step. rewrite Hh. cbn [fst snd text app]. rewrite Hre. run_step. rewrite Hv.
    cbn [fst snd app]. unfold PyStr.join. cbn [String.concat].
    change (PyStr.fmt (Some v)) with v.
    assert (E : base_url +:+ "/" +:+ ("rhcos-" +:+ PyStr.major_minor version) +:+ "/" +:+ v
                +:+ "/" +:+ "x86_64" +:+ "/" +:+ ("rhcos-" +:+ v +:+ "-aws.x86_64.vmdk") +:+ ".gz"
                = artifact_url version v).
    { unfold artifact_url. rewrite !append_assoc. reflexivity. }
    rewrite E. reflexivity.
  - intros Hd. apply truthy_not_empty in Hd.
    run_step. rewrite Hh. cbn [fst snd text app]. rewrite Hre. run_step. rewrite Hd, Hre.
    reflexivity.
Qed.


(** *** How long the poll loop may last *)

Lemma count_events_app (p : event Blob -> bool) t1 t2 :
  count_events p (t1 ++ t2) = count_events p t1 + count_events p t2.
Proof. unfold count_events. now rewrite List.filter_app, List.length_app. Qed.

Lemma quiet_within (t : list (event Blob)) : quiet t -> within 0 0 t.
Proof.
  intros H. split; [|rewrite (quiet_slept _ H); lia].
  induction H as [|e t [He _] _ IH]; [reflexivity|].
  unfold count_events in *. cbn [List.filter]. now rewrite He.
Qed.

Lemma within_app n1 k1 n2 k2 (t1 t2 : list (event Blob)) :
  within n1 k1 t1 -> within n2 k2 t2 -> within (n1 + n2) (k1 + k2) (t1 ++ t2).
Proof.
  intros [H1 H2] [H3 H4]. split; [rewrite count_events_app; lia|rewrite slept_app; lia].
Qed.

Lemma within_le n k n' k' (t : list (event Blob)) :
  within n k t -> n <= n' -> (k <= k')%Z -> within n' k' t.
Proof. intros [H1 H2] Hn Hk. split; lia. Qed.

Lemma Within_bind {A B} n1 k1 n2 k2 (m : M Blob (state World) A)
    (f : A -> M Blob (state World) B) :
  (0 <= k2)%Z ->
  Within n1 k1 m -> (forall a, Within n2 k2 (f a)) -> Within (n1 + n2) (k1 + k2) (bind m f).
Proof.
  intros Hk Hm Hf s. specialize (Hm s). unfold bind, events_of in *.
  destruct (m s) as [[[a|e|] s1] t1]; cbn [snd] in *.
  - specialize (Hf a s1). unfold events_of in Hf.
    destruct (f a s1) as [[r2 s2] t2]. cbn [snd] in *. now apply within_app.
  - apply (within_le n1 k1); [exact Hm|lia|lia].
  - apply (within_le n1 k1); [exact Hm|lia|lia].
Qed.

Lemma Within_le {A} n k n' k' (m : M Blob (state World) A) :
  Within n k m -> n <= n' -> (k <= k')%Z -> Within n' k' m.
Proof. intros H Hn Hk s. now apply (within_le n k). Qed.

Lemma Within_Tame {A} (m : M Blob (state World) A) : Tame 2 m -> Within 0 0 m.
Proof. intros H s. apply quiet_within, level_quiet, H. Qed.

Lemma Within_quiet_perform {X} (c : call Blob X) :
  (forall r, is_poll (Called c r) = false /\ seconds (Called c r) = 0%Z) ->
  Within 0 0 (perform handle c).
Proof. intros H s. now apply quiet_within, quiet_perform. Qed.

Lemma Within_logger_info msg : Within (Blob:=Blob) (World:=World) 0 0 (logger_info msg).
Proof. intros s. apply quiet_within. repeat constructor. Qed.

Lemma Within_ret {A} (a : A) : Within (Blob:=Blob) (World:=World) 0 0 (ret a).
Proof. intros s. apply quiet_within. constructor. Qed.

Lemma Within_raise {A} e : Within (Blob:=Blob) (World:=World) (A:=A) 0 0 (raise e).
Proof. intros s. apply quiet_within. constructor. Qed.

Lemma Within_get_self : Within (Blob:=Blob) (World:=World) 0 0 get_self.
Proof. intros s. apply quiet_within. constructor. Qed.

Lemma Within_poll id : Within 1 0 (perform handle (ec2_describe_import_snapshot_tasks id)).
Proof.
  intros s. unfold perform, perform_top, events_of.
  destruct (handle _ _ (world s)) as [[x|what] w']; cbn; split; cbn; lia.
Qed.

Lemma Within_sleep : Within 0 10 (perform handle (time_sleep 10)).
Proof.
  intros s. unfold perform, perform_top, events_of.
  destruct (handle _ _ (world s)) as [[x|what] w']; cbn; split; cbn; lia.
Qed.

Ltac within_quiet :=
  repeat first
    [ apply Within_ret | apply Within_raise | apply Within_get_self | apply Within_logger_info
    | apply Within_Tame, (Tame_le 0 2); [lia|];
      first [apply Tame_rhcos_version | apply Tame_rhcos_filename]
    | apply Within_Tame, Tame_upload_rhcos
    | apply Within_quiet_perform; now intros
    | apply (Within_bind 0 0 0 0); [lia| |intros ?] ].

(** With [n] rounds left before [time_elapsed] passes 300, the loop polls at
    most [n] times and sleeps at most [10 * n] seconds. *)
Lemma Within_poll_import_task fuel (n : nat) id te :
  1 <= n -> (310 <= te + 10 * Z.of_nat n)%Z ->
  Within n (10 * Z.of_nat n) (poll_import_task handle fuel id te).
Proof.
  revert n te. induction fuel as [|fuel IH]; intros n te Hn Hte; cbn [poll_import_task].
  - intros s. split; cbn; lia.
  - apply (Within_le (0 + (1 + (n - 1))) (0 + (0 + 10 * Z.of_nat n))); [|lia|lia].
    apply Within_bind; [lia|apply Within_logger_info|intros _].
    apply Within_bind; [lia|apply Within_poll|intros d].
    destruct (String.eqb (Status d) "completed").
    + apply (Within_le 0 0); [|lia|lia]. within_quiet.
    + apply (Within_le (0 + (0 + (n - 1))) (0 + (10 + (10 * Z.of_nat n - 10)))); [|lia|lia].
      apply Within_bind; [lia|apply Within_logger_info|intros _]. cbv zeta.
      apply Within_bind; [lia|apply Within_sleep|intros _].
      destruct (60 * 5 <? te + 10)%Z eqn:E.
      * apply (Within_le 0 0); [apply Within_raise|lia|lia].
      * apply Z.ltb_ge in E.
        apply (Within_le (n - 1) (10 * Z.of_nat (n - 1))); [apply IH; lia|lia|lia].
Qed.

Lemma Within_import_snapshot fuel : Within 31 310 (import_snapshot handle fuel).
Proof.
  unfold import_snapshot.
  apply (Within_le (0 + (0 + (0 + (0 + (0 + 31))))) (0 + (0 + (0 + (0 + (0 + 310))))));
    [|lia|lia].
  apply Within_bind; [lia|within_quiet|intros _].
  apply Within_bind; [lia|within_quiet|intros v]. cbv zeta.
  apply Within_bind; [lia|within_quiet|intros _].
  apply Within_bind; [lia|within_quiet|intros v'].
  apply Within_bind; [lia|within_quiet|intros l].
  destruct l as [|snapshot_id l].
  - apply (Within_le (0 + (0 + (0 + (0 + (0 + 31))))) (0 + (0 + (0 + (0 + (0 + 310))))));
      [|lia|lia].
    apply Within_bind; [lia|within_quiet|intros o].
    apply Within_bind; [lia|within_quiet|intros f].
    apply Within_bind; [lia|within_quiet|intros _].
    apply Within_bind; [lia|within_quiet|intros f'].
    apply Within_bind; [lia|within_quiet|intros id].
    apply (Within_poll_import_task fuel 31); lia.
  - apply (Within_le 0 0); [within_quiet|lia|lia].
Qed.

Lemma Within_register_image fuel : Within 31 310 (register_image handle fuel).
Proof.
  unfold register_image.
  apply (Within_le (31 + 0) (310 + 0)); [|lia|lia].
  apply Within_bind; [lia|apply Within_import_snapshot|intros sid].
  apply (Within_bind 0 0 0 0); [lia|within_quiet|intros _].
  apply (Within_bind 0 0 0 0); [lia|within_quiet|intros v].
  apply (Within_bind 0 0 0 0); [lia|within_quiet|intros l].
  destruct l as [|image_id l]; within_quiet.
Qed.

(** X10: whatever the environment answers, a run of [import_snapshot] or of
    [register_image] polls the import task at most 31 times and sleeps at
    most 310 seconds; and 31 rounds of the loop are always enough for the
    run to end. *)
Theorem import_snapshot_polls_at_most_31_times (fuel : nat) (s : state World) :
  within 31 310 (events_of (import_snapshot handle fuel s)) /\
  within 31 310 (events_of (register_image handle fuel s)) /\
  (31 <= fuel ->
   outcome_of (import_snapshot handle fuel s) <> OutOfFuel /\
   outcome_of (register_image handle fuel s) <> OutOfFuel).
Proof.
  split; [apply Within_import_snapshot|]. split; [apply Within_register_image|].
  intros Hfuel. split.
  - apply (Halts_import_snapshot handle fuel Hfuel).
  - apply (Halts_register_image handle fuel Hfuel).
Qed.

(** *** What the loop returns *)

Lemma last_poll_app (t1 t2 : list (event Blob)) :
  last_poll (t1 ++ t2)
  = match last_poll t2 with Some d => Some d | None => last_poll t1 end.
Proof.
  induction t1 as [|e t1 IH]; [cbn [app]; now destruct (last_poll t2)|].
  destruct e as [X c r|l]; cbn [app last_poll]; rewrite IH; [|reflexivity].
  destruct (last_poll t2); reflexivity.
Qed.

Lemma quiet_last_poll (t : list (event Blob)) : quiet t -> last_poll t = None.
Proof.
  induction 1 as [|e t [He _] _ IH]; [reflexivity|].
  destruct e as [X c r|l]; cbn [last_poll]; rewrite IH; [|reflexivity].
  destruct c; try reflexivity. discriminate He.
Qed.

Lemma quiet_count (t : list (event Blob)) : quiet t -> count_events is_poll t = 0.
Proof. intros H. destruct (quiet_within t H) as [G _]. lia. Qed.

Lemma quiet_slept_before_poll (t1 t2 : list (event Blob)) :
  quiet t1 -> slept_before_poll (t1 ++ t2) = slept_before_poll t2.
Proof.
  induction 1 as [|e t [He Hs] _ IH]; [reflexivity|].
  destruct e as [X c r|l]; cbn [app slept_before_poll]; [|exact IH].
  destruct c; try exact IH; [discriminate He|].
  destruct r; [|exact IH]. cbn in Hs. rewrite IH. lia.
Qed.

Lemma completed_after_quiet sid (t1 t2 : list (event Blob)) :
  quiet t1 -> completed_as sid t2 -> completed_as sid (t1 ++ t2).
Proof.
  intros Hq (d & tag & H1 & H2 & H3 & H4 & H5 & H6 & H7 & H8). exists d, tag.
  split; [now rewrite last_poll_app, H1|]. split; [exact H2|]. split; [exact H3|].
  split; [rewrite existsb_app, H4; apply orb_true_r|].
  rewrite count_events_app, (quiet_count _ Hq), slept_app, (quiet_slept _ Hq). cbn [Nat.add].
  split; [exact H5|]. split; [lia|].
  split; [now rewrite quiet_slept_before_poll|now rewrite quiet_waits].
Qed.

Lemma opt_eqb_refl a : Sim.opt_eqb a a = true.
Proof. destruct a as [x|]; [apply String.eqb_refl|reflexivity]. Qed.

Lemma completed_now sid id d tag (q : list (event Blob)) :
  quiet q -> existsb (is_tag_of sid tag) q = true ->
  Status d = "completed" -> SnapshotId d = sid ->
  completed_as sid (Called (ec2_describe_import_snapshot_tasks id) (Reply d) :: q).
Proof.
  intros Hq Ht H1 H2. exists d, tag. cbn [last_poll]. rewrite (quiet_last_poll _ Hq).
  split; [reflexivity|]. split; [exact H1|]. split; [exact H2|].
  split; [cbn [existsb]; rewrite Ht; apply orb_true_r|].
  pose proof (quiet_slept_before_poll q [] Hq) as Hb. rewrite app_nil_r in Hb.
  pose proof (quiet_waits q [] Hq) as Hw. rewrite app_nil_r in Hw.
  cbn [waits is_poll slept_before_poll]. rewrite Hb, Hw.
  unfold count_events. cbn [List.filter is_poll List.length].
  fold (count_events is_poll q). rewrite (quiet_count _ Hq), slept_cons, (quiet_slept _ Hq).
  cbn [seconds]. repeat split; lia.
Qed.

Lemma completed_later sid id d msg (t : list (event Blob)) :
  completed_as sid t ->
  completed_as sid (Called (ec2_describe_import_snapshot_tasks id) (Reply d)
                    :: Logged (INFO msg) :: Called (time_sleep 10) (Reply tt) :: t).
Proof.
  intros (d' & tag & H1 & H2 & H3 & H4 & H5 & H6 & H7 & H8). exists d', tag.
  cbn [last_poll]. rewrite H1.
  split; [reflexivity|]. split; [exact H2|]. split; [exact H3|].
  split; [cbn [existsb is_tag_of]; rewrite H4; reflexivity|].
  cbn [waits is_poll slept_before_poll]. rewrite H7, H8.
  unfold count_events in *. cbn [List.filter is_poll List.length].
  rewrite !slept_cons. cbn [seconds]. split; [lia|]. split; [lia|]. split; [reflexivity|].
  destruct (List.length (List.filter is_poll t)) as [|n]; [lia|].
  cbn [Nat.sub]. rewrite Nat.sub_0_r. reflexivity.
Qed.

Lemma poll_import_task_completed fuel id te (s : state World) :
  post (poll_import_task handle fuel id te) s (fun r _ t =>
    forall sid, r = Ok sid -> completed_as sid t).
Proof.
  revert te s. induction fuel as [|fuel IH]; intros te s; cbn [poll_import_task].
  - intros sid [=].
  - apply post_bind, post_logger_info. cbv beta iota.
    apply post_bind, post_perform; [intros d w1 _|intros; discriminate].
    cbv beta iota.
    destruct (String.eqb (Status d) "completed") eqn:Hst.
    + apply String.eqb_eq in Hst.
      apply post_bind, post_logger_info. cbv beta iota.
      apply post_bind. unfold post at 1.
      pose proof (events_low 0 _ _ _ _ _ (Tame_rhcos_version handle)
                    (run_eta (rhcos_version handle (mkState (self s) w1)))) as Hl2.
      destruct (outcome_of (rhcos_version handle (mkState (self s) w1))) as [v2|e|];
        [|intros; discriminate..].
      apply post_bind, post_logger_info. cbv beta iota.
      apply post_bind. unfold post at 1.
      set (s2 := state_of (rhcos_version handle (mkState (self s) w1))) in *.
      pose proof (events_low 0 _ _ _ _ _ (Tame_rhcos_version handle)
                    (run_eta (rhcos_version handle s2))) as Hl3.
      destruct (outcome_of (rhcos_version handle s2)) as [v3|e|];
        [|intros; discriminate..].
      apply post_bind, post_perform; [intros [] w4 _|intros; discriminate].
      apply post_ret. intros sid [= <-].
      apply (completed_after_quiet _ [Logged _]); [repeat constructor|].
      cbn [app].
      apply (completed_now _ _ _ v3); [| |exact Hst|reflexivity].
      * constructor; [now split|]. apply quiet_app.
        { apply level_quiet. eapply Forall_impl; [exact Hl2|]. cbv beta. intros. lia. }
        constructor; [now split|]. apply quiet_app.
        { apply level_quiet. eapply Forall_impl; [exact Hl3|]. cbv beta. intros. lia. }
        repeat constructor.
      * cbn [existsb is_tag_of]. rewrite existsb_app. cbn [existsb is_tag_of].
        rewrite existsb_app. cbn [existsb is_tag_of].
        rewrite String.eqb_refl, opt_eqb_refl. cbn [andb orb]. now rewrite !orb_true_r.
    + apply post_bind, post_logger_info. cbv beta iota zeta.
      apply post_bind, post_perform; [intros [] w2 _|intros; discriminate].
      destruct (60 * 5 <? te + 10)%Z; [intros sid [=]|].
      eapply post_weaken; [apply IH|]. cbv beta. intros r s1 t Ht sid ->.
      apply (completed_after_quiet _ [Logged _]); [repeat constructor|].
      cbn [app]. apply completed_later. now apply Ht.
Qed.

(** X17: in any environment, when [import_snapshot] returns after polling,
    the last answer it got said [completed] and named the snapshot it
    returns, the snapshot was tagged before the return, and ten seconds
    were slept after each poll but the last, none after the last: the waits
    read off the trace are 10, ..., 10, 0, one for each poll. *)
Theorem import_snapshot_returns_the_completed_snapshot fuel (s : state World) sid s1 t :
  import_snapshot handle fuel s = (Ok sid, s1, t) ->
  existsb is_poll t = true ->
  exists d tag,
    last_poll t = Some d /\ Status d = "completed" /\ SnapshotId d = sid /\
    existsb (is_tag_of sid tag) t = true /\
    1 <= count_events is_poll t <= 31 /\
    slept t = (10 * (Z.of_nat (count_events is_poll t) - 1))%Z /\
    waits t = repeat 10%Z (count_events is_poll t - 1) ++ [0%Z].
Proof.
  intros Hrun Hpoll.
  assert (H : post (import_snapshot handle fuel) s (fun r _ t =>
                forall sid, r = Ok sid -> existsb is_poll t = true -> completed_as sid t)).
  { unfold import_snapshot.
    assert (Q : forall A (m : M Blob (state World) A) (f : A -> M Blob (state World) string) s0,
              quiet (events_of (m s0)) ->
              (forall a s', post (f a) s' (fun r _ t =>
                 forall sid, r = Ok sid -> existsb is_poll t = true -> completed_as sid t)) ->
              post (bind m f) s0 (fun r _ t =>
                 forall sid, r = Ok sid -> existsb is_poll t = true -> completed_as sid t)).
    { intros A m f s0 Hq Hf. apply post_bind. unfold post at 1.
      destruct (outcome_of (m s0)) as [a|e|]; [|intros; discriminate..].
      eapply post_weaken; [apply Hf|]. cbv beta. intros r s' t' Ht sid' -> Hp.
      apply completed_after_quiet; [exact Hq|]. apply Ht; [reflexivity|].
      rewrite existsb_app in Hp. apply orb_prop in Hp as [Hp|Hp]; [|exact Hp].
      exfalso. clear -Hq Hp. induction Hq as [|e t [He _] _ IH]; [discriminate|].
      cbn [existsb] in Hp. rewrite He in Hp. now apply IH. }
    apply Q; [apply quiet_Tame, Tame_upload_rhcos|intros _ s2].
    apply Q; [apply quiet_Tame, (Tame_le 0 2), Tame_rhcos_version; lia|intros v s3]. cbv zeta.
    apply Q; [apply quiet_perform; now intros|intros _ s4].
    apply Q; [apply quiet_Tame, (Tame_le 0 2), Tame_rhcos_version; lia|intros v' s5].
    apply Q; [apply quiet_perform; now intros|intros l s6].
    destruct l as [|snapshot_id l].
    - apply Q; [apply quiet_nil|intros o s7].
      apply Q; [apply quiet_Tame, (Tame_le 0 2), Tame_rhcos_filename; lia|intros f s8].
      apply Q; [repeat constructor|intros _ s9].
      apply Q; [apply quiet_Tame, (Tame_le 0 2), Tame_rhcos_filename; lia|intros f' s10].
      apply Q; [apply quiet_perform; now intros|intros id s11].
      eapply post_weaken; [apply poll_import_task_completed|]. cbv beta. auto.
    - apply Q; [repeat constructor|intros _ s7].
      apply post_ret. intros sid' _ [=]. }
  pose proof (proj1 (post_eq _ _ _) H _ _ _ Hrun sid eq_refl Hpoll)
    as (d & tag & H1 & H2 & H3 & H4 & H5 & H6 & _ & H8).
  exists d, tag. repeat split; try assumption.
  pose proof (Within_import_snapshot fuel s) as [G _].
  rewrite Hrun in G. exact G.
Qed.

End Methods.

(* ===================================================================== *)
(** ** Further properties: the pipeline on the simulated account *)
(* ===================================================================== *)

(** *** The fetcher on the simulated disk, past the size check *)

Lemma sim_download_fetches (o : OpenShiftRelease) (w : Sim.World) p s1 t1 u s2 t2 r :
  rhcos_path Sim.handle (mkState o w) = (Ok p, s1, t1) ->
  Sim.files w !! p = None ->
  rhcos_url Sim.handle s1 = (Ok u, s2, t2) ->
  Sim.http w !! u = Some r ->
  let gz := p +:+ ".gz" in
  let size := Sim.blob_len (content r) in
  let w3 := Sim.set_files (<[gz := content r]> (<[gz := Sim.mkBlob 0 None]> (Sim.files w))) w in
  let tail :=
    bind (logger_info ("Unpacking " +:+ gz)) (fun _ =>
    bind (perform Sim.handle (gzip_open_rb gz)) (fun _ =>
    bind (rhcos_path Sim.handle) (fun p =>
    bind (perform Sim.handle (open_wb p)) (fun _ =>
    bind (perform Sim.handle (shutil_copyfileobj gz p)) (fun _ =>
    perform Sim.handle (os_remove gz)))))) in
  _rhcos_path (self s2) = Some p /\ PyStr.truthy p = true /\
  download_rhcos Sim.handle (mkState o w)
  = (let '(r', s', t') :=
       (if (size <? 100 * 1024 * 1024)%Z
        then raise (RuntimeError_size size) else tail) (mkState (self s2) w3) in
     (r', s',
      t1 ++ [Called (os_path_exists p) (Reply false)] ++ t2 ++
      [Logged (INFO ("Downloading " +:+ u))] ++ [] ++
      [Called (requests_get u) (Reply r)] ++ [] ++
      [Called (open_wb gz) (Reply tt)] ++ [Logged (INFO ("Saving " +:+ gz))] ++
      [Called (file_write gz (content r)) (Reply tt)] ++
      [Called (os_path_getsize gz) (Reply size)] ++ t')).
Proof.
  intros H1 H2 H3 H4 gz size w3 tail.
  pose proof (still_run _ _ _ _ _ Still_rhcos_path H1) as E1. cbn [world] in E1.
  destruct s1 as [o1 w1]. injection E1 as ->.
  pose proof (still_run _ _ _ _ _ Still_rhcos_url H3) as E2. cbn [world] in E2.
  destruct s2 as [o2 w2]. injection E2 as ->. cbn [self] in *.
  pose proof (proj1 (post_eq _ _ _) (rhcos_path_spec Sim.handle _) _ _ _ H1)
    as (_ & _ & Hp).
  destruct (Hp p eq_refl) as [Hpc Hpt]. cbn [self] in Hpc.
  pose proof (proj1 (post_eq _ _ _) (rhcos_url_spec Sim.handle _) _ _ _ H3)
    as (_ & Hframe & Hu).
  destruct (Hu u eq_refl) as [Huc Hut]. cbn [self] in Huc, Hframe.
  rewrite Hpc in Hframe.
  split; [exact Hframe|]. split; [exact Hpt|].
  unfold download_rhcos.
  erewrite bind_Ok by exact H1.
  erewrite bind_Ok.
  2:{ apply perform_Reply. cbn. rewrite H2. reflexivity. }
  cbv iota. cbn [self world].
  erewrite bind_Ok by exact H3.
  erewrite bind_Ok by reflexivity.
  erewrite bind_Ok by (apply rhcos_url_cached; [exact Huc|exact Hut]).
  erewrite bind_Ok.
  2:{ apply perform_Reply. cbn. rewrite H4. reflexivity. }
  cbn [self world].
  erewrite bind_Ok by (apply rhcos_path_cached; [exact Hframe|exact Hpt]).
  cbv zeta. fold gz.
  erewrite bind_Ok by (apply perform_Reply; reflexivity).
  erewrite bind_Ok by reflexivity. cbn [self world].
  erewrite bind_Ok.
  2:{ apply perform_Reply. cbn [Sim.handle world Sim.files Sim.set_files].
      rewrite lookup_insert_eq. reflexivity. }
  cbn [self world].
  erewrite bind_Ok.
  2:{ apply perform_Reply. cbn [Sim.handle world Sim.files Sim.set_files].
      rewrite lookup_insert_eq. reflexivity. }
  cbn [self world]. rewrite size_check. fold size. fold tail.
  change (Sim.set_files _ (Sim.set_files _ w)) with w3.
  destruct ((if (size <? 100 * 1024 * 1024)%Z then raise (RuntimeError_size size) else tail)
              (mkState o2 w3)) as [[r' s'] t'].
  reflexivity.
Qed.

(** X11: [download_rhcos] past the size check, on the simulated disk, when
    no file is at the local path and the archive has at least 100 MiB.  The
    run changes nothing but the local path and the archive path.  A gzip
    stream is unpacked at the local path and the archive is removed.  A
    body that is no gzip stream makes the call raise and leaves the archive
    and the empty file it had created at the local path; every later call
    that resolves to the same path then takes the first branch and returns
    without a download. *)
Theorem download_rhcos_unpacks_or_leaves_debris
    (o : OpenShiftRelease) (w : Sim.World) p s1 t1 u s2 t2 r :
  rhcos_path Sim.handle (mkState o w) = (Ok p, s1, t1) ->
  Sim.files w !! p = None ->
  rhcos_url Sim.handle s1 = (Ok u, s2, t2) ->
  Sim.http w !! u = Some r ->
  (100 * 1024 * 1024 <= Sim.blob_len (content r))%Z ->
  let run := download_rhcos Sim.handle (mkState o w) in
  let disk := Sim.files (world (state_of run)) in
  only_files w (world (state_of run)) /\
  (forall q, q <> p -> q <> p +:+ ".gz" -> disk !! q = Sim.files w !! q) /\
  match Sim.gunzipped (content r) with
  | Some n =>
      outcome_of run = Ok tt /\
      disk !! p = Some (Sim.mkBlob n None) /\ disk !! (p +:+ ".gz") = None
  | None =>
      outcome_of run = Raise (LibraryError "BadGzipFile") /\
      disk !! p = Some (Sim.mkBlob 0 None) /\ disk !! (p +:+ ".gz") = Some (content r) /\
      forall o' s3 t3,
        rhcos_path Sim.handle (mkState o' (world (state_of run))) = (Ok p, s3, t3) ->
        download_rhcos Sim.handle (mkState o' (world (state_of run)))
        = (Ok tt, s3,
           t3 ++ [Called (os_path_exists p) (Reply true);
                  Logged (INFO ("Skipping download because " +:+ p +:+ " already exists"))])
  end.
Proof.
  intros H1 H2 H3 H4 Hsize run disk.
  destruct (sim_download_fetches o w p s1 t1 u s2 t2 r H1 H2 H3 H4) as (Hpc & Hpt & Hrun).
  cbv zeta in Hrun.
  assert (Hgz : p +:+ ".gz" <> p) by (apply append_neq; discriminate).
  set (gz := p +:+ ".gz") in *.
  assert ((Sim.blob_len (content r) <? 100 * 1024 * 1024)%Z = false) as E by lia.
  rewrite E in Hrun.
  remember (<[gz := content r]> (<[gz := Sim.mkBlob 0 None]> (Sim.files w))) as f3 eqn:Ef3.
  assert (Hf3 : f3 !! gz = Some (content r)) by (subst f3; now rewrite lookup_insert_eq).
  assert (Hf3' : forall q, q <> gz -> f3 !! q = Sim.files w !! q).
  { intros q Hq. subst f3. now rewrite !lookup_insert_ne by congruence. }
  clear Ef3.
  erewrite bind_Ok in Hrun by reflexivity.
  erewrite bind_Ok in Hrun.
  2:{ apply perform_Reply. cbn [Sim.handle world Sim.files Sim.set_files].
      rewrite Hf3. reflexivity. }
  cbn [self world] in Hrun.
  erewrite bind_Ok in Hrun by (apply rhcos_path_cached; [exact Hpc|exact Hpt]).
  erewrite bind_Ok in Hrun by (apply perform_Reply; reflexivity).
  cbn [self world Sim.handle Sim.files Sim.set_files] in Hrun.
  assert (Hl : <[p := Sim.mkBlob 0 None]> f3 !! gz = Some (content r)).
  { rewrite lookup_insert_ne by congruence. exact Hf3. }
  destruct (Sim.gunzipped (content r)) as [n|] eqn:Hz.
  - erewrite bind_Ok in Hrun.
    2:{ apply perform_Reply. cbn [Sim.handle world Sim.files Sim.set_files].
        rewrite Hl, Hz. reflexivity. }
    cbn [self world Sim.handle Sim.files Sim.set_files] in Hrun.
    erewrite perform_Reply in Hrun.
    2:{ cbn [Sim.handle world Sim.files Sim.set_files].
        rewrite lookup_insert_ne by congruence. rewrite Hl. reflexivity. }
    unfold disk, run. rewrite Hrun. unfold state_of, outcome_of.
    cbn [fst snd world Sim.files Sim.set_files].
    split; [reflexivity|]. split; [|split; [reflexivity|split]].
    + intros q Hq1 Hq2. rewrite lookup_delete_ne by congruence.
      rewrite !lookup_insert_ne by congruence. now apply Hf3'.
    + rewrite lookup_delete_ne by congruence. now rewrite lookup_insert_eq.
    + now rewrite lookup_delete_eq.
  - erewrite bind_Raise in Hrun.
    2:{ apply perform_Failure. cbn [Sim.handle world Sim.files Sim.set_files].
        rewrite Hl, Hz. reflexivity. }
    unfold disk, run. rewrite Hrun. unfold state_of, outcome_of.
    cbn [fst snd world Sim.files Sim.set_files].
    split; [reflexivity|]. split; [|split; [reflexivity|split; [|split]]].
    + intros q Hq1 Hq2. rewrite !lookup_insert_ne by congruence. now apply Hf3'.
    + now rewrite lookup_insert_eq.
    + exact Hl.
    + intros o' s3 t3 Hp'.
      pose proof (still_run _ _ _ _ _ Still_rhcos_path Hp') as E3. cbn [world] in E3.
      destruct (download_rhcos_skips Sim.handle _ p s3 t3 (world s3) Hp')
        as [Hskip _].
      * rewrite E3. cbn [world Sim.handle Sim.files Sim.set_files].
        now rewrite lookup_insert_eq.
      * rewrite Hskip. now destruct s3.
Qed.

(** *** Second runs on the simulated account *)

Lemma state_eta {W} (s : state W) : mkState (self s) (world s) = s.
Proof. now destruct s. Qed.

(** A staged object makes [upload_rhcos] a no-op of three events. *)
Lemma staged_rerun (s1 : state Sim.World) :
  Staged s1 ->
  exists f kc,
    _rhcos_filename (self s1) = Some f /\
    upload_rhcos Sim.handle s1
    = (Ok tt, s1,
       [Called (boto3_client "s3") (Reply tt);
        Called (s3_list_objects_v2 (s3_bucket (self s1)) f) (Reply kc);
        Logged (INFO ("Skipping upload because s3://" +:+ s3_bucket (self s1) +:+ "/"
                      +:+ f +:+ " already exists"))]).
Proof.
  intros (f & Hf & Hft & Hdl & Hk).
  exists f, (Some (Sim.key_count (s3_bucket (self s1)) f (world s1))). split; [exact Hf|].
  rewrite (upload_rhcos_skips Sim.handle s1 (world s1) f s1 []
             (Some (Sim.key_count (s3_bucket (self s1)) f (world s1))) (world s1)).
  - now rewrite state_eta.
  - reflexivity.
  - rewrite state_eta. now apply rhcos_filename_cached.
  - cbn [Sim.handle]. now rewrite Hdl.
  - cbn. now apply Z.ltb_lt.
Qed.

(** A staged object and a tagged snapshot make [import_snapshot] a no-op of
    six events. *)
Lemma imported_rerun fuel (s1 : state Sim.World) :
  Staged s1 -> Imported s1 ->
  exists f kc v sid rest,
    _rhcos_version (self s1) = Some v /\ PyStr.truthy v = true /\
    Sim.snapshots_tagged v (world s1) = sid :: rest /\
    import_snapshot Sim.handle fuel s1
    = (Ok sid, s1,
       [Called (boto3_client "s3") (Reply tt);
        Called (s3_list_objects_v2 (s3_bucket (self s1)) f) (Reply kc);
        Logged (INFO ("Skipping upload because s3://" +:+ s3_bucket (self s1) +:+ "/"
                      +:+ f +:+ " already exists"));
        Called (boto3_client "ec2") (Reply tt);
        Called (ec2_describe_snapshots (Some v)) (Reply (sid :: rest));
        Logged (INFO ("Skipping snapshot creation because " +:+ sid +:+ " already exists"))]).
Proof.
  intros Hst (v & Hv & Hvt & Hden & Htag).
  destruct (staged_rerun s1 Hst) as (f & kc & _ & Hup).
  destruct (Sim.snapshots_tagged v (world s1)) as [|sid rest] eqn:Hsn; [congruence|].
  exists f, kc, v, sid, rest. split; [exact Hv|]. split; [exact Hvt|]. split; [exact Hsn|].
  rewrite (import_snapshot_skips Sim.handle fuel s1 s1 _ (Some v) s1 [] (world s1)
             (Some v) s1 [] sid rest (world s1) Hup).
  - now rewrite state_eta.
  - now apply rhcos_version_cached.
  - reflexivity.
  - rewrite state_eta. now apply rhcos_version_cached.
  - cbn [Sim.handle]. now rewrite Hden, Hsn.
Qed.

(** X12: on the simulated account, after [upload_rhcos] has returned
    normally a second call on the same object returns normally, leaves
    object and world as they are, and consists of three events, none an
    upload or a call of the fetcher. *)
Theorem upload_rhcos_is_idempotent (s : state Sim.World) s1 t :
  upload_rhcos Sim.handle s = (Ok tt, s1, t) ->
  exists t',
    upload_rhcos Sim.handle s1 = (Ok tt, s1, t') /\
    List.length t' = 3 /\ existsb is_upload t' = false /\ existsb is_fetch t' = false.
Proof.
  intros H.
  pose proof (proj1 (post_eq _ _ _) (upload_rhcos_staged s) _ _ _ H eq_refl) as Hst.
  destruct (staged_rerun s1 Hst) as (f & kc & _ & ->).
  eexists. split; [reflexivity|]. repeat split.
Qed.

Lemma post_and {Blob S A} (m : M Blob S A) s (P Q : outcome A -> S -> list (event Blob) -> Prop) :
  post m s P -> post m s Q -> post m s (fun r s1 t => P r s1 t /\ Q r s1 t).
Proof. unfold post. now split. Qed.

(** Tagging a snapshot when no snapshot carries the tag yet puts it at the
    head of the tagged listing. *)
Lemma tag_snapshot_head id v l :
  List.filter (fun s => Sim.opt_eqb (Sim.snap_rhcos_version s) (Some v)) l = [] ->
  exists rest,
    map Sim.snap_id
      (List.filter (fun s => Sim.opt_eqb (Sim.snap_rhcos_version s) (Some v))
         (Sim.tag_snapshot id v l)) = id :: rest.
Proof.
  intros Hnil.
  pose proof (tag_snapshot_tagged id v l) as Hne.
  assert (Hall : Forall (fun s => Sim.snap_id s = id)
                   (List.filter (fun s => Sim.opt_eqb (Sim.snap_rhcos_version s) (Some v))
                      (Sim.tag_snapshot id v l))).
  { rewrite Forall_forall. intros x Hx%list_elem_of_In%filter_In. destruct Hx as [Hx Ht].
    unfold Sim.tag_snapshot in Hx.
    destruct (existsb (fun s => String.eqb (Sim.snap_id s) id) l).
    - apply in_map_iff in Hx as (y & <- & Hy).
      destruct (String.eqb (Sim.snap_id y) id) eqn:E; [reflexivity|].
      assert (Hin : In y (List.filter
                            (fun s => Sim.opt_eqb (Sim.snap_rhcos_version s) (Some v)) l)).
      { apply filter_In. split; [exact Hy|exact Ht]. }
      rewrite Hnil in Hin. destruct Hin.
    - apply in_app_iff in Hx as [Hx|[<-|[]]]; [|reflexivity].
      assert (Hin : In x (List.filter
                            (fun s => Sim.opt_eqb (Sim.snap_rhcos_version s) (Some v)) l)).
      { apply filter_In. now split. }
      rewrite Hnil in Hin. destruct Hin. }
  destruct (List.filter _ (Sim.tag_snapshot id v l)) as [|x rest]; [congruence|].
  apply Forall_cons in Hall as [Hx _]. exists (map Sim.snap_id rest). cbn. now rewrite Hx.
Qed.

(** A poll loop that returns [sid], started when no snapshot carries the
    version, leaves [sid] at the head of the tagged listing. *)
Lemma poll_import_task_head fuel id te (s : state Sim.World) v :
  _rhcos_version (self s) = Some v -> PyStr.truthy v = true ->
  Sim.snapshots_tagged v (world s) = [] ->
  post (poll_import_task Sim.handle fuel id te) s (fun r s1 _ =>
    forall sid, r = Ok sid -> exists rest, Sim.snapshots_tagged v (world s1) = sid :: rest).
Proof.
  revert te s. induction fuel as [|fuel IH]; intros te s Hv Hvt Hnil; cbn [poll_import_task].
  - intros sid [=].
  - apply post_bind, post_logger_info. cbv beta iota.
    apply post_bind, post_perform; [intros d w1 Hh|intros; discriminate].
    assert (Hw1 : w1 = world s).
    { cbn [Sim.handle] in Hh.
      destruct (Sim.is_denied _ (world s)); [congruence|].
      destruct (Sim.find_task id (world s)); congruence. }
    subst w1.
    destruct (String.eqb (Status d) "completed").
    + apply post_bind, post_logger_info. cbv beta iota.
      apply post_bind.
      eapply (post_run _ _ _ _ _ _
                (rhcos_version_cached Sim.handle (mkState (self s) (world s)) v Hv Hvt)).
      cbv beta iota.
      apply post_bind, post_logger_info. cbv beta iota.
      apply post_bind.
      eapply (post_run _ _ _ _ _ _
                (rhcos_version_cached Sim.handle (mkState (self s) (world s)) v Hv Hvt)).
      cbv beta iota.
      apply post_bind, post_perform; [intros [] w4 Hh'|intros; discriminate].
      cbn [Sim.handle world] in Hh'.
      destruct (Sim.is_denied "ec2:CreateTags" (world s)); [discriminate|].
      injection Hh' as <-.
      apply post_ret. intros sid [= <-]. cbn [world].
      unfold Sim.snapshots_tagged in *. cbn [Sim.snapshots Sim.set_snapshots].
      apply tag_snapshot_head. now apply map_eq_nil in Hnil.
    + apply post_bind, post_logger_info. cbv beta iota zeta.
      apply post_bind, post_perform; [intros [] w2 Hh'|intros; discriminate].
      cbn [Sim.handle world] in Hh'. injection Hh' as <-.
      destruct (60 * 5 <? te + 10)%Z; [intros sid [=]|].
      apply IH; [exact Hv|exact Hvt|exact Hnil].
Qed.

Lemma import_snapshot_imported_as fuel (s : state Sim.World) :
  post (import_snapshot Sim.handle fuel) s (fun r s1 _ =>
    forall sid, r = Ok sid -> Imported_as sid s1).
Proof.
  unfold import_snapshot.
  apply post_bind. eapply post_weaken; [apply sim_upload_rhcos|]. cbv beta.
  intros r1 s1 t1 _. destruct r1 as [[]|e|]; [|intros; discriminate..].
  apply post_bind. eapply post_weaken; [apply sim_rhcos_version|]. cbv beta.
  intros r2 s2 t2 _. destruct r2 as [v2|e|]; [|intros; discriminate..].
  cbv zeta.
  apply post_bind, post_perform; [intros [] w3 Hh|intros; discriminate].
  cbn in Hh. injection Hh as <-.
  apply post_bind. eapply post_weaken; [apply sim_rhcos_version|]. cbv beta.
  intros r4 s4 t4 (_ & Hw4 & He4 & Hc4). cbn [self world] in Hw4, He4.
  destruct r4 as [v4|e|]; [|intros; discriminate..].
  apply post_bind, post_perform; [intros l w5 Hh|intros; discriminate].
  cbn [Sim.handle] in Hh.
  destruct (Sim.is_denied "ec2:DescribeSnapshots" (world s4)) eqn:Hden; [discriminate|].
  destruct v4 as [v|]; [|discriminate]. injection Hh as <- <-.
  destruct (Hc4 v eq_refl) as [Hv Hvt].
  destruct (Sim.snapshots_tagged v (world s4)) as [|sid rest] eqn:Htag.
  - apply post_bind, post_get_self. cbv beta iota.
    apply post_bind. eapply post_weaken; [apply sim_rhcos_filename|]. cbv beta.
    intros r6 s6 t6 (_ & Hw6 & He6 & _). cbn [self world] in Hw6, He6.
    destruct r6 as [f6|e|]; [|intros; discriminate..].
    apply post_bind, post_logger_info. cbv beta iota.
    apply post_bind. eapply post_weaken; [apply sim_rhcos_filename|]. cbv beta.
    intros r7 s7 t7 (_ & Hw7 & He7 & _).
    destruct r7 as [f7|e|]; [|intros; discriminate..].
    apply post_bind, post_perform; [intros id w8 Hh|intros; discriminate].
    cbn [Sim.handle] in Hh.
    destruct (Sim.is_denied "ec2:ImportSnapshot" (world s7)); [discriminate|].
    injection Hh as <- <-.
    assert (Hext : extends (self s4) (self s7)) by eauto using extends_trans.
    assert (Hv7 : _rhcos_version (self s7) = Some v).
    { destruct Hext as (_ & _ & _ & _ & _ & _ & K). now apply (keeps_cached _ _ _ K). }
    eapply post_weaken.
    { apply post_and.
      - apply (poll_import_task_head fuel _ 0 _ v); [exact Hv7|exact Hvt|].
        cbn [world]. unfold Sim.snapshots_tagged in *. cbn [Sim.snapshots Sim.set_tasks].
        now rewrite Hw7, Hw6.
      - apply sim_poll_import_task. }
    cbv beta. intros r9 s9 t9 [Hhead (Hw9 & He9 & _)] sid ->.
    cbn [self world] in Hw9, He9.
    destruct (Hhead sid eq_refl) as (rest & Hrest).
    exists v, rest. split.
    { destruct He9 as (_ & _ & _ & _ & _ & _ & K). now apply (keeps_cached _ _ _ K). }
    split; [exact Hvt|]. split; [|exact Hrest].
    unfold Sim.is_denied in *. rewrite (only_import_denied _ _ Hw9). cbn. now rewrite Hw7, Hw6.
  - apply post_bind, post_logger_info. cbv beta iota.
    apply post_ret. intros sid' [= <-]. exists v, rest. cbn [self world].
    split; [exact Hv|]. split; [exact Hvt|]. split; [exact Hden|exact Htag].
Qed.

Lemma Imported_as_Imported sid s : Imported_as sid s -> Imported s.
Proof.
  intros (v & rest & Hv & Hvt & Hden & Htag). exists v.
  split; [exact Hv|]. split; [exact Hvt|]. split; [exact Hden|]. now rewrite Htag.
Qed.

(** X13: on the simulated account, after [import_snapshot] has returned a
    snapshot id, every further call on the same object returns the same id,
    leaves object and world as they are, and consists of six events: no
    upload, no download, no import request, no poll. *)
Theorem import_snapshot_is_idempotent fuel (s : state Sim.World) sid s1 t :
  import_snapshot Sim.handle fuel s = (Ok sid, s1, t) ->
  forall fuel', exists t',
    import_snapshot Sim.handle fuel' s1 = (Ok sid, s1, t') /\
    List.length t' = 6 /\
    existsb is_upload t' = false /\ existsb is_fetch t' = false /\
    existsb is_import_submit t' = false /\ existsb is_poll t' = false.
Proof.
  intros H fuel'.
  destruct (proj1 (post_eq _ _ _) (import_snapshot_imported fuel s) _ _ _ H sid eq_refl)
    as [Hst _].
  pose proof (proj1 (post_eq _ _ _) (import_snapshot_imported_as fuel s) _ _ _ H sid eq_refl)
    as Has.
  destruct (imported_rerun fuel' s1 Hst (Imported_as_Imported _ _ Has))
    as (f & kc & v & sid' & rest & Hv & _ & Htag & ->).
  destruct Has as (v' & rest' & Hv' & _ & _ & Htag').
  assert (v' = v) as -> by congruence.
  assert (sid' = sid) as -> by congruence.
  eexists. split; [reflexivity|]. repeat split.
Qed.

(** *** The registrar when it succeeds *)

Lemma make_public_named id name l :
  List.filter (fun i => String.eqb (Sim.image_name i) name) (Sim.make_public id l)
  = Sim.make_public id (List.filter (fun i => String.eqb (Sim.image_name i) name) l).
Proof.
  unfold Sim.make_public. induction l as [|i l IH]; [reflexivity|]. cbn [map List.filter].
  assert (Hn : Sim.image_name
                 (if String.eqb (Sim.image_id i) id
                  then Sim.mkImage (Sim.image_id i) (Sim.image_name i) (Sim.image_snapshot i) true
                  else i) = Sim.image_name i)
    by now destruct (String.eqb (Sim.image_id i) id).
  rewrite Hn. destruct (String.eqb (Sim.image_name i) name); cbn [map]; now rewrite IH.
Qed.

Lemma registered_poll_free (t : list (event Sim.Blob)) :
  Forall (fun e => level e <= 3) t -> registered t = None.
Proof. apply registered_low. Qed.

Lemma register_image_registered fuel (s : state Sim.World) :
  post (register_image Sim.handle fuel) s (fun r s1 t =>
    forall img, r = Ok img ->
      Staged s1 /\ (exists sid, Imported_as sid s1) /\ Registered_as img s1 /\
      (forall img', registered t = Some img' ->
         img' = img /\
         exists v sid, _rhcos_version (self s1) = Some v /\
           Sim.images_named ("rhcos-" +:+ v) (world s1)
           = [Sim.mkImage img ("rhcos-" +:+ v) sid true])).
Proof.
  unfold register_image.
  apply post_bind. eapply post_weaken.
  { apply post_and; [apply sim_import_snapshot|apply import_snapshot_imported_as]. }
  cbv beta. intros r1 s1 t1 ((Hreg1 & Hok) & Has).
  destruct r1 as [sid|e|]; [|intros; discriminate..].
  destruct (Hok sid eq_refl) as [Hst _]. specialize (Has sid eq_refl).
  destruct Has as (v & rest & Hv & Hvt & Hdsn & Htag).
  apply post_bind, post_perform; [intros [] w2 Hh|intros; discriminate].
  cbn in Hh. injection Hh as <-.
  apply post_bind.
  eapply (post_run _ _ _ _ _ _ (rhcos_version_cached Sim.handle (mkState (self s1) (world s1)) v Hv Hvt)).
  cbv beta iota. cbn [PyStr.fmt].
  apply post_bind, post_perform; [intros l w3 Hh|intros; discriminate].
  cbn [Sim.handle world] in Hh.
  destruct (Sim.is_denied "ec2:DescribeImages" (world s1)) eqn:Hdim; [discriminate|].
  injection Hh as <- <-.
  destruct (Sim.images_named ("rhcos-" +:+ v) (world s1)) as [|i l] eqn:Hnamed; cbn [map].
  2:{ apply post_bind, post_logger_info. cbv beta iota. apply post_ret.
      intros img [= <-]. rewrite state_eta.
      split; [exact Hst|]. split; [exists sid, v, rest; now repeat split|]. split.
      - exists v, i, l. now repeat split.
      - intros img'. rewrite !registered_app, Hreg1. cbn. discriminate. }
  apply post_bind, post_logger_info. cbv beta iota.
  apply post_bind.
  eapply (post_run _ _ _ _ _ _ (rhcos_version_cached Sim.handle (mkState (self s1) (world s1)) v Hv Hvt)).
  cbv beta iota.
  apply post_bind.
  eapply (post_run _ _ _ _ _ _ (rhcos_version_cached Sim.handle (mkState (self s1) (world s1)) v Hv Hvt)).
  cbv beta iota. cbn [PyStr.fmt].
  apply post_bind, post_perform; [intros id w4 Hh|intros; discriminate].
  cbn [Sim.handle world] in Hh.
  destruct (Sim.is_denied "ec2:RegisterImage" (world s1)); [discriminate|].
  rewrite Hnamed in Hh. injection Hh as <- <-.
  remember ("ami-" +:+ Sim.number (List.length (Sim.images (world s1)))) as id eqn:Eid.
  clear Eid.
  apply post_bind, post_logger_info. cbv beta iota.
  apply post_bind, post_logger_info. cbv beta iota.
  apply post_bind, post_perform; [intros [] w5 Hh|intros; discriminate].
  cbn [Sim.handle world] in Hh.
  destruct (Sim.is_denied "ec2:ModifyImageAttribute" _); [discriminate|].
  destruct (existsb _ _); [|discriminate]. injection Hh as <-.
  apply post_ret. intros img [= <-]. cbn [self world].
  assert (Hnamed' : Sim.images_named ("rhcos-" +:+ v)
            (Sim.set_images
               (Sim.make_public id
                  (Sim.images
                     (Sim.set_images (Sim.images (world s1)
                        ++ [Sim.mkImage id ("rhcos-" +:+ v) sid false]) (world s1))))
               (Sim.set_images (Sim.images (world s1)
                  ++ [Sim.mkImage id ("rhcos-" +:+ v) sid false]) (world s1)))
            = [Sim.mkImage id ("rhcos-" +:+ v) sid true]).
  { unfold Sim.images_named in *. cbn [Sim.images Sim.set_images].
    rewrite make_public_named, List.filter_app, Hnamed. cbn.
    rewrite String.eqb_refl. cbn. now rewrite String.eqb_refl. }
  split; [|split; [|split]].
  - destruct Hst as (f & Hf & Hft & Hdl & Hk). exists f. cbn [self world].
    split; [exact Hf|]. split; [exact Hft|]. split; [exact Hdl|exact Hk].
  - exists sid, v, rest. cbn [self world]. split; [exact Hv|]. split; [exact Hvt|].
    split; [exact Hdsn|exact Htag].
  - exists v, (Sim.mkImage id ("rhcos-" +:+ v) sid true), []. cbn [self world].
    split; [exact Hv|]. split; [exact Hvt|]. split; [exact Hdim|]. split; [exact Hnamed'|].
    reflexivity.
  - intros img'. rewrite !registered_app, Hreg1. cbn. intros [= <-].
    split; [reflexivity|]. exists v, sid. cbn [self world]. split; [exact Hv|exact Hnamed'].
Qed.

(** X14: on the simulated account, after [register_image] has returned an
    image id: if the run registered an image, it is the one returned, and
    it is then the only image of its name and public; and every further
    call on the same object returns the same id, leaves object and world
    as they are, and consists of nine events, none of which uploads,
    downloads, imports, polls, registers or changes launch permissions. *)
Theorem register_image_is_idempotent fuel (s : state Sim.World) img s1 t :
  register_image Sim.handle fuel s = (Ok img, s1, t) ->
  (forall img', registered t = Some img' ->
     img' = img /\
     exists v sid, _rhcos_version (self s1) = Some v /\
       Sim.images_named ("rhcos-" +:+ v) (world s1)
       = [Sim.mkImage img ("rhcos-" +:+ v) sid true]) /\
  (forall fuel', exists t',
     register_image Sim.handle fuel' s1 = (Ok img, s1, t') /\
     List.length t' = 9 /\
     existsb is_upload t' = false /\ existsb is_fetch t' = false /\
     existsb is_import_submit t' = false /\ existsb is_poll t' = false /\
     existsb is_register t' = false /\ existsb is_modify t' = false).
Proof.
  intros H.
  destruct (proj1 (post_eq _ _ _) (register_image_registered fuel s) _ _ _ H img eq_refl)
    as (Hst & (sid & Has) & (v & i & rest & Hv & Hvt & Hdim & Hnamed & Hi) & Hpub).
  split; [exact Hpub|]. intros fuel'.
  destruct (imported_rerun fuel' s1 Hst (Imported_as_Imported _ _ Has))
    as (f & kc & v' & sid' & rest' & Hv' & _ & _ & Him).
  assert (v' = v) as -> by congruence.
  rewrite (register_image_skips Sim.handle fuel' s1 sid' s1 _ (world s1) (Some v) s1 []
             img (map Sim.image_id rest) (world s1) Him).
  - rewrite state_eta. eexists. split; [reflexivity|]. repeat split.
  - reflexivity.
  - rewrite state_eta. now apply rhcos_version_cached.
  - cbn [Sim.handle PyStr.fmt]. rewrite Hdim, Hnamed. cbn [map]. now rewrite Hi.
Qed.

(** *** The importer when tagging fails *)

Lemma low_not_failed_tag (e : event Sim.Blob) : level e <= 2 -> failed_tag e = false.
Proof. destruct e as [X c r|l]; [destruct c|]; cbn; try reflexivity; lia. Qed.

Lemma post_foreign {A} (m : M Sim.Blob (state Sim.World) A) s :
  Foreign m ->
  post m s (fun r _ _ => forall e, r = Raise e -> exists what, e = LibraryError what).
Proof. intros H e. apply H. Qed.

(** A poll loop that raises has tagged nothing. *)
Lemma poll_import_task_raises fuel id te (s : state Sim.World) :
  post (poll_import_task Sim.handle fuel id te) s (fun r s1 t =>
    forall e, r = Raise e -> Sim.snapshots (world s1) = Sim.snapshots (world s)).
Proof.
  revert te s. induction fuel as [|fuel IH]; intros te s; cbn [poll_import_task].
  - intros e [=].
  - apply post_bind, post_logger_info. cbv beta iota.
    apply post_bind, post_perform; [intros d w1 Hh|intros what w1 Hh].
    2:{ intros e _. cbn [world]. cbn [Sim.handle] in Hh.
        destruct (Sim.is_denied _ (world s)); [congruence|].
        destruct (Sim.find_task id (world s)); congruence. }
    assert (Hw1 : w1 = world s).
    { cbn [Sim.handle] in Hh. destruct (Sim.is_denied _ (world s)); [congruence|].
      destruct (Sim.find_task id (world s)); congruence. }
    subst w1. cbv beta iota.
    destruct (String.eqb (Status d) "completed").
    + apply post_bind, post_logger_info. cbv beta iota.
      apply post_bind. eapply post_weaken; [apply sim_rhcos_version|]. cbv beta.
      intros r2 s2 t2 (_ & Hw2 & _). cbn [world] in Hw2.
      destruct r2 as [v2|e2|]; [|intros e _; now rewrite Hw2|intros e [=]].
      apply post_bind, post_logger_info. cbv beta iota.
      apply post_bind. eapply post_weaken; [apply sim_rhcos_version|]. cbv beta.
      intros r3 s3 t3 (_ & Hw3 & _).
      destruct r3 as [v3|e3|]; [|intros e _; now rewrite Hw3, Hw2|intros e [=]].
      apply post_bind, post_perform; [intros [] w4 _; apply post_ret; intros e [=]|].
      intros what w4 Hh' e _. cbn [world]. cbn [Sim.handle] in Hh'.
      destruct (Sim.is_denied "ec2:CreateTags" (world s3));
        [injection Hh' as _ <-
        |destruct v3 as [v|]; [discriminate|injection Hh' as _ <-]];
        now rewrite Hw3, Hw2.
    + apply post_bind, post_logger_info. cbv beta iota zeta.
      apply post_bind, post_perform; [intros [] w2 Hh'|intros what w2 Hh' e _].
      2:{ cbn [Sim.handle] in Hh'. discriminate. }
      cbn [Sim.handle world] in Hh'. injection Hh' as <-.
      destruct (60 * 5 <? te + 10)%Z; [intros e _; reflexivity|].
      eapply post_weaken; [apply IH|]. cbv beta. intros r s1 t H e He.
      now rewrite (H e He).
Qed.

(** When a tagging failed, what the loop raises is what the library
    raised. *)
Lemma poll_import_task_failed_tag fuel id te (s : state Sim.World) :
  post (poll_import_task Sim.handle fuel id te) s (fun r s1 t =>
    forall e, r = Raise e -> existsb failed_tag t = true -> exists what, e = LibraryError what).
Proof.
  revert te s. induction fuel as [|fuel IH]; intros te s; cbn [poll_import_task].
  - intros e [=].
  - apply post_bind, post_logger_info. cbv beta iota.
    apply post_bind, post_perform; [intros d w1 _|intros what w1 _ e [= <-] _; eauto].
    cbv beta iota.
    destruct (String.eqb (Status d) "completed").
    + apply post_bind, post_logger_info. cbv beta iota.
      apply post_bind. eapply post_weaken; [apply (post_foreign _ _ (Foreign_rhcos_version Sim.handle))|].
      cbv beta. intros r2 s2 t2 F2.
      destruct r2 as [v2|e2|]; [|intros e [= <-] _; now apply F2|intros e [=]].
      apply post_bind, post_logger_info. cbv beta iota.
      apply post_bind. eapply post_weaken; [apply (post_foreign _ _ (Foreign_rhcos_version Sim.handle))|].
      cbv beta. intros r3 s3 t3 F3.
      destruct r3 as [v3|e3|]; [|intros e [= <-] _; now apply F3|intros e [=]].
      apply post_bind, post_perform; [intros [] w4 _; apply post_ret; intros e [=]|].
      intros what w4 _ e [= <-] _. eauto.
    + apply post_bind, post_logger_info. cbv beta iota zeta.
      apply post_bind, post_perform; [intros [] w2 _|intros what w2 _ e [= <-] _; eauto].
      destruct (60 * 5 <? te + 10)%Z; [intros e _ [=]|].
      eapply post_weaken; [apply IH|]. cbv beta. intros r s1 t H e He Ht.
      apply (H e He). exact Ht.
Qed.

Lemma post_tame {A} k (m : M Sim.Blob (state Sim.World) A) s :
  Tame k m -> post m s (fun _ _ t => Forall (fun e => level e <= k) t).
Proof. intros H. apply H. Qed.

Lemma low_no_failed_tag k (t : list (event Sim.Blob)) :
  k <= 2 -> Forall (fun e => level e <= k) t -> existsb failed_tag t = false.
Proof.
  intros Hk H. apply (existsb_low (k:=2)); [apply low_not_failed_tag|].
  eapply Forall_impl; [exact H|]. cbv beta. intros. lia.
Qed.

Ltac no_tag :=
  let e := fresh "e" in let Ht := fresh "Ht" in
  intros e _ Ht; exfalso;
  repeat (rewrite existsb_app in Ht; cbn [existsb failed_tag orb] in Ht);
  repeat match goal with
         | H : Forall (fun e => level e <= ?k) ?t |- _ =>
             rewrite (low_no_failed_tag k t ltac:(lia) H) in Ht; clear H
         end;
  cbn [existsb failed_tag orb] in Ht; discriminate Ht.

(** The loop with the version resolved: a tagging fails only where the
    account refuses it, and there the loop returns no snapshot and tags
    none. *)
Lemma poll_import_task_tagging fuel id te (s : state Sim.World) v :
  _rhcos_version (self s) = Some v -> PyStr.truthy v = true ->
  post (poll_import_task Sim.handle fuel id te) s (fun r s1 t =>
    (existsb failed_tag t = true -> Sim.is_denied "ec2:CreateTags" (world s1) = true) /\
    (Sim.is_denied "ec2:CreateTags" (world s) = true ->
     (forall sid, r <> Ok sid) /\ Sim.snapshots (world s1) = Sim.snapshots (world s))).
Proof.
  revert te s. induction fuel as [|fuel IH]; intros te s Hv Hvt; cbn [poll_import_task].
  - split; [discriminate|]. intros _. split; [discriminate|reflexivity].
  - apply post_bind, post_logger_info. cbv beta iota.
    apply post_bind, post_perform; [intros d w1 Hh|intros what w1 Hh].
    2:{ cbn [Sim.handle] in Hh.
        assert (w1 = world s) as ->.
        { destruct (Sim.is_denied _ (world s)); [congruence|].
          destruct (Sim.find_task id (world s)); congruence. }
        split; [discriminate|]. intros _. split; [discriminate|reflexivity]. }
    assert (Hw1 : w1 = world s).
    { cbn [Sim.handle] in Hh. destruct (Sim.is_denied _ (world s)); [congruence|].
      destruct (Sim.find_task id (world s)); congruence. }
    subst w1. cbv beta iota. rewrite state_eta.
    destruct (String.eqb (Status d) "completed").
    + apply post_bind, post_logger_info. cbv beta iota.
      apply post_bind. eapply post_run; [exact (rhcos_version_cached Sim.handle s v Hv Hvt)|].
      apply post_bind, post_logger_info. cbv beta iota.
      apply post_bind. eapply post_run; [exact (rhcos_version_cached Sim.handle s v Hv Hvt)|].
      apply post_bind, post_perform; cbn [Sim.handle];
        destruct (Sim.is_denied "ec2:CreateTags" (world s)) eqn:Hd.
      * intros [] w4 [=].
      * intros [] w4 _. apply post_ret. split; [intros [=]|intros [=]].
      * intros what w4 [= <- <-]. split; [intros _; exact Hd|].
        intros _. split; [discriminate|reflexivity].
      * intros what w4 [=].
    + apply post_bind, post_logger_info. cbv beta iota zeta.
      apply post_bind, post_perform; [intros [] w2 Hh'|intros what w2 Hh'].
      2:{ cbn [Sim.handle] in Hh'. discriminate. }
      cbn [Sim.handle world] in Hh'. injection Hh' as <-.
      destruct (60 * 5 <? te + 10)%Z.
      * split; [intros [=]|]. intros _. split; [discriminate|reflexivity].
      * eapply post_weaken; [apply IH; [exact Hv|exact Hvt]|]. cbv beta.
        intros r s1 t [H1 H2]. split; [exact H1|]. exact H2.
Qed.

Lemma import_snapshot_untaggable fuel (s : state Sim.World) :
  post (import_snapshot Sim.handle fuel) s (fun r s1 t =>
    forall e, r = Raise e -> existsb failed_tag t = true ->
      (exists what, e = LibraryError what) /\ existsb is_import_submit t = true /\
      Untaggable s1).
Proof.
  unfold import_snapshot.
  apply post_bind. eapply post_weaken.
  { apply post_and; [apply sim_upload_rhcos|apply (post_tame 2), Tame_upload_rhcos]. }
  cbv beta. intros r1 s1 t1 ((_ & Hst) & L1).
  destruct r1 as [[]|e|]; [|no_tag|intros e [=]].
  specialize (Hst eq_refl).
  apply post_bind. eapply post_weaken.
  { apply post_and; [apply sim_rhcos_version|apply (post_tame 0), Tame_rhcos_version]. }
  cbv beta. intros r2 s2 t2 ((_ & Hw2 & He2 & _) & L2).
  destruct r2 as [v2|e|]; [|no_tag|intros e [=]].
  cbv zeta.
  apply post_bind, post_perform; [intros [] w3 Hh|intros; discriminate].
  cbn in Hh. injection Hh as <-.
  apply post_bind. eapply post_weaken.
  { apply post_and; [apply sim_rhcos_version|apply (post_tame 0), Tame_rhcos_version]. }
  cbv beta. intros r4 s4 t4 ((_ & Hw4 & He4 & Hc4) & L4). cbn [self world] in Hw4, He4.
  destruct r4 as [v4|e|]; [|no_tag|intros e [=]].
  apply post_bind, post_perform; [intros l w5 Hh|intros ? ? _; no_tag].
  cbn [Sim.handle] in Hh.
  destruct (Sim.is_denied "ec2:DescribeSnapshots" (world s4)) eqn:Hden; [discriminate|].
  destruct v4 as [v|]; [|discriminate]. injection Hh as <- <-.
  destruct (Hc4 v eq_refl) as [Hv Hvt].
  assert (Hst4 : Staged s4).
  { apply (Staged_stable s1 s4); [exact Hst|eauto using extends_trans| |];
      now rewrite Hw4, Hw2. }
  destruct (Sim.snapshots_tagged v (world s4)) as [|sid rest] eqn:Htag.
  2:{ apply post_bind, post_logger_info. cbv beta iota. apply post_ret. intros e [=]. }
  apply post_bind, post_get_self. cbv beta iota.
  apply post_bind. eapply post_weaken.
  { apply post_and; [apply sim_rhcos_filename|apply (post_tame 0), Tame_rhcos_filename]. }
  cbv beta. intros r6 s6 t6 ((_ & Hw6 & He6 & _) & L6). cbn [self world] in Hw6, He6.
  destruct r6 as [f6|e|]; [|no_tag|intros e [=]].
  apply post_bind, post_logger_info. cbv beta iota.
  apply post_bind. eapply post_weaken.
  { apply post_and; [apply sim_rhcos_filename|apply (post_tame 0), Tame_rhcos_filename]. }
  cbv beta. intros r7 s7 t7 ((_ & Hw7 & He7 & _) & L7).
  destruct r7 as [f7|e|]; [|no_tag|intros e [=]].
  apply post_bind, post_perform; [intros id w8 Hh|intros ? ? _; no_tag].
  cbn [Sim.handle] in Hh.
  destruct (Sim.is_denied "ec2:ImportSnapshot" (world s7)) eqn:Hdi; [discriminate|].
  injection Hh as <- <-.
  assert (Hv7 : _rhcos_version (self s7) = Some v).
  { assert (Hext : extends (self s4) (self s7)) by eauto using extends_trans.
    destruct Hext as (_ & _ & _ & _ & _ & _ & K). now apply (keeps_cached _ _ _ K). }
  eapply post_weaken.
  { apply post_and; [apply post_and; [apply post_and|]|];
      [apply poll_import_task_raises|apply poll_import_task_failed_tag
      |apply (poll_import_task_tagging fuel _ 0 _ v); [exact Hv7|exact Hvt]
      |apply sim_poll_import_task]. }
  cbv beta. intros r9 s9 t9 (((Hsn & Hft) & (Hdt & _)) & (Hw9 & He9 & _)) e -> Ht.
  cbn [self world] in Hw9, He9, Hsn.
  assert (Ht9 : existsb failed_tag t9 = true).
  { repeat (rewrite existsb_app in Ht; cbn [existsb failed_tag orb] in Ht).
    rewrite (low_no_failed_tag 2 t1 ltac:(lia) L1), (low_no_failed_tag 0 t2 ltac:(lia) L2),
      (low_no_failed_tag 0 t4 ltac:(lia) L4), (low_no_failed_tag 0 t6 ltac:(lia) L6),
      (low_no_failed_tag 0 t7 ltac:(lia) L7) in Ht.
    exact Ht. }
  split; [exact (Hft e eq_refl Ht9)|].
  split.
  { rewrite !existsb_app. cbn [existsb is_import_submit orb]. now rewrite ?orb_true_r. }
  assert (Hext : extends (self s4) (self s9)) by eauto using extends_trans.
  assert (Hobj : Sim.objects (world s9) = Sim.objects (world s4)).
  { rewrite (only_import_objects _ _ Hw9). cbn. now rewrite Hw7, Hw6. }
  assert (Hdn : Sim.denied (world s9) = Sim.denied (world s4)).
  { rewrite (only_import_denied _ _ Hw9). cbn. now rewrite Hw7, Hw6. }
  split; [|exact (Hdt Ht9)].
  split; [now apply (Staged_stable s4 s9)|].
  exists v. split.
  { destruct Hext as (_ & _ & _ & _ & _ & _ & K). now apply (keeps_cached _ _ _ K). }
  split; [exact Hvt|].
  unfold Sim.is_denied in *. rewrite Hdn.
  split; [exact Hden|]. split; [now rewrite <- Hw6, <- Hw7|].
  unfold Sim.snapshots_tagged in *. rewrite (Hsn e eq_refl). cbn [Sim.snapshots Sim.set_tasks].
  now rewrite Hw7, Hw6.
Qed.

(** Where tagging is refused, a call submits an import, returns no
    snapshot, and leaves the account as refusing and as untagged as it
    found it. *)
Lemma untaggable_rerun fuel (s1 : state Sim.World) :
  Untaggable s1 ->
  post (import_snapshot Sim.handle fuel) s1 (fun r s2 t =>
    existsb is_import_submit t = true /\ (forall sid, r <> Ok sid) /\ Untaggable s2).
Proof.
  intros [(Hst & v & Hv & Hvt & Hden & Hdi & Htag) Hdt].
  destruct (staged_rerun s1 Hst) as (f & kc & Hf & Hup).
  pose proof Hst as (f' & Hf' & Hft & _).
  assert (f' = f) as -> by congruence.
  unfold import_snapshot.
  apply post_bind. eapply post_run; [exact Hup|].
  apply post_bind. eapply post_run; [exact (rhcos_version_cached Sim.handle s1 v Hv Hvt)|].
  cbv zeta.
  apply post_bind, post_perform; [intros [] w3 Hh|intros ? ? [=]].
  cbn in Hh. injection Hh as <-. rewrite state_eta.
  apply post_bind. eapply post_run; [exact (rhcos_version_cached Sim.handle s1 v Hv Hvt)|].
  apply post_bind, post_perform; cbn [Sim.handle]; rewrite Hden, Htag; [|intros ? ? [=]].
  intros l w5 [= <- <-]. rewrite state_eta.
  apply post_bind, post_get_self. cbv beta iota.
  apply post_bind. eapply post_run; [exact (rhcos_filename_cached Sim.handle s1 f Hf Hft)|].
  apply post_bind, post_logger_info. cbv beta iota.
  apply post_bind. eapply post_run; [exact (rhcos_filename_cached Sim.handle s1 f Hf Hft)|].
  apply post_bind, post_perform; cbn [Sim.handle]; rewrite Hdi; [|intros ? ? [=]].
  intros id w8 [= <- <-].
  eapply post_weaken.
  { apply post_and;
      [apply (poll_import_task_tagging fuel _ 0 _ v); [exact Hv|exact Hvt]
      |apply sim_poll_import_task]. }
  cbv beta. intros r9 s9 t9 ((_ & Hnt) & (Hw9 & He9 & _)).
  cbn [self world] in Hw9, He9, Hnt.
  destruct (Hnt Hdt) as [Hno Hsn]. cbn [Sim.snapshots Sim.set_tasks] in Hsn.
  split; [rewrite !existsb_app; cbn [existsb is_import_submit orb]; now rewrite ?orb_true_r|].
  split; [exact Hno|].
  assert (Hobj : Sim.objects (world s9) = Sim.objects (world s1)).
  { now rewrite (only_import_objects _ _ Hw9). }
  assert (Hdn : Sim.denied (world s9) = Sim.denied (world s1)).
  { now rewrite (only_import_denied _ _ Hw9). }
  split; [|unfold Sim.is_denied in *; now rewrite Hdn].
  split; [now apply (Staged_stable s1 s9)|].
  exists v. split.
  { destruct He9 as (_ & _ & _ & _ & _ & _ & K). now apply (keeps_cached _ _ _ K). }
  split; [exact Hvt|].
  unfold Sim.is_denied in *. rewrite Hdn.
  split; [exact Hden|]. split; [exact Hdi|].
  unfold Sim.snapshots_tagged in *. now rewrite Hsn.
Qed.

Lemma untaggable_after_calls fuels (s1 : state Sim.World) :
  Untaggable s1 -> Untaggable (after_calls fuels s1).
Proof.
  revert s1. induction fuels as [|fuel fuels IH]; intros s1 H; [exact H|].
  cbn [after_calls fold_left]. apply IH. apply (untaggable_rerun fuel s1 H).
Qed.

(** X18: on the simulated account, when a call of [import_snapshot] raised
    and its trace holds a [create_tags] call that failed, the exception is
    the library's and the call had submitted an import.  From then on,
    after any number of further calls on the same object, no snapshot
    carries the version's tag, and the next call submits an import again
    and returns no snapshot: the snapshot of an earlier import is never
    found. *)
Theorem failed_tagging_repeats_the_import fuel (s : state Sim.World) e s1 t :
  import_snapshot Sim.handle fuel s = (Raise e, s1, t) ->
  existsb failed_tag t = true ->
  (exists what, e = LibraryError what) /\
  existsb is_import_submit t = true /\
  forall (fuels : list nat) (fuel' : nat),
    let s' := after_calls fuels s1 in
    let run := import_snapshot Sim.handle fuel' s' in
    (exists v, _rhcos_version (self s') = Some v /\
               Sim.snapshots_tagged v (world s') = []) /\
    existsb is_import_submit (events_of run) = true /\
    (forall sid, outcome_of run <> Ok sid).
Proof.
  intros H Ht.
  destruct (proj1 (post_eq _ _ _) (import_snapshot_untaggable fuel s) _ _ _ H e eq_refl Ht)
    as (He & Hsub & Hu).
  split; [exact He|]. split; [exact Hsub|].
  intros fuels fuel' s' run.
  pose proof (untaggable_after_calls fuels s1 Hu) as Hu'. fold s' in Hu'.
  destruct (untaggable_rerun fuel' s' Hu') as (R1 & R2 & _).
  split; [|split; [exact R1|exact R2]].
  destruct Hu' as [(_ & v & Hv & _ & _ & _ & Htag) _]. now exists v.
Qed.

(* ===================================================================== *)
(** ** Further properties: what each stage never does *)
(* ===================================================================== *)

Section Stages.

Context {Blob World : Type}.
Variable handle : forall X : Type, call Blob X -> World -> reply X * World.

Lemma low_not_aws (e : event Blob) : level e <= 1 -> is_aws e = false.
Proof.
  destruct e as [X c r|l]; [destruct c|]; cbn; try reflexivity; try lia.
  destruct (String.eqb service "s3"); lia.
Qed.

Lemma low_not_ec2 (e : event Blob) : level e <= 2 -> is_ec2 e = false.
Proof.
  destruct e as [X c r|l]; [destruct c|]; cbn; try reflexivity; try lia.
  destruct (String.eqb service "s3"); [reflexivity|lia].
Qed.

Lemma low_not_image_call (e : event Blob) : level e <= 3 -> is_image_call e = false.
Proof. destruct e as [X c r|l]; [destruct c|]; cbn; try reflexivity; lia. Qed.

Lemma Forall_level_le k k' (t : list (event Blob)) :
  k <= k' -> Forall (fun e => level e <= k) t -> Forall (fun e => level e <= k') t.
Proof. intros Hk H. eapply Forall_impl; [exact H|]. cbv beta. intros. lia. Qed.

Local Abbreviation Avoids := (Avoids (Blob:=Blob) (World:=World)).

Lemma Avoids_bind {A B} p (m : M Blob (state World) A) (f : A -> M Blob (state World) B) :
  Avoids p m -> (forall a, Avoids p (f a)) -> Avoids p (bind m f).
Proof.
  intros Hm Hf s. specialize (Hm s). unfold bind, events_of in *.
  destruct (m s) as [[[a|e|] s1] t1]; cbn [fst snd] in *; try exact Hm.
  specialize (Hf a s1). unfold events_of in Hf.
  destruct (f a s1) as [[r2 s2] t2]. cbn [fst snd] in *.
  now rewrite existsb_app, Hm, Hf.
Qed.

Lemma Avoids_perform {X} p (c : call Blob X) :
  (forall r, p (Called c r) = false) -> Avoids p (perform handle c).
Proof.
  intros H s. unfold perform, perform_top, events_of.
  destruct (handle X c (world s)) as [[x|what] w']; cbn; now rewrite H.
Qed.

Lemma Avoids_logger_info p msg :
  p (Logged (INFO msg)) = false -> Avoids p (logger_info msg).
Proof. intros H s. cbn. now rewrite H. Qed.

Lemma Avoids_lazily {A} p (wrap : string -> A) slot (compute : M Blob (state World) A) :
  Avoids p compute -> Avoids p (lazily wrap slot compute).
Proof.
  intros H. unfold lazily. destruct slot as [v|]; [|exact H].
  destruct (PyStr.truthy v); [intros s; reflexivity|exact H].
Qed.

Lemma Avoids_weaken {A} (p q : event Blob -> bool) (m : M Blob (state World) A) :
  (forall e, q e = true -> p e = true) -> Avoids p m -> Avoids q m.
Proof.
  intros H Hm s. specialize (Hm s).
  destruct (existsb q (events_of (m s))) eqn:E; [|reflexivity].
  apply existsb_exists in E as (e & He & Hq).
  rewrite <- Hm. symmetry. apply existsb_exists. exists e. split; [exact He|now apply H].
Qed.

Ltac avoids_go :=
  repeat first
    [ lazymatch goal with
      | |- Avoids _ (bind _ _) => apply Avoids_bind; [|intros]
      | |- Avoids _ (lazily _ _ _) => apply Avoids_lazily
      | |- Avoids _ (ret _) => intros ?; reflexivity
      | |- Avoids _ (raise _) => intros ?; reflexivity
      | |- Avoids _ get_self => intros ?; reflexivity
      | |- Avoids _ (assign _) => intros ?; reflexivity
      | |- Avoids _ (logger_info _) => apply Avoids_logger_info; reflexivity
      | |- Avoids _ (perform _ _) => apply Avoids_perform; intros; reflexivity
      | |- Avoids _ (match ?x with _ => _ end) => destruct x
      end
    | progress cbv zeta ].

Lemma Avoids_data : Avoids is_local_io (data handle).
Proof. unfold data. avoids_go. Qed.

Lemma Avoids_rhcos_version : Avoids is_local_io (rhcos_version handle).
Proof. unfold rhcos_version. avoids_go. apply Avoids_data. Qed.

Lemma Avoids_rhcos_filename : Avoids is_local_io (rhcos_filename handle).
Proof. unfold rhcos_filename. avoids_go. apply Avoids_rhcos_version. Qed.

Lemma Avoids_rhcos_url : Avoids is_local_io (rhcos_url handle).
Proof.
  unfold rhcos_url. avoids_go;
    try apply Avoids_rhcos_version; try apply Avoids_rhcos_filename.
Qed.

(** A call to the local disk other than the one to [tempfile.gettempdir()]. *)
Lemma Avoids_rhcos_path :
  Avoids (fun e => is_local_io e && negb (is_gettempdir e)) (rhcos_path handle).
Proof.
  unfold rhcos_path. avoids_go.
  apply (Avoids_weaken is_local_io); [|apply Avoids_rhcos_filename].
  intros e [H _]%andb_prop. exact H.
Qed.

Lemma rhcos_path_one_gettempdir (s : state World) :
  count_events is_gettempdir (events_of (rhcos_path handle s)) <= 1.
Proof.
  assert (Z : forall t : list (event Blob),
            existsb is_gettempdir t = false -> count_events is_gettempdir t = 0).
  { unfold count_events. induction t as [|e t IH]; [reflexivity|]. cbn [existsb List.filter].
    intros [He Ht]%orb_false_elim. rewrite He. now apply IH. }
  assert (F : forall s', count_events is_gettempdir (events_of (rhcos_filename handle s')) = 0).
  { intros s'. apply Z. apply (Avoids_weaken is_local_io); [|apply Avoids_rhcos_filename].
    intros [X c r|l]; [destruct c|]; cbn; congruence. }
  change (post (rhcos_path handle) s (fun _ _ t => count_events is_gettempdir t <= 1)).
  assert (G : post (bind (perform handle tempfile_gettempdir) (fun tmp =>
                    bind (rhcos_filename handle) (fun f =>
                    bind (assign (set_rhcos_path (Some (PyStr.os_path_join tmp f))))
                         (fun _ => ret (PyStr.os_path_join tmp f))))) s
                (fun _ _ t => count_events is_gettempdir t <= 1)).
  { apply post_bind, post_perform; [intros tmp w' _|intros what w' _; cbn; lia].
    apply post_bind. unfold post at 1.
    pose proof (F (mkState (self s) w')) as F'.
    destruct (rhcos_filename handle (mkState (self s) w')) as [[[f|e|] s2] t2];
      unfold outcome_of, state_of, events_of in *; cbn [fst snd] in *.
    - unfold post, bind, assign, ret, events_of. cbn [fst snd app].
      rewrite app_nil_r. change (S (count_events is_gettempdir t2) <= 1). lia.
    - cbn [app]. change (S (count_events is_gettempdir t2) <= 1). lia.
    - cbn [app]. change (S (count_events is_gettempdir t2) <= 1). lia. }
  unfold rhcos_path. apply post_bind, post_get_self. cbv beta iota. cbn [app].
  unfold lazily. destruct (_rhcos_path (self s)) as [v|]; [|exact G].
  destruct (PyStr.truthy v); [|exact G]. apply post_ret. cbn. lia.
Qed.

(** X15: in any environment, [data], [rhcos_version], [rhcos_filename] and
    [rhcos_url] make no call to AWS, none to the local disk and never
    sleep; [rhcos_path] does the same but for at most one call of
    [tempfile.gettempdir()]; [download_rhcos] makes no call to AWS;
    [upload_rhcos] makes no call to EC2; [import_snapshot] makes no call
    about images. *)
Theorem each_method_stays_in_its_stage (fuel : nat) (s : state World) :
  let quiet_property (t : list (event Blob)) :=
    existsb is_aws t = false /\ existsb is_local_io t = false in
  quiet_property (events_of (data handle s)) /\
  quiet_property (events_of (rhcos_version handle s)) /\
  quiet_property (events_of (rhcos_filename handle s)) /\
  quiet_property (events_of (rhcos_url handle s)) /\
  (existsb is_aws (events_of (rhcos_path handle s)) = false /\
   existsb (fun e => is_local_io e && negb (is_gettempdir e))
     (events_of (rhcos_path handle s)) = false /\
   count_events is_gettempdir (events_of (rhcos_path handle s)) <= 1) /\
  existsb is_aws (events_of (download_rhcos handle s)) = false /\
  existsb is_ec2 (events_of (upload_rhcos handle s)) = false /\
  existsb is_image_call (events_of (import_snapshot handle fuel s)) = false.
Proof.
  cbv zeta.
  assert (P : forall A (m : M Blob (state World) A), Tame 0 m ->
            existsb is_aws (events_of (m s)) = false).
  { intros A m H. destruct (H s) as [_ Hl].
    apply (existsb_low (k:=1) is_aws); [apply low_not_aws|].
    now apply (Forall_level_le 0 1); [lia|]. }
  split; [split; [apply P, Tame_data|apply Avoids_data]|].
  split; [split; [apply P, Tame_rhcos_version|apply Avoids_rhcos_version]|].
  split; [split; [apply P, Tame_rhcos_filename|apply Avoids_rhcos_filename]|].
  split; [split; [apply P, Tame_rhcos_url|apply Avoids_rhcos_url]|].
  split; [split; [apply P, Tame_rhcos_path
                 |split; [apply Avoids_rhcos_path|apply rhcos_path_one_gettempdir]]|].
  split; [|split].
  - apply (existsb_low (k:=1) is_aws); [apply low_not_aws|apply Tame_download_rhcos].
  - apply (existsb_low (k:=2) is_ec2); [apply low_not_ec2|apply Tame_upload_rhcos].
  - apply (existsb_low (k:=3) is_image_call); [apply low_not_image_call|apply Tame_import_snapshot].
Qed.

(** X16: in any environment, no property and no method changes
    [self.version] or [self.s3_bucket], and none replaces a cached value
    that Python counts as true. *)
Theorem methods_only_fill_caches (fuel : nat) (s : state World) :
  extends (self s) (self (state_of (data handle s))) /\
  extends (self s) (self (state_of (rhcos_version handle s))) /\
  extends (self s) (self (state_of (rhcos_filename handle s))) /\
  extends (self s) (self (state_of (rhcos_url handle s))) /\
  extends (self s) (self (state_of (rhcos_path handle s))) /\
  extends (self s) (self (state_of (download_rhcos handle s))) /\
  extends (self s) (self (state_of (upload_rhcos handle s))) /\
  extends (self s) (self (state_of (import_snapshot handle fuel s))) /\
  extends (self s) (self (state_of (register_image handle fuel s))).
Proof.
  repeat match goal with |- _ /\ _ => split end.
  - apply Tame_data.
  - apply Tame_rhcos_version.
  - apply Tame_rhcos_filename.
  - apply Tame_rhcos_url.
  - apply Tame_rhcos_path.
  - apply Tame_download_rhcos.
  - apply Tame_upload_rhcos.
  - apply Tame_import_snapshot.
  - apply Tame_register_image.
Qed.

End Stages.

(* ===================================================================== *)
(** ** Further properties at concrete inputs *)
(* ===================================================================== *)

Lemma reply_eta {X W} (p : reply X * W) r : fst p = r -> p = (r, snd p).
Proof. intros <-. now destruct p. Qed.

(** The unpacked image is on disk: no GET of the artifact, nothing written. *)
Lemma download_rhcos_skips_existing_file_witness :
  let run := download_rhcos Sim.handle (job already_downloaded) in
  outcome_of run = Ok tt /\
  existsb (fun e => match e with Called (file_write _ _) _ => true | _ => false end)
    (events_of run) = false.
Proof.
  intros run.
  pose (located := rhcos_path Sim.handle (job already_downloaded)).
  destruct (download_rhcos_skips_existing_file Sim.handle (job already_downloaded)
              "/tmp/rhcos-47.83.202103251640-0-aws.x86_64.vmdk"
              (state_of located) (events_of located)
              (snd (Sim.handle _ (os_path_exists "/tmp/rhcos-47.83.202103251640-0-aws.x86_64.vmdk")
                                 (world (state_of located))))) as [H _].
  - apply run_outcome. by_run.
  - apply reply_eta. by_run.
  - unfold run. rewrite H. split; [reflexivity|]. by_run.
Defined.

(** The URL of release 4.7.7, from one GET of its release text. *)
Lemma rhcos_url_of_a_fresh_object_witness :
  outcome_of (rhcos_url Sim.handle (mkState (__init__ "4.7.7" bucket) empty_account))
  = Ok url /\
  outcome_of (rhcos_url Sim.handle (mkState (__init__ "4.7.7" bucket) no_machine_os))
  = Raise TypeError_join.
Proof.
  split.
  - pose proof (rhcos_url_of_a_fresh_object Sim.handle "4.7.7" bucket empty_account
                  (mkResponse release_txt (Sim.mkBlob 0 None)) empty_account) as H.
    change (PyStr.re_search_machine_os (text (mkResponse release_txt (Sim.mkBlob 0 None))))
      with (Some rhcos) in H.
    cbv iota in H. rewrite H; [reflexivity|by_run].
  - pose proof (rhcos_url_of_a_fresh_object Sim.handle "4.7.7" bucket no_machine_os
                  (mkResponse release_txt_without_machine_os (Sim.mkBlob 0 None))
                  no_machine_os) as H.
    change (PyStr.re_search_machine_os
              (text (mkResponse release_txt_without_machine_os (Sim.mkBlob 0 None))))
      with (@None string) in H.
    cbv iota in H. rewrite H; [reflexivity|by_run|discriminate].
Defined.

(** A complete archive is unpacked; a body that is no gzip stream leaves an
    empty file behind, which the next call takes for the image. *)
Lemma download_rhcos_unpacks_or_leaves_debris_witness :
  let good := download_rhcos Sim.handle (job empty_account) in
  let bad := download_rhcos Sim.handle (job not_a_gzip) in
  let next := download_rhcos Sim.handle (job (world (state_of bad))) in
  (outcome_of good = Ok tt /\
   Sim.files (world (state_of good)) !! "/tmp/rhcos-47.83.202103251640-0-aws.x86_64.vmdk"
   = Some (Sim.mkBlob 1000000000 None)) /\
  (outcome_of bad = Raise (LibraryError "BadGzipFile") /\
   Sim.files (world (state_of bad)) !! "/tmp/rhcos-47.83.202103251640-0-aws.x86_64.vmdk"
   = Some (Sim.mkBlob 0 None) /\
   outcome_of next = Ok tt).
Proof.
  intros good bad next. split.
  - pose (located := rhcos_path Sim.handle (job empty_account)).
    pose (linked := rhcos_url Sim.handle (state_of located)).
    destruct (download_rhcos_unpacks_or_leaves_debris (__init__ "4.7.7" bucket) empty_account
                "/tmp/rhcos-47.83.202103251640-0-aws.x86_64.vmdk"
                (state_of located) (events_of located)
                url (state_of linked) (events_of linked)
                (mkResponse "" vmdk_gz)) as (_ & _ & H1 & H2 & _).
    + apply run_outcome. by_run.
    + by_run.
    + apply run_outcome. by_run.
    + by_run.
    + vm_compute. discriminate.
    + split; [exact H1|exact H2].
  - pose (located := rhcos_path Sim.handle (job not_a_gzip)).
    pose (linked := rhcos_url Sim.handle (state_of located)).
    destruct (download_rhcos_unpacks_or_leaves_debris (__init__ "4.7.7" bucket) not_a_gzip
                "/tmp/rhcos-47.83.202103251640-0-aws.x86_64.vmdk"
                (state_of located) (events_of located)
                url (state_of linked) (events_of linked)
                (mkResponse "" (Sim.mkBlob 900000000 None))) as (_ & _ & H1 & H2 & _ & H4).
    + apply run_outcome. by_run.
    + by_run.
    + apply run_outcome. by_run.
    + by_run.
    + vm_compute. discriminate.
    + split; [exact H1|]. split; [exact H2|].
      pose (again := rhcos_path Sim.handle (job (world (state_of bad)))).
      unfold next, bad, job.
      rewrite (H4 (__init__ "4.7.7" bucket) (state_of again) (events_of again));
        [reflexivity|].
      apply run_outcome. by_run.
Defined.

(** On an empty account the pipeline stages, imports and registers; each
    method called again on the object it left does nothing. *)
Lemma upload_rhcos_is_idempotent_witness :
  let first := upload_rhcos Sim.handle (job empty_account) in
  outcome_of first = Ok tt /\
  existsb is_upload (events_of first) = true /\
  exists t', upload_rhcos Sim.handle (state_of first) = (Ok tt, state_of first, t') /\
             existsb is_upload t' = false.
Proof.
  intros first.
  destruct (upload_rhcos_is_idempotent (job empty_account) (state_of first) (events_of first))
    as (t' & H1 & _ & H2 & _).
  - apply run_outcome. by_run.
  - split; [by_run|]. split; [by_run|]. exists t'. now split.
Defined.

Lemma import_snapshot_is_idempotent_witness :
  let first := import_snapshot Sim.handle 31 (job empty_account) in
  outcome_of first = Ok "snap-import-snap-0" /\
  slept (events_of first) = 30%Z /\
  exists t', import_snapshot Sim.handle 0 (state_of first)
             = (Ok "snap-import-snap-0", state_of first, t') /\
             existsb is_import_submit t' = false.
Proof.
  intros first.
  destruct (import_snapshot_is_idempotent 31 (job empty_account) "snap-import-snap-0"
              (state_of first) (events_of first)) with (fuel' := 0)
    as (t' & H1 & _ & _ & _ & H2 & _).
  - apply run_outcome. by_run.
  - split; [by_run|]. split; [by_run|]. exists t'. now split.
Defined.

Lemma register_image_is_idempotent_witness :
  let first := register_image Sim.handle 31 (job empty_account) in
  outcome_of first = Ok "ami-0" /\
  map Sim.image_public (Sim.images (world (state_of first))) = [true] /\
  exists t', register_image Sim.handle 0 (state_of first) = (Ok "ami-0", state_of first, t') /\
             existsb is_register t' = false /\ existsb is_modify t' = false.
Proof.
  intros first.
  destruct (register_image_is_idempotent 31 (job empty_account) "ami-0"
              (state_of first) (events_of first)) as [_ H].
  - apply run_outcome. by_run.
  - destruct (H 0) as (t' & H1 & _ & _ & _ & _ & _ & H2 & H3).
    split; [by_run|]. split; [by_run|]. exists t'. now repeat split.
Defined.

(** On an empty account the import takes 25 seconds: four polls, thirty
    seconds of sleep, and the snapshot of the fourth answer is returned. *)
Lemma import_snapshot_returns_the_completed_snapshot_witness :
  let run := import_snapshot Sim.handle 31 (job empty_account) in
  option_map SnapshotId (last_poll (events_of run)) = Some "snap-import-snap-0" /\
  count_events is_poll (events_of run) = 4 /\
  slept (events_of run) = 30%Z /\
  waits (events_of run) = [10; 10; 10; 0]%Z.
Proof.
  intros run.
  destruct (import_snapshot_returns_the_completed_snapshot Sim.handle 31 (job empty_account)
              "snap-import-snap-0" (state_of run) (events_of run))
    as (d & tag & H1 & _ & H3 & _ & _ & H6 & H7).
  - apply run_outcome. by_run.
  - by_run.
  - assert (Hn : count_events is_poll (events_of run) = 4) by by_run.
    split; [now rewrite H1, <- H3|]. split; [exact Hn|].
    split; [rewrite H6, Hn; reflexivity|rewrite H7, Hn; reflexivity].
Defined.

Lemma failed_tagging_repeats_the_import_witness :
  let first := import_snapshot Sim.handle 31 (job no_tagging) in
  let again := import_snapshot Sim.handle 31 (state_of first) in
  let third := import_snapshot Sim.handle 31 (state_of again) in
  outcome_of first = Raise (LibraryError "UnauthorizedOperation") /\
  existsb failed_tag (events_of first) = true /\
  Sim.snapshots (world (state_of first)) = [] /\
  existsb is_import_submit (events_of again) = true /\
  existsb is_import_submit (events_of third) = true /\
  map Sim.task_id (Sim.tasks (world (state_of third)))
  = ["import-snap-0"; "import-snap-1"; "import-snap-2"].
Proof.
  intros first again third.
  destruct (failed_tagging_repeats_the_import 31 (job no_tagging)
              (LibraryError "UnauthorizedOperation") (state_of first) (events_of first))
    as (_ & _ & H).
  - apply run_outcome. by_run.
  - by_run.
  - destruct (H [] 31) as (_ & H1 & _). destruct (H [31] 31) as (_ & H2 & _).
    split; [by_run|]. split; [by_run|]. split; [by_run|].
    split; [exact H1|]. split; [exact H2|by_run].
Defined.


(** The release text read once is still served from the
    cache after the whole pipeline has run on the same object. *)
Lemma true_values_are_computed_once_witness :
  let first := data Sim.handle (job empty_account) in
  let later := register_image Sim.handle 31 (state_of first) in
  data Sim.handle (state_of later) = (Ok release_txt, state_of later, []).
Proof.
  intros first later.
  destruct (true_values_are_computed_once Sim.handle (job empty_account)) as [H _].
  apply (H release_txt (state_of first) (events_of first)).
  - apply run_outcome. by_run.
  - discriminate.
  - apply (Tame_register_image Sim.handle 31).
Defined.

(** The resolver on a release text without [machine-os]. *)
Lemma version_not_found_is_logged_not_raised_witness :
  let fetched := data Sim.handle (job no_machine_os) in
  outcome_of (rhcos_version Sim.handle (job no_machine_os)) = Ok None /\
  py_not (_rhcos_version (self (state_of fetched))) = true.
Proof.
  intros fetched.
  destruct (version_not_found_is_logged_not_raised Sim.handle (job no_machine_os)
              release_txt_without_machine_os (state_of fetched) (events_of fetched))
    as [H1 H2].
  - reflexivity.
  - apply run_outcome. by_run.
  - reflexivity.
  - split; [now rewrite H1|exact H2].
Defined.

(** A version with a patch number of 4301 digits passes the filter and has
    no key; a list that holds it cannot be sorted. *)
Lemma filtered_version_sort_key_witness :
  Discovery.selected ["4.7"] long_patch = true /\
  parts_fit long_patch = false /\
  Discovery.sort_key long_patch = None /\
  Discovery.sort_versions ["4.7.3"; long_patch; "4.7.10"] = None.
Proof.
  assert (S : Discovery.selected ["4.7"] long_patch = true) by by_run.
  assert (E : parts_fit long_patch = false) by by_run.
  pose proof (filtered_version_sort_key long_patch) as K.
  rewrite E in K. destruct K as [K1 K2].
  - unfold Discovery.selected in S. now apply andb_prop in S as [_ S].
  - split; [exact S|]. split; [exact E|]. split; [exact K1|].
    apply K2. right. now left.
Defined.
